(** * InsightHub ingestion core: budget-governed multi-source aggregation

    A shallow embedding of the ingestion package of the repository
    (backend/apps/ingestion): the budget tracker and rate limiter of
    [budget_control.py], the Foursquare and Mock adapters of [sources/],
    the aggregator of [services/data_collector.py] and the request handlers
    of [views.py], followed by the properties established about them.

    Conventions.
    - Python [float] is IEEE binary64; it is the Standard Library's
      [spec_float] at precision 53 and exponent bound 1024, so every
      addition, subtraction, product, quotient and comparison below is the
      bit-exact one.
    - Python [int] is [Z].
    - A Python [dict] is an association list in insertion order with unique
      keys ([dict_get], [dict_set]); JSON payloads and the records built from
      them are values of [pyval].
    - A raised exception is the left injection of a sum, a returned value
      the right one.
    - Reads of the wall clock ([datetime.now()], [time()]) are parameters of
      the functions that perform them.
    - Logging is not modelled. *)

From Stdlib Require Import ZArith QArith Qabs String Ascii List Bool Lia Lqa.
From Stdlib Require Import Floats.SpecFloat DecimalString.
From stdpp Require Import base gmap strings.
Import ListNotations.

Local Open Scope string_scope.
Local Open Scope Z_scope.

(** String concatenation, as in the f-strings of the source. *)
Infix "+++" := String.append (at level 60, right associativity).

(** ** Python values *)

Module Py.

(** *** binary64 *)

Definition prec : Z := 53.
Definition emax : Z := 1024.

Abbreviation float := spec_float.

Definition fadd : float -> float -> float := SFadd prec emax.
Definition fsub : float -> float -> float := SFsub prec emax.
Definition fmul : float -> float -> float := SFmul prec emax.
Definition fdiv : float -> float -> float := SFdiv prec emax.
Definition flt : float -> float -> bool := SFltb.
Definition fle : float -> float -> bool := SFleb.
Definition fgt (x y : float) : bool := SFltb y x.
Definition fge (x y : float) : bool := SFleb y x.

(** The binary64 nearest to the rational [n / d]: what a decimal literal
    such as [0.017] (that is [17 / 1000]) denotes, and what the true
    division [n / d] of two ints returns. *)
Definition float_of_ratio (n : Z) (d : positive) : float :=
  match n with
  | Z0 => S754_zero false
  | Zpos m => SFdiv prec emax (S754_finite false m 0) (S754_finite false d 0)
  | Zneg m => SFdiv prec emax (S754_finite true m 0) (S754_finite false d 0)
  end.

(** [float(z)] for an int [z]. *)
Definition float_of_Z (z : Z) : float := binary_normalize prec emax z 0 false.

(** The exact value of a finite float as a fraction [n / d]. *)
Definition float_ratio (x : float) : option (Z * positive) :=
  match x with
  | S754_zero _ => Some (0, 1%positive)
  | S754_finite s m e =>
      let v := cond_Zopp s (Zpos m) in
      match e with
      | Z0 => Some (v, 1%positive)
      | Zpos p => Some (v * 2 ^ Zpos p, 1%positive)
      | Zneg p => Some (v, Pos.pow 2 p)
      end
  | _ => None
  end.

(** The exact value of a finite float as a rational number. *)
Definition float_Q (x : float) : option Q :=
  match float_ratio x with
  | Some (n, d) => Some (Qmake n d)
  | None => None
  end.

(** Exact comparison of an int with a float, as Python's mixed
    comparisons are. *)
Definition Zcompare_float (z : Z) (x : float) : option comparison :=
  match x with
  | S754_nan => None
  | S754_infinity s => Some (if s then Gt else Lt)
  | _ =>
      match float_ratio x with
      | Some (n, d) => Some (z * Zpos d ?= n)
      | None => None
      end
  end.

Definition Zge_float (z : Z) (x : float) : bool :=
  match Zcompare_float z x with
  | Some (Gt | Eq) => true
  | _ => false
  end.

Definition fgt_Z (x : float) (z : Z) : bool :=
  match Zcompare_float z x with
  | Some Lt => true
  | _ => false
  end.

(** Rounding of the rational [n / d] to an integer, ties to even. *)
Definition round_half_even (n : Z) (d : positive) : Z :=
  let q := n / Zpos d in
  let r := n mod Zpos d in
  match 2 * r ?= Zpos d with
  | Lt => q
  | Gt => q + 1
  | Eq => if Z.even q then q else q + 1
  end.

(** [str(z)] for an int. *)
Definition str_of_Z (z : Z) : string := NilZero.string_of_int (Z.to_int z).

(** [f"{x:.2f}"]: the exact value rounded to hundredths, ties to even. *)
Definition format_2f (x : float) : string :=
  match x with
  | S754_nan => "nan"
  | S754_infinity s => if s then "-inf" else "inf"
  | S754_zero s => if s then "-0.00" else "0.00"
  | S754_finite s m e =>
      match float_ratio (S754_finite false m e) with
      | Some (n, d) =>
          let h := round_half_even (n * 100) d in
          let frac := h mod 100 in
          (if s then "-" else "") +++ str_of_Z (h / 100) +++ "." +++
          (if frac <? 10 then "0" else "") +++ str_of_Z frac
      | None => "nan"
      end
  end.

(** [round(x, ndigits)] for a float and [0 <= ndigits]: the exact value
    rounded to [ndigits] decimals, ties to even, then the binary64 nearest
    to that decimal. *)
Definition py_round (x : float) (ndigits : Z) : float :=
  match x with
  | S754_finite s m e =>
      match float_ratio (S754_finite false m e) with
      | Some (n, d) =>
          let p := 10 ^ ndigits in
          let h := round_half_even (n * p) d in
          if h =? 0 then S754_zero s
          else float_of_ratio (cond_Zopp s h) (Z.to_pos p)
      | None => x
      end
  | _ => x
  end.

(** *** Strings *)

(** [str.lower()] on the ASCII letters. *)
Definition lower_ascii (c : ascii) : ascii :=
  let n := nat_of_ascii c in
  if (Nat.leb 65 n && Nat.leb n 90)%bool then ascii_of_nat (n + 32) else c.

Fixpoint lower (s : string) : string :=
  match s with
  | EmptyString => EmptyString
  | String c s' => String (lower_ascii c) (lower s')
  end.

(** [needle in hay] for two strings. *)
Fixpoint contains (needle hay : string) : bool :=
  if String.prefix needle hay then true
  else match hay with
       | EmptyString => false
       | String _ hay' => contains needle hay'
       end.

(** [s.replace(c, new)] for a one-character [c]. *)
Fixpoint replace_char (c : ascii) (new : string) (s : string) : string :=
  match s with
  | EmptyString => EmptyString
  | String c' s' =>
      if Ascii.eqb c c' then new +++ replace_char c new s'
      else String c' (replace_char c new s')
  end.

(** [s[:n]] for [0 <= n]. *)
Definition str_prefix (n : nat) (s : string) : string := String.substring 0 n s.

(** Truth value of a string. *)
Definition nonempty (s : string) : bool := negb (String.eqb s "").

(** [s.count(c)] for a one-character [c]. *)
Fixpoint count_char (c : ascii) (s : string) : nat :=
  match s with
  | EmptyString => O
  | String c' s' => ((if Ascii.eqb c c' then 1 else 0) + count_char c s')%nat
  end.

(** *** Dictionaries *)

Section Dict.
Context {V : Type}.

Fixpoint dict_get (k : string) (d : list (string * V)) : option V :=
  match d with
  | [] => None
  | (k', v) :: d' => if String.eqb k k' then Some v else dict_get k d'
  end.

Definition dict_mem (k : string) (d : list (string * V)) : bool :=
  match dict_get k d with Some _ => true | None => false end.

(** [d[k] = v]: in place when the key is there, appended otherwise. *)
Fixpoint dict_set (k : string) (v : V) (d : list (string * V))
  : list (string * V) :=
  match d with
  | [] => [(k, v)]
  | (k', v') :: d' =>
      if String.eqb k k' then (k', v) :: d' else (k', v') :: dict_set k v d'
  end.

Definition dict_keys (d : list (string * V)) : list string := map fst d.

End Dict.

(** *** JSON-shaped values *)

#[warnings="-register-all"]
Inductive pyval :=
| PNone
| PBool (b : bool)
| PInt (z : Z)
| PFloat (x : float)
| PStr (s : string)
| PList (l : list pyval)
| PDict (d : list (string * pyval)).

Inductive exn :=
| ValueError (msg : string)
| KeyError (key : string)
| AttributeError
| TypeError
| ZeroDivisionError
| OverflowError
| UnboundLocalError
| RequestException (msg : string)
| Exception (msg : string).

Definition result (A : Type) : Type := exn + A.

(** Truth value of an object. *)
Definition truthy (v : pyval) : bool :=
  match v with
  | PNone => false
  | PBool b => b
  | PInt z => negb (z =? 0)
  | PFloat (S754_zero _) => false
  | PFloat _ => true
  | PStr s => negb (String.eqb s "")
  | PList l => match l with [] => false | _ => true end
  | PDict d => match d with [] => false | _ => true end
  end.

(** [a or b]. *)
Definition py_or (a b : pyval) : pyval := if truthy a then a else b.

(** [v.get(k, default)]: only a dict has the method. *)
Definition py_get (v : pyval) (k : string) (default : pyval) : result pyval :=
  match v with
  | PDict d => inr (match dict_get k d with Some x => x | None => default end)
  | _ => inl AttributeError
  end.

(** [v[k]] with a string key. *)
Definition py_item (v : pyval) (k : string) : result pyval :=
  match v with
  | PDict d => match dict_get k d with Some x => inr x | None => inl (KeyError k) end
  | _ => inl TypeError
  end.

Fixpoint chars (s : string) : list pyval :=
  match s with
  | EmptyString => []
  | String c s' => PStr (String c EmptyString) :: chars s'
  end.

(** The elements a [for] loop visits. *)
Definition py_iter (v : pyval) : result (list pyval) :=
  match v with
  | PList l => inr l
  | PStr s => inr (chars s)
  | PDict d => inr (map (fun kv => PStr (fst kv)) d)
  | _ => inl TypeError
  end.

(** [l[:n]] on a list: the first [n] elements, or all but the last [-n]
    when [n] is negative. *)
Definition slice_to {A : Type} (l : list A) (n : Z) : list A :=
  if 0 <=? n then firstn (Z.to_nat n) l
  else firstn (Z.to_nat (Z.of_nat (length l) + n)) l.

Definition is_dict (v : pyval) : bool :=
  match v with PDict _ => true | _ => false end.

(** [v[:n]] on a value: a list or a string is cut, anything else
    raises. *)
Definition slice_value (v : pyval) (n : Z) : result pyval :=
  match v with
  | PList l => inr (PList (slice_to l n))
  | PStr s =>
      inr (PStr (if 0 <=? n then str_prefix (Z.to_nat n) s
                 else str_prefix (Z.to_nat (Z.of_nat (String.length s) + n)) s))
  | _ => inl TypeError
  end.

End Py.

Import Py.

(** ** budget_control.py *)

Module budget_control.

(** *** class BudgetTracker *)

Module BudgetTracker.

(** The persisted layout: what [json.dump] writes to and [json.load] reads
    from [data/api_budget.json]. *)
Record BudgetData := {
  total_cost : float;
  daily_usage : list (string * list (string * Z));
  monthly_usage : list (string * Z);
  alerts_sent : list string
}.

Record t := {
  budget_file : string;
  budget_data : BudgetData;
  daily_limits : list (string * Z);
  cost_per_request : list (string * float)
}.

(** The budget file on disk: [None] while it does not exist. *)
Abbreviation Store := (option BudgetData).

Definition set_data (d : BudgetData) (self : t) : t :=
  {| budget_file := budget_file self;
     budget_data := d;
     daily_limits := daily_limits self;
     cost_per_request := cost_per_request self |}.

Definition set_daily_usage (du : list (string * list (string * Z)))
  (d : BudgetData) : BudgetData :=
  {| total_cost := total_cost d;
     daily_usage := du;
     monthly_usage := monthly_usage d;
     alerts_sent := alerts_sent d |}.

Definition set_total_cost (c : float) (d : BudgetData) : BudgetData :=
  {| total_cost := c;
     daily_usage := daily_usage d;
     monthly_usage := monthly_usage d;
     alerts_sent := alerts_sent d |}.

Definition set_alerts_sent (a : list string) (d : BudgetData) : BudgetData :=
  {| total_cost := total_cost d;
     daily_usage := daily_usage d;
     monthly_usage := monthly_usage d;
     alerts_sent := a |}.

Definition _save_budget (self : t) (file : Store) : Store :=
  Some (budget_data self).

Definition _load_budget (file : Store) : BudgetData * Store :=
  match file with
  | Some d => (d, file)
  | None =>
      let d := {| total_cost := S754_zero false;
                  daily_usage := [];
                  monthly_usage := [];
                  alerts_sent := [] |} in
      (d, Some d)
  end.

Definition __init__ (file : Store) : t * Store :=
  let '(d, file') := _load_budget file in
  ({| budget_file := "data/api_budget.json";
      budget_data := d;
      daily_limits :=
        [("google_places", 100); ("yelp", 500); ("foursquare", 100)];
      cost_per_request :=
        [("google_places_details", float_of_ratio 5 1000);
         ("google_places_search", float_of_ratio 17 1000);
         ("google_places_photos", float_of_ratio 7 1000);
         ("yelp_business", S754_zero false);
         ("yelp_search", S754_zero false);
         ("foursquare_venues", S754_zero false)] |},
   file').

(** The prologue shared by [can_make_request] and [record_request]:
    [daily_usage[today]] and [daily_usage[today][api_name]] are created
    when missing. *)
Definition init_usage (today api_name : string)
  (du : list (string * list (string * Z))) : list (string * list (string * Z)) :=
  let du1 := if dict_mem today du then du else dict_set today [] du in
  let day := default [] (dict_get today du1) in
  if dict_mem api_name day then du1
  else dict_set today (dict_set api_name 0 day) du1.

(** [daily_usage[today][api_name]]. *)
Definition counter (today api_name : string)
  (du : list (string * list (string * Z))) : Z :=
  default 0 (dict_get api_name (default [] (dict_get today du))).

Definition daily_limit_of (self : t) (api_name : string) : Z :=
  default 50 (dict_get api_name (daily_limits self)).

Definition cost_of (self : t) (api_name endpoint : string) : float :=
  default (float_of_ratio 1 100)
    (dict_get (api_name +++ "_" +++ endpoint) (cost_per_request self)).

(** The hard-coded budget: [5.0]. *)
Definition max_budget : float := float_of_Z 5.

Definition can_make_request (today api_name endpoint : string) (self : t)
  : bool * t :=
  let d := budget_data self in
  let du := init_usage today api_name (daily_usage d) in
  let self' := set_data (set_daily_usage du d) self in
  let daily_count := counter today api_name du in
  let daily_limit := daily_limit_of self api_name in
  if daily_limit <=? daily_count then (false, self')
  else
    let estimated_cost := cost_of self api_name endpoint in
    if fgt (fadd (total_cost d) estimated_cost) max_budget then (false, self')
    else (true, self').

(** The messages of the daily-usage alerts, in the order of the day's
    entries. *)
Definition daily_alerts (self : t) (day : list (string * Z)) : list string :=
  flat_map
    (fun '(api_name, count) =>
       let limit := daily_limit_of self api_name in
       if Zge_float count (fmul (float_of_Z limit) (float_of_ratio 8 10))
       then [api_name +++ ": " +++ str_of_Z count +++ "/" +++ str_of_Z limit
             +++ " daily requests"]
       else [])
    day.

Definition cost_alerts (d : BudgetData) : list string :=
  if fge (total_cost d) (float_of_Z 1)
  then ["Total cost: $" +++ format_2f (total_cost d)]
  else [].

(** Each alert not yet in [alerts_sent] is appended to it. *)
Definition send_alerts (alerts sent : list string) : list string :=
  fold_left
    (fun sent alert =>
       if existsb (String.eqb alert) sent then sent else (sent ++ [alert])%list)
    alerts sent.

Definition _check_alerts (today : string) (self : t) (file : Store)
  : t * Store :=
  let d := budget_data self in
  let alerts :=
    ((match dict_get today (daily_usage d) with
      | Some day => daily_alerts self day
      | None => []
      end) ++ cost_alerts d)%list in
  let self' := set_data (set_alerts_sent (send_alerts alerts (alerts_sent d)) d) self in
  (self', _save_budget self' file).

(** [today] is the date read on entry, [today'] the one read by
    [_check_alerts]. *)
Definition record_request (today today' api_name endpoint : string)
  (self : t) (file : Store) : float * (t * Store) :=
  let d := budget_data self in
  let du := init_usage today api_name (daily_usage d) in
  let du := dict_set today
              (dict_set api_name (counter today api_name du + 1)
                 (default [] (dict_get today du))) du in
  let cost := cost_of self api_name endpoint in
  let d := set_total_cost (fadd (total_cost d) cost) (set_daily_usage du d) in
  let self1 := set_data d self in
  let file1 := _save_budget self1 file in
  (cost, _check_alerts today' self1 file1).

(** [get_usage_summary]: the values under the keys ['total_cost'],
    ['today_usage'] and ['daily_limits'] of the dict it returns; [today]
    is the date it reads. *)
Definition get_usage_summary (today : string) (self : t)
  : float * list (string * Z) * list (string * Z) :=
  let today_usage := default [] (dict_get today (daily_usage (budget_data self))) in
  (total_cost (budget_data self), today_usage, daily_limits self).

End BudgetTracker.

(** *** class RateLimiter *)

Module RateLimiter.

Record t := {
  requests_per_minute : Z;
  request_times : list float
}.

Definition __init__ (requests_per_minute : Z) : t :=
  {| requests_per_minute := requests_per_minute; request_times := [] |}.

Definition sixty : float := float_of_Z 60.

(** [min] of a sequence whose first element is [cur]. *)
Fixpoint min_from (cur : float) (l : list float) : float :=
  match l with
  | [] => cur
  | x :: l' => min_from (if flt x cur then x else cur) l'
  end.

(** [now] is the reading of [time()]. The value returned is the duration
    passed to [sleep], [None] when the call does not sleep; [min] of an
    empty window raises. *)
Definition wait_if_needed (now : float) (self : t) : result (option float * t) :=
  let times := List.filter (fun t => flt (fsub now t) sixty) (request_times self) in
  let slept :=
    if requests_per_minute self <=? Z.of_nat (length times) then
      match times with
      | [] => inl (ValueError "min() arg is an empty sequence")
      | t0 :: rest =>
          let oldest_request := min_from t0 rest in
          let wait_time := fsub sixty (fsub now oldest_request) in
          if fgt wait_time (S754_zero false) then inr (Some wait_time)
          else inr None
      end
    else inr None in
  match slept with
  | inl e => inl e
  | inr s =>
      inr (s, {| requests_per_minute := requests_per_minute self;
                 request_times := (times ++ [now])%list |})
  end.

End RateLimiter.

End budget_control.

(** ** The environment of the adapters *)

Module Env.

(** What [requests.get] meets: no response at all (connection error or
    timeout, a [RequestException]), or a response with its status code and
    its body when that body is JSON. *)
Record Response := {
  status_code : Z;
  json : option pyval
}.

Inductive NetOutcome :=
| NetFail
| NetResponse (r : Response).

(** The externally visible steps of an adapter, in the order they happen. *)
Inductive Event :=
| EvBudgetCheck (api_name endpoint : string)
| EvRateWait (slept : option float)
| EvCacheGet (key : string)
| EvRequest (url : string) (params : list (string * pyval))
| EvBudgetRecord (api_name endpoint : string)
| EvCacheSet (key : string) (timeout : Z).

Record World := {
  cache : gmap string pyval;      (* the live entries of the Django cache *)
  network : list NetOutcome;      (* what the successive requests will meet *)
  random : list nat;              (* the successive draws of [random] *)
  generated_businesses : list (string * pyval);  (* MockDataSource's own store *)
  events : list Event
}.

Definition set_cache (c : gmap string pyval) (w : World) : World :=
  {| cache := c; network := network w; random := random w;
     generated_businesses := generated_businesses w; events := events w |}.

Definition set_network (n : list NetOutcome) (w : World) : World :=
  {| cache := cache w; network := n; random := random w;
     generated_businesses := generated_businesses w; events := events w |}.

Definition set_random (r : list nat) (w : World) : World :=
  {| cache := cache w; network := network w; random := r;
     generated_businesses := generated_businesses w; events := events w |}.

Definition set_generated (g : list (string * pyval)) (w : World) : World :=
  {| cache := cache w; network := network w; random := random w;
     generated_businesses := g; events := events w |}.

Definition emit (e : Event) (w : World) : World :=
  {| cache := cache w; network := network w; random := random w;
     generated_businesses := generated_businesses w;
     events := (events w ++ [e])%list |}.

(** Computations that read and change the world and may raise. *)
Definition M (A : Type) : Type := World -> result A * World.

Definition ret {A : Type} (a : A) : M A := fun w => (inr a, w).

Definition raise {A : Type} (e : exn) : M A := fun w => (inl e, w).

Definition bind {A B : Type} (m : M A) (k : A -> M B) : M B :=
  fun w =>
    match m w with
    | (inr a, w') => k a w'
    | (inl e, w') => (inl e, w')
    end.

Definition lift {A : Type} (r : result A) : M A := fun w => (r, w).

(** [try: m except Exception as e: handler e]. *)
Definition try_except {A : Type} (m : M A) (handler : exn -> M A) : M A :=
  fun w =>
    match m w with
    | (inr a, w') => (inr a, w')
    | (inl e, w') => handler e w'
    end.

Definition cache_get (key : string) : M pyval :=
  fun w => (inr (default PNone (cache w !! key)), emit (EvCacheGet key) w).

Definition cache_set (key : string) (v : pyval) (timeout : Z) : M unit :=
  fun w => (inr tt, emit (EvCacheSet key timeout) (set_cache (<[key := v]> (cache w)) w)).

(** [requests.get(url, params=params, ...)]. *)
Definition requests_get (url : string) (params : list (string * pyval))
  : M (option Response) :=
  fun w =>
    let w1 := emit (EvRequest url params) w in
    match network w with
    | [] => (inr None, w1)
    | NetFail :: rest => (inr None, set_network rest w1)
    | NetResponse r :: rest => (inr (Some r), set_network rest w1)
    end.

End Env.

Import Env.

Declare Scope py_scope.
Delimit Scope py_scope with py.

Notation "x <- c ;; k" := (bind c (fun x => k))
  (at level 100, c at next level, right associativity) : py_scope.

(** The same sequencing for computations that only may raise. *)
Definition rbind {A B : Type} (r : result A) (k : A -> result B) : result B :=
  match r with
  | inr a => k a
  | inl e => inl e
  end.

Notation "x <~ c ;; k" := (rbind c (fun x => k))
  (at level 100, c at next level, right associativity) : py_scope.

Fixpoint rmap {A B : Type} (f : A -> result B) (l : list A) : result (list B) :=
  match l with
  | [] => inr []
  | a :: l' =>
      match f a with
      | inl e => inl e
      | inr b =>
          match rmap f l' with
          | inl e => inl e
          | inr bs => inr (b :: bs)
          end
      end
  end.

Local Open Scope py_scope.

(** ** django.conf.settings, as far as the package reads it

    An attribute that is not set is [None]. *)
Record Settings := {
  FOURSQUARE_CLIENT_ID : option string;
  FOURSQUARE_CLIENT_SECRET : option string;
  FOURSQUARE_API_KEY : option string;
  DEFAULT_LOCATION : string
}.

(** ** sources/base.py

    The abstract class [DataSource]: the three operations every adapter
    implements. An operation returns the Python object the adapter
    returns. *)

Module base.

Record DataSource := {
  search_businesses :
    forall (location query category : string) (radius limit : Z), M pyval;
  get_business_details : forall (business_id : string), M pyval;
  get_reviews : forall (business_id : string) (limit : Z), M pyval
}.

End base.

(** ** sources/foursquare.py *)

Module foursquare.
Module FoursquareSource.

Record t := {
  client_id : string;
  client_secret : string;
  api_key : option string
}.

Definition BASE_URL : string := "https://api.foursquare.com/v3".
Definition SEARCH_ENDPOINT : string := "/places/search".

(** [if self.api_key]. *)
Definition has_api_key (self : t) : bool :=
  match api_key self with
  | Some k => nonempty k
  | None => false
  end.

Definition __init__ (settings : Settings) : result t :=
  match FOURSQUARE_CLIENT_ID settings, FOURSQUARE_CLIENT_SECRET settings with
  | Some cid, Some secret =>
      let self := {| client_id := cid; client_secret := secret;
                     api_key := FOURSQUARE_API_KEY settings |} in
      if (negb (has_api_key self) && (negb (nonempty cid) || negb (nonempty secret)))%bool
      then inl (ValueError "Foursquare API credentials not configured. Get FREE keys at: https://foursquare.com/developers")
      else inr self
  | _, _ => inl AttributeError
  end.

Definition v2_params (self : t) : list (string * pyval) :=
  [("client_id", PStr (client_id self));
   ("client_secret", PStr (client_secret self));
   ("v", PStr "20240101")].

(** One entry of the [categories] list built by [_format_business]. *)
Definition format_category (cat : pyval) : result pyval :=
  id <~ py_get cat "id" PNone ;;
  name <~ py_get cat "name" PNone ;;
  short_name <~ py_get cat "short_name" PNone ;;
  icon0 <~ py_get cat "icon" PNone ;;
  icon <~ (if is_dict icon0
           then (i <~ py_get cat "icon" (PDict []) ;; py_get i "prefix" PNone)
           else py_get cat "icon" PNone) ;;
  inr (PDict [("id", id); ("name", name); ("short_name", short_name);
              ("icon", icon)]).

(** The values dropped by "Clean up empty values":
    [v in [None, '', [], {}]]. *)
Definition is_empty_value (v : pyval) : bool :=
  match v with
  | PNone => true
  | PStr s => String.eqb s ""
  | PList [] => true
  | PDict [] => true
  | _ => false
  end.

(** The body of the [try] block of [_format_business]. *)
Definition _format_business_body (place_data : pyval) : result pyval :=
  location <~ py_get place_data "location" (PDict []) ;;
  geo <~ py_get place_data "geocodes" (PDict []) ;;
  geocodes <~ py_get geo "main" (PDict []) ;;
  cats <~ py_get place_data "categories" (PList []) ;;
  cats <~ py_iter cats ;;
  categories <~ rmap format_category cats ;;
  fsq_id <~ py_get place_data "fsq_id" PNone ;;
  id <~ py_get place_data "id" PNone ;;
  name <~ py_get place_data "name" (PStr "Unknown") ;;
  formatted_address <~ py_get location "formatted_address" PNone ;;
  address <~ py_get location "address" PNone ;;
  locality <~ py_get location "locality" PNone ;;
  region <~ py_get location "region" PNone ;;
  country <~ py_get location "country" PNone ;;
  postcode <~ py_get location "postcode" PNone ;;
  latitude <~ py_get geocodes "latitude" PNone ;;
  lat <~ py_get location "lat" PNone ;;
  longitude <~ py_get geocodes "longitude" PNone ;;
  lng <~ py_get location "lng" PNone ;;
  category_names <~ rmap (fun cat => py_get cat "name" PNone) categories ;;
  distance <~ py_get place_data "distance" PNone ;;
  rating <~ py_get place_data "rating" PNone ;;
  price0 <~ py_get place_data "price" PNone ;;
  price <~ (if is_dict price0
            then (p <~ py_get place_data "price" (PDict []) ;; py_get p "tier" PNone)
            else py_get place_data "price" PNone) ;;
  stats <~ py_get place_data "stats" (PDict []) ;;
  hours <~ py_get place_data "hours" (PDict []) ;;
  popularity <~ py_get place_data "popularity" PNone ;;
  tastes <~ py_get place_data "tastes" (PList []) ;;
  let business :=
    [("id", py_or fsq_id id);
     ("name", name);
     ("address", py_or formatted_address address);
     ("city", locality);
     ("state", region);
     ("country", country);
     ("postal_code", postcode);
     ("latitude", py_or latitude lat);
     ("longitude", py_or longitude lng);
     ("categories", PList categories);
     ("category_names", PList category_names);
     ("distance", distance);
     ("rating", rating);
     ("price", price);
     ("stats", stats);
     ("hours", hours);
     ("popularity", popularity);
     ("tastes", tastes);
     ("source", PStr "foursquare");
     ("raw_data", place_data)] in
  inr (PDict (List.filter (fun kv => negb (is_empty_value (snd kv))) business)).

(** [_format_business]: [None] when the body raises. *)
Definition _format_business (place_data : pyval) : option pyval :=
  match _format_business_body place_data with
  | inr business => Some business
  | inl _ => None
  end.

(** The loop of [search_businesses] over the places of a response:
    a record is kept when [_format_business] returns a non-empty dict. *)
Fixpoint format_places (places : list pyval) : list pyval :=
  match places with
  | [] => []
  | place :: rest =>
      match _format_business place with
      | Some business =>
          if truthy business then business :: format_places rest
          else format_places rest
      | None => format_places rest
      end
  end.

(** [places[:limit]] followed by the iteration of the loop. *)
Definition slice_places (places : pyval) (limit : Z) : result (list pyval) :=
  match places with
  | PList l => inr (slice_to l limit)
  | PStr s => inr (slice_to (chars s) limit)
  | _ => inl TypeError
  end.

Definition search_params (location query category : string) (radius limit : Z)
  : list (string * pyval) :=
  let commas := count_char "," location in
  let params :=
    [("near", if Nat.eqb commas 0 then PStr location else PNone);
     ("ll", if Nat.eqb commas 1 then PStr location else PNone);
     ("query", if nonempty query then PStr query else PNone);
     ("categories", if nonempty category then PStr category else PNone);
     ("radius", PInt (Z.min radius 100000));
     ("limit", PInt (Z.min limit 50));
     ("fields", PStr "fsq_id,name,categories,location,geocodes,distance,rating,price,stats,hours,popularity,tastes")] in
  List.filter (fun kv => match snd kv with PNone => false | _ => true end) params.

Definition search_cache_key (location query category : string) (limit : Z)
  : string :=
  "foursquare_search:" +++ location +++ ":" +++ query +++ ":" +++ category
  +++ ":" +++ str_of_Z limit.

Definition is_http_error (status : Z) : bool :=
  ((400 <=? status) && (status <? 600))%bool.

(** [search_businesses]. The two [except] clauses are unfolded at the
    points where the exceptions arise: a failed [requests.get] leaves
    [response] unbound, so the first handler itself raises
    [UnboundLocalError] when it reads [response.status_code]; an HTTP error
    status and a body that is not JSON are [RequestException]s turned into
    [Exception("Foursquare API error: ...")]; anything else is re-raised. *)
Definition search_businesses (self : t) (location query category : string)
  (radius limit : Z) : M pyval :=
  let cache_key := search_cache_key location query category limit in
  cached <- cache_get cache_key ;;
  if truthy cached then ret cached
  else
    let params := search_params location query category radius limit in
    response <-
      (if has_api_key self
       then requests_get (BASE_URL +++ SEARCH_ENDPOINT) params
       else requests_get "https://api.foursquare.com/v2/venues/search"
              (fold_left (fun d kv => dict_set (fst kv) (snd kv) d)
                 (v2_params self) params)) ;;
    match response with
    | None => raise UnboundLocalError
    | Some response =>
        if is_http_error (status_code response)
        then raise (Exception "Foursquare API error")
        else
          match json response with
          | None => raise (Exception "Foursquare API error")
          | Some data =>
              places <- lift
                (if has_api_key self
                 then py_get data "results" (PList [])
                 else (r <~ py_get data "response" (PDict []) ;;
                       py_get r "venues" (PList []))) ;;
              places <- lift (slice_places places limit) ;;
              let businesses := PList (format_places places) in
              _ <- cache_set cache_key businesses 300 ;;
              ret businesses
          end
    end.

(** A request made under [except requests.exceptions.RequestException]
    by a method that does not re-raise: a failed [requests.get], an HTTP
    error status at [raise_for_status()] and a body that is not JSON at
    [response.json()] all lead to [handler]; otherwise the method goes on
    with the decoded body. *)
Definition request_json {A : Type} (url : string) (params : list (string * pyval))
  (handler : M A) (k : pyval -> M A) : M A :=
  response <- requests_get url params ;;
  match response with
  | None => handler
  | Some response =>
      if is_http_error (status_code response) then handler
      else match json response with
           | None => handler
           | Some data => k data
           end
  end.

(** [get_photos]. *)
Definition get_photos (self : t) (fsq_id : string) (limit : Z) : M pyval :=
  request_json
    (if has_api_key self
     then BASE_URL +++ "/places/" +++ fsq_id +++ "/photos"
     else "https://api.foursquare.com/v2/venues/" +++ fsq_id +++ "/photos")
    (if has_api_key self
     then [("limit", PInt (Z.min limit 50))]
     else dict_set "limit" (PInt (Z.min limit 50)) (v2_params self))
    (ret (PList []))
    (fun data =>
       photos <- lift
         (if has_api_key self
          then py_get data "results" (PList [])
          else (r <~ py_get data "response" (PDict []) ;;
                p <~ py_get r "photos" (PDict []) ;;
                py_get p "items" (PList []))) ;;
       lift (slice_value photos limit)).

(** The text an f-string gives for the id of a record; [other] is [str]
    on the values for which it is not spelled out here (floats and
    containers). *)
Definition str_of_id (other : pyval -> string) (v : pyval) : string :=
  match v with
  | PStr s => s
  | PInt z => str_of_Z z
  | PBool b => if b then "True" else "False"
  | PNone => "None"
  | _ => other v
  end.

(** [details.update({...})]. *)
Definition update (d : pyval) (entries : list (string * pyval)) : result pyval :=
  match d with
  | PDict d => inr (PDict (fold_left (fun d kv => dict_set (fst kv) (snd kv) d) entries d))
  | _ => inl AttributeError
  end.

(** [_format_detailed_business]. The entries of the dict passed to
    [update] are evaluated in the order they are written, the photos
    request among them. *)
Definition _format_detailed_business (other : pyval -> string) (self : t)
  (place_data : pyval) : M pyval :=
  match _format_business place_data with
  | None => ret (PDict [])
  | Some details =>
      if negb (truthy details) then ret (PDict [])
      else
        website <- lift (py_get place_data "website" PNone) ;;
        phone <- lift (py_get place_data "tel" PNone) ;;
        email <- lift (py_get place_data "email" PNone) ;;
        description <- lift (py_get place_data "description" PNone) ;;
        social_media <- lift (py_get place_data "social_media" (PDict [])) ;;
        id <- lift (py_item details "id") ;;
        photos <- get_photos self (str_of_id other id) 5 ;;
        tips_count <- lift (stats <~ py_get place_data "stats" (PDict []) ;;
                            py_get stats "tip_count" (PInt 0)) ;;
        users_count <- lift (stats <~ py_get place_data "stats" (PDict []) ;;
                             py_get stats "users_count" (PInt 0)) ;;
        checkins_count <- lift (stats <~ py_get place_data "stats" (PDict []) ;;
                                py_get stats "checkins_count" (PInt 0)) ;;
        here_now0 <- lift (py_get place_data "here_now" PNone) ;;
        here_now <- lift
          (if is_dict here_now0
           then (h <~ py_get place_data "here_now" (PDict []) ;;
                 py_get h "count" (PInt 0))
           else inr (PInt 0)) ;;
        menu <- lift (py_get place_data "menu" (PDict [])) ;;
        attributes <- lift (py_get place_data "attributes" (PDict [])) ;;
        verified <- lift (py_get place_data "verified" (PBool false)) ;;
        lift (update details
                [("website", website);
                 ("phone", phone);
                 ("email", email);
                 ("description", description);
                 ("social_media", social_media);
                 ("photos", photos);
                 ("tips_count", tips_count);
                 ("users_count", users_count);
                 ("checkins_count", checkins_count);
                 ("here_now", here_now);
                 ("menu", menu);
                 ("attributes", attributes);
                 ("verified", verified)])
  end.

Definition details_cache_key (fsq_id : string) : string :=
  "foursquare_details:" +++ fsq_id.

(** [get_business_details]. Only a [RequestException] is handled, by
    returning [None]; what [_format_detailed_business] raises goes to the
    caller. *)
Definition get_business_details (other : pyval -> string) (self : t)
  (fsq_id : string) : M pyval :=
  let cache_key := details_cache_key fsq_id in
  cached <- cache_get cache_key ;;
  if truthy cached then ret cached
  else
    request_json
      (if has_api_key self
       then BASE_URL +++ "/places/" +++ fsq_id
       else "https://api.foursquare.com/v2/venues/" +++ fsq_id)
      (if has_api_key self
       then [("fields", PStr "fsq_id,name,categories,location,geocodes,rating,price,stats,hours,popularity,tastes,website,tel,email,description,photos,social_media")]
       else v2_params self)
      (ret PNone)
      (fun data =>
         place_data <- lift
           (if has_api_key self then inr data
            else (r <~ py_get data "response" (PDict []) ;;
                  py_get r "venue" (PDict []))) ;;
         details <- _format_detailed_business other self place_data ;;
         _ <- cache_set cache_key details 3600 ;;
         ret details).

(** [get_categories]. *)
Definition get_categories (self : t) : M pyval :=
  let cache_key := "foursquare_categories" in
  cached <- cache_get cache_key ;;
  if truthy cached then ret cached
  else
    request_json
      (if has_api_key self
       then BASE_URL +++ "/places/categories"
       else "https://api.foursquare.com/v2/venues/categories")
      (if has_api_key self then [] else v2_params self)
      (ret (PList []))
      (fun data =>
         categories <- lift
           (if has_api_key self
            then py_get data "results" (PList [])
            else (r <~ py_get data "response" (PDict []) ;;
                  py_get r "categories" (PList []))) ;;
         _ <- cache_set cache_key categories 86400 ;;
         ret categories).

(** [search_by_category]. *)
Definition search_by_category (self : t) (location category_id : string)
  (limit : Z) : M pyval :=
  search_businesses self location "" category_id 5000 limit.

(** The adapter as a [DataSource], over given implementations of
    [get_business_details] and [get_reviews]. *)
Definition as_DataSource (self : t)
  (details : string -> M pyval) (reviews : string -> Z -> M pyval)
  : base.DataSource :=
  {| base.search_businesses := search_businesses self;
     base.get_business_details := details;
     base.get_reviews := reviews |}.

End FoursquareSource.
End foursquare.

(** ** sources/yelp.py

    The module binds no name [logger]: each statement that logs raises
    [NameError] when it is reached. *)

Module yelp.
Module YelpSource.

Record t := {
  api_key : string;
  budget_tracker : budget_control.BudgetTracker.t;
  rate_limiter : budget_control.RateLimiter.t
}.

(** What a method of the adapter raises: the [NameError] of a logging
    statement, or an exception of the classes above. *)
Inductive raised :=
| NameError (name : string)
| Raised (e : exn).

Definition BASE_URL : string := "https://api.yelp.com/v3".

(** [sep.join(v)]: the elements of [v] must all be strings. *)
Definition join (sep : string) (v : pyval) : result string :=
  items <~ py_iter v ;;
  strs <~ rmap (fun x => match x with PStr s => inr s | _ => inl TypeError end) items ;;
  inr (String.concat sep strs).

(** The body of the [try] block of [_format_business]. *)
Definition _format_business_body (business_data : pyval) : result pyval :=
  id <~ py_get business_data "id" PNone ;;
  name <~ py_get business_data "name" PNone ;;
  location <~ py_get business_data "location" (PDict []) ;;
  display_address <~ py_get location "display_address" (PList []) ;;
  address <~ join ", " display_address ;;
  location <~ py_get business_data "location" (PDict []) ;;
  city <~ py_get location "city" PNone ;;
  location <~ py_get business_data "location" (PDict []) ;;
  state <~ py_get location "state" PNone ;;
  location <~ py_get business_data "location" (PDict []) ;;
  zip_code <~ py_get location "zip_code" PNone ;;
  coordinates <~ py_get business_data "coordinates" (PDict []) ;;
  latitude <~ py_get coordinates "latitude" PNone ;;
  coordinates <~ py_get business_data "coordinates" (PDict []) ;;
  longitude <~ py_get coordinates "longitude" PNone ;;
  rating <~ py_get business_data "rating" PNone ;;
  review_count <~ py_get business_data "review_count" PNone ;;
  price <~ py_get business_data "price" PNone ;;
  cats <~ py_get business_data "categories" (PList []) ;;
  cats <~ py_iter cats ;;
  categories <~ rmap (fun cat => py_get cat "title" PNone) cats ;;
  phone <~ py_get business_data "display_phone" PNone ;;
  image_url <~ py_get business_data "image_url" PNone ;;
  url <~ py_get business_data "url" PNone ;;
  inr (PDict
         [("id", id);
          ("name", name);
          ("address", PStr address);
          ("city", city);
          ("state", state);
          ("zip_code", zip_code);
          ("latitude", latitude);
          ("longitude", longitude);
          ("rating", rating);
          ("review_count", review_count);
          ("price", price);
          ("categories", PList categories);
          ("phone", phone);
          ("image_url", image_url);
          ("url", url);
          ("source", PStr "yelp");
          ("raw_data", business_data)]).

(** [_format_business]: the handler of its [try] logs before it would
    return [None], so that a body that raises ends in [NameError]. *)
Definition _format_business (business_data : pyval) : raised + pyval :=
  match _format_business_body business_data with
  | inr business => inr business
  | inl _ => inl (NameError "logger")
  end.

(** The loop of [search_businesses] over the businesses of a response. *)
Fixpoint format_businesses (businesses : list pyval) : raised + list pyval :=
  match businesses with
  | [] => inr []
  | business :: rest =>
      match _format_business business with
      | inl e => inl e
      | inr formatted =>
          match format_businesses rest with
          | inl e => inl e
          | inr l => inr (if truthy formatted then formatted :: l else l)
          end
      end
  end.

Definition search_params (location term categories : string) (radius limit : Z)
  : list (string * pyval) :=
  let params := [("location", PStr location); ("limit", PInt limit);
                 ("radius", PInt radius)] in
  let params := if nonempty term then dict_set "term" (PStr term) params else params in
  if nonempty categories then dict_set "categories" (PStr categories) params
  else params.

Definition set_budget_tracker (b : budget_control.BudgetTracker.t) (self : t) : t :=
  {| api_key := api_key self; budget_tracker := b; rate_limiter := rate_limiter self |}.

Definition set_rate_limiter (r : budget_control.RateLimiter.t) (self : t) : t :=
  {| api_key := api_key self; budget_tracker := budget_tracker self; rate_limiter := r |}.

(** [search_businesses]. [today] is the date [can_make_request] reads,
    [now] the time [wait_if_needed] reads, [today_r] and [today_a] the
    dates [record_request] and its alert check read; [file] is the budget
    file. A request that fails, a status 429 and any other HTTP error
    status, and a body that is not JSON all reach a logging statement. *)
Definition search_businesses (today : string) (now : float)
  (today_r today_a : string) (self : t) (file : budget_control.BudgetTracker.Store)
  (location term categories : string) (radius limit : Z) (w : World)
  : (raised + pyval) * t * budget_control.BudgetTracker.Store * World :=
  let '(allowed, tracker) :=
    budget_control.BudgetTracker.can_make_request today "yelp" "search"
      (budget_tracker self) in
  let self := set_budget_tracker tracker self in
  let w := emit (EvBudgetCheck "yelp" "search") w in
  if negb allowed
  then (inl (Raised (Exception "Daily limit reached for Yelp API")), self, file, w)
  else
    match budget_control.RateLimiter.wait_if_needed now (rate_limiter self) with
    | inl e =>
        (* [min] raised on the pruned window, which is empty *)
        (inl (Raised e),
         set_rate_limiter
           {| budget_control.RateLimiter.requests_per_minute :=
                budget_control.RateLimiter.requests_per_minute (rate_limiter self);
              budget_control.RateLimiter.request_times := [] |} self,
         file, w)
    | inr (slept, limiter) =>
        let self := set_rate_limiter limiter self in
        let w := emit (EvRateWait slept) w in
        let params := search_params location term categories radius limit in
        match requests_get (BASE_URL +++ "/businesses/search") params w with
        | (inl e, w) => (inl (Raised e), self, file, w)
        | (inr None, w) => (inl (NameError "logger"), self, file, w)
        | (inr (Some response), w) =>
            if status_code response =? 429
            then (inl (NameError "logger"), self, file, w)
            else if foursquare.FoursquareSource.is_http_error (status_code response)
            then (inl (NameError "logger"), self, file, w)
            else
              match json response with
              | None => (inl (NameError "logger"), self, file, w)
              | Some data =>
                  let '(_, (tracker, file)) :=
                    budget_control.BudgetTracker.record_request today_r today_a
                      "yelp" "search" (budget_tracker self) file in
                  let self := set_budget_tracker tracker self in
                  let w := emit (EvBudgetRecord "yelp" "search") w in
                  match (businesses <~ py_get data "businesses" (PList []) ;;
                         py_iter businesses) with
                  | inl e => (inl (Raised e), self, file, w)
                  | inr businesses =>
                      match format_businesses businesses with
                      | inl e => (inl e, self, file, w)
                      | inr l => (inr (PList l), self, file, w)
                      end
                  end
              end
        end
    end.

End YelpSource.
End yelp.

(** ** sources/mock_data.py *)

Module mock_data.
Module MockDataSource.

Record Template := {
  name : string;
  categories : list string;
  price : Z;
  typical_rating : float;
  popular_items : list string
}.

Definition BUSINESS_TEMPLATES : list Template :=
  [ {| name := "Central Perk"; categories := ["Coffee Shop"; "Cafe"];
       price := 2; typical_rating := float_of_ratio 85 10;
       popular_items := ["Latte"; "Cappuccino"; "Croissant"] |};
    {| name := "Monk's Cafe"; categories := ["American Restaurant"; "Diner"];
       price := 2; typical_rating := float_of_ratio 78 10;
       popular_items := ["Burger"; "Fries"; "Milkshake"] |};
    {| name := "Pizza Palace"; categories := ["Pizza Place"; "Italian Restaurant"];
       price := 1; typical_rating := float_of_ratio 82 10;
       popular_items := ["Margherita Pizza"; "Garlic Bread"; "Salad"] |};
    {| name := "Sushi Zen"; categories := ["Japanese Restaurant"; "Sushi Restaurant"];
       price := 3; typical_rating := float_of_ratio 91 10;
       popular_items := ["Salmon Sushi"; "Miso Soup"; "Tempura"] |};
    {| name := "Burger Joint"; categories := ["Burger Joint"; "Fast Food Restaurant"];
       price := 1; typical_rating := float_of_ratio 75 10;
       popular_items := ["Cheeseburger"; "Onion Rings"; "Soda"] |};
    {| name := "Green Leaf"; categories := ["Vegetarian Restaurant"; "Healthy Restaurant"];
       price := 2; typical_rating := float_of_ratio 87 10;
       popular_items := ["Avocado Toast"; "Smoothie Bowl"; "Salad"] |};
    {| name := "Steak House"; categories := ["Steakhouse"; "Fine Dining"];
       price := 4; typical_rating := float_of_ratio 93 10;
       popular_items := ["Ribeye Steak"; "Mashed Potatoes"; "Red Wine"] |};
    {| name := "Taco Fiesta"; categories := ["Mexican Restaurant"; "Taco Place"];
       price := 1; typical_rating := float_of_ratio 80 10;
       popular_items := ["Taco Platter"; "Guacamole"; "Margarita"] |} ].

(** City, latitude, longitude. *)
Definition CITIES : list (string * (float * float)) :=
  [ ("New York", (float_of_ratio 407128 10000, float_of_ratio (-740060) 10000));
    ("Los Angeles", (float_of_ratio 340522 10000, float_of_ratio (-1182437) 10000));
    ("Chicago", (float_of_ratio 418781 10000, float_of_ratio (-876298) 10000));
    ("Houston", (float_of_ratio 297604 10000, float_of_ratio (-953698) 10000));
    ("Miami", (float_of_ratio 257617 10000, float_of_ratio (-801918) 10000));
    ("London", (float_of_ratio 515074 10000, float_of_ratio (-1278) 10000));
    ("Tokyo", (float_of_ratio 356762 10000, float_of_ratio 1396503 10000));
    ("Sydney", (float_of_ratio (-338688) 10000, float_of_ratio 1512093 10000)) ].

Definition STREETS : list string :=
  ["Main"; "Oak"; "Pine"; "Maple"; "Elm"; "Cedar"; "Washington"; "Broadway"].

Definition SUFFIXES : list string := ["St"; "Ave"; "Blvd"; "Rd"; "Ln"; "Dr"].

(** *** The [random] module over the draws of the world

    A draw is the integer the generator produces next; [random.choice],
    [random.randint], [random.uniform] and [random.sample] reduce it as
    the library does ([_randbelow(n)] is the draw modulo [n], [random()]
    the draw modulo [2^53] over [2^53]). None of them raises. *)

Definition R (A : Type) : Type := World -> A * World.

Definition draw : R nat :=
  fun w =>
    match random w with
    | [] => (O, w)
    | n :: rest => (n, set_random rest w)
    end.

Definition randbelow (n : nat) : R nat :=
  fun w => let '(d, w') := draw w in (Nat.modulo d n, w').

Definition choice {A : Type} (dflt : A) (seq : list A) : R A :=
  fun w => let '(i, w') := randbelow (length seq) w in (nth i seq dflt, w').

Definition randint (a b : Z) : R Z :=
  fun w =>
    let '(i, w') := randbelow (Z.to_nat (b - a + 1)) w in (a + Z.of_nat i, w').

Definition uniform (a b : float) : R float :=
  fun w =>
    let '(d, w') := draw w in
    let r := float_of_ratio (Z.of_nat d mod 2 ^ 53) (2 ^ 53)%positive in
    (fadd a (fmul (fsub b a) r), w').

(** [random.sample(population, k)] for a population of at most 21
    elements: the pool algorithm, which moves the last live element of the
    pool into the slot just drawn. *)
Fixpoint sample_pool {A : Type} (dflt : A) (pool : list A) (k : nat) : R (list A) :=
  fun w =>
    match k with
    | O => ([], w)
    | S k' =>
        let n := length pool in
        let '(j, w1) := randbelow n w in
        let x := nth j pool dflt in
        let pool' := firstn (n - 1) (firstn j pool ++ [nth (n - 1) pool dflt]
                                     ++ skipn (S j) pool)%list in
        let '(rest, w2) := sample_pool dflt pool' k' w1 in
        (x :: rest, w2)
    end.

Definition rmapM {A B : Type} (f : A -> R B) : list A -> R (list B) :=
  fix go (l : list A) : R (list B) :=
    fun w =>
      match l with
      | [] => ([], w)
      | a :: l' =>
          let '(b, w1) := f a w in
          let '(bs, w2) := go l' w1 in
          (b :: bs, w2)
      end.

(** *** The generators *)

(** [f"{n:02d}"]. *)
Definition two_digits (n : Z) : string :=
  (if (0 <=? n) && (n <? 10) then "0" else "") +++ str_of_Z n.

Definition DAYS : list string :=
  ["Monday"; "Tuesday"; "Wednesday"; "Thursday"; "Friday"; "Saturday"; "Sunday"].

Definition _generate_hours : R pyval :=
  fun w =>
    let '(hours, w1) :=
      rmapM (fun day w =>
               let '(open_hour, w1) := randint 6 11 w in
               let '(close_hour, w2) := randint 17 23 w1 in
               ((day,
                 PDict [("open", PStr (two_digits open_hour +++ ":00"));
                        ("close", PStr (two_digits close_hour +++ ":00"));
                        ("renderedTime",
                         PStr (str_of_Z open_hour +++ ":00 AM - "
                               +++ str_of_Z close_hour +++ ":00 PM"))]), w2))
        DAYS w in
    let '(is_open, w2) := choice true [true; false] w1 in
    (PDict [("regular", PDict hours); ("isOpen", PBool is_open)], w2).

Definition taste_entries (tastes : list string) : R (list pyval) :=
  rmapM (fun taste w =>
           let '(v, w1) := uniform (float_of_ratio 5 10) (float_of_Z 1) w in
           (PDict [("name", PStr taste); ("value", PFloat (py_round v 2))], w1))
    tastes.

Definition _generate_tastes (categories : list string) : R pyval :=
  fun w =>
    let food_tastes := ["Sweet"; "Savory"; "Spicy"; "Umami"; "Bitter"; "Sour"] in
    let vibe_tastes := ["Cozy"; "Trendy"; "Loud"; "Quiet"; "Romantic"; "Family-friendly"] in
    let '(k1, w1) := randint 1 3 w in
    let '(s1, w2) := sample_pool "" food_tastes (Z.to_nat k1) w1 in
    let '(t1, w3) := taste_entries s1 w2 in
    let '(k2, w4) := randint 1 2 w3 in
    let '(s2, w5) := sample_pool "" vibe_tastes (Z.to_nat k2) w4 in
    let '(t2, w6) := taste_entries s2 w5 in
    (PList (t1 ++ t2)%list, w6).

Definition _get_state (city : string) : string :=
  default "NA"
    (dict_get city
       [("New York", "NY"); ("Los Angeles", "CA"); ("Chicago", "IL");
        ("Houston", "TX"); ("Miami", "FL"); ("London", "LDN");
        ("Tokyo", "TK"); ("Sydney", "NSW")]).

Definition ICONS : list string :=
  ["coffee"; "american"; "pizza"; "sushi"; "burger"; "vegetarian"; "steak";
   "mexican"].

Definition default_template : Template :=
  {| name := ""; categories := []; price := 0;
     typical_rating := S754_zero false; popular_items := [] |}.

Definition _generate_business (city : string) (index : Z) : R pyval :=
  fun w =>
    let '(template, w) := choice default_template BUSINESS_TEMPLATES w in
    let business_id :=
      "mock_" +++ replace_char " " "" (lower city) +++ "_" +++ str_of_Z index in
    let city_coords :=
      default (float_of_ratio 407128 10000, float_of_ratio (-740060) 10000)
        (dict_get city CITIES) in
    let '(dlat, w) := uniform (float_of_ratio (-5) 100) (float_of_ratio 5 100) w in
    let lat := fadd (fst city_coords) dlat in
    let '(dlng, w) := uniform (float_of_ratio (-5) 100) (float_of_ratio 5 100) w in
    let lng := fadd (snd city_coords) dlng in
    let '(cats, w) :=
      rmapM (fun cat_name w =>
               let '(icon, w1) := choice "" ICONS w in
               (PDict [("id", PStr ("cat_" +++ replace_char " " "_" (lower cat_name)));
                       ("name", PStr cat_name);
                       ("short_name", PStr (str_prefix 10 cat_name));
                       ("icon", PStr ("https://ss3.4sqi.net/img/categories_v2/food/"
                                      +++ icon +++ "_"))], w1))
        (categories template) w in
    let '(number, w) := randint 100 999 w in
    let '(street, w) := choice "" STREETS w in
    let '(suffix, w) := choice "" SUFFIXES w in
    let '(postal, w) := randint 10000 99999 w in
    let '(distance, w) := randint 100 5000 w in
    let '(drating, w) := uniform (float_of_ratio (-3) 10) (float_of_ratio 3 10) w in
    let '(tip_count, w) := randint 10 500 w in
    let '(users_count, w) := randint 100 5000 w in
    let '(checkins_count, w) := randint 1000 20000 w in
    let '(hours, w) := _generate_hours w in
    let '(popularity, w) := uniform (float_of_ratio 5 10) (float_of_Z 1) w in
    let '(tastes, w) := _generate_tastes (categories template) w in
    let business :=
      PDict
        [("id", PStr business_id);
         ("name", PStr (name template));
         ("address", PStr (str_of_Z number +++ " " +++ street +++ " " +++ suffix));
         ("city", PStr city);
         ("state", PStr (_get_state city));
         ("country",
          PStr (if existsb (String.eqb city)
                     ["New York"; "Los Angeles"; "Chicago"; "Houston"; "Miami"]
                then "US" else "Other"));
         ("postal_code", PStr (str_of_Z postal));
         ("latitude", PFloat lat);
         ("longitude", PFloat lng);
         ("categories", PList cats);
         ("category_names", PList (map PStr (categories template)));
         ("distance", PInt distance);
         ("rating", PFloat (py_round (fadd (typical_rating template) drating) 1));
         ("price", PInt (price template));
         ("stats", PDict [("tip_count", PInt tip_count);
                          ("users_count", PInt users_count);
                          ("checkins_count", PInt checkins_count)]);
         ("hours", hours);
         ("popularity", PFloat (py_round popularity 2));
         ("tastes", tastes);
         ("source", PStr "mock");
         ("raw_data", PDict [("generated", PBool true);
                             ("template", PStr (name template))])] in
    (business,
     set_generated (dict_set business_id business (generated_businesses w)) w).

Definition _extract_city (location : string) : R string :=
  fun w =>
    let location_lower := lower location in
    match List.find (fun city => contains (lower city) location_lower)
            (dict_keys CITIES) with
    | Some city => (city, w)
    | None => choice "" (dict_keys CITIES) w
    end.

(** [str] fields of a record, for the two filters of the search. *)
Definition name_of (business : pyval) : result string :=
  match py_item business "name" with
  | inr (PStr s) => inr s
  | inr _ => inl AttributeError
  | inl e => inl e
  end.

(** [category in business['category_names']]. *)
Definition has_category (category : string) (business : pyval) : result bool :=
  match py_item business "category_names" with
  | inr (PList l) =>
      inr (existsb (fun v => match v with PStr s => String.eqb category s | _ => false end) l)
  | inr _ => inl TypeError
  | inl e => inl e
  end.

(** The loop [for i in range(n)] of [search_businesses], from index [i]. *)
Fixpoint search_loop (city query category : string) (n : nat) (i : Z)
  : M (list pyval) :=
  match n with
  | O => ret []
  | S n' =>
      fun w =>
        let '(business, w1) := _generate_business city i w in
        (skip_query <- lift
           (if nonempty query
            then (nm <~ name_of business ;; inr (negb (contains (lower query) (lower nm))))
            else inr false) ;;
         skip_category <- lift
           (if skip_query then inr true
            else if nonempty category
                 then (b <~ has_category category business ;; inr (negb b))
                 else inr false) ;;
         rest <- search_loop city query category n' (i + 1) ;;
         ret (if skip_category then rest else business :: rest)) w1
  end.

Definition search_businesses (location query category : string)
  (radius limit : Z) : M pyval :=
  fun w =>
    let '(city, w1) := _extract_city location w in
    (businesses <- search_loop city query category (Z.to_nat (Z.min limit 20)) 0 ;;
     ret (PList businesses)) w1.

(** The adapter as a [DataSource]. [get_business_details] and
    [get_reviews] are not embedded; they are taken as given. *)
Definition as_DataSource
  (details : string -> M pyval) (reviews : string -> Z -> M pyval)
  : base.DataSource :=
  {| base.search_businesses := search_businesses;
     base.get_business_details := details;
     base.get_reviews := reviews |}.

End MockDataSource.
End mock_data.

(** ** Arithmetic on Python numbers, as [sum], [/] and [round] use it *)

Module Num.

(** [float(z)], which raises when [z] is beyond the range of binary64. *)
Definition to_float (z : Z) : result float :=
  match float_of_Z z with
  | S754_infinity _ => inl OverflowError
  | x => inr x
  end.

(** [a + b]. A [bool] is an [int]. *)
Definition add (a b : pyval) : result pyval :=
  let as_num (v : pyval) : option (Z + float) :=
    match v with
    | PInt z => Some (inl z)
    | PBool b => Some (inl (if b then 1 else 0))
    | PFloat x => Some (inr x)
    | _ => None
    end in
  match as_num a, as_num b with
  | Some (inl x), Some (inl y) => inr (PInt (x + y))
  | Some (inl x), Some (inr y) => x' <~ to_float x ;; inr (PFloat (fadd x' y))
  | Some (inr x), Some (inl y) => y' <~ to_float y ;; inr (PFloat (fadd x y'))
  | Some (inr x), Some (inr y) => inr (PFloat (fadd x y))
  | _, _ => inl TypeError
  end.

(** [sum(l)]: from the int [0], left to right. *)
Definition sum (l : list pyval) : result pyval :=
  fold_left (fun acc v => a <~ acc ;; add a v) l (inr (PInt 0)).

(** [v / n] for a number [v] and a positive int [n]. *)
Definition truediv (v : pyval) (n : positive) : result pyval :=
  match v with
  | PInt z =>
      match float_of_ratio z n with
      | S754_infinity _ => inl OverflowError
      | x => inr (PFloat x)
      end
  | PBool b => inr (PFloat (float_of_ratio (if b then 1 else 0) n))
  | PFloat x => n' <~ to_float (Zpos n) ;; inr (PFloat (fdiv x n'))
  | _ => inl TypeError
  end.

(** [round(v, ndigits)] for [0 <= ndigits]: an int is returned as it is. *)
Definition round (v : pyval) (ndigits : Z) : result pyval :=
  match v with
  | PInt z => inr (PInt z)
  | PBool b => inr (PInt (if b then 1 else 0))
  | PFloat x => inr (PFloat (py_round x ndigits))
  | _ => inl TypeError
  end.

(** [len(v)]. *)
Definition len (v : pyval) : result Z :=
  match v with
  | PList l => inr (Z.of_nat (length l))
  | PDict d => inr (Z.of_nat (length d))
  | PStr s => inr (Z.of_nat (String.length s))
  | _ => inl TypeError
  end.

End Num.

(** ** services/data_collector.py *)

Module data_collector.
Module DataCollector.

Record t := {
  sources : list (string * base.DataSource)
}.

(** The calls the collector makes to its adapters, in order. *)
Inductive Call :=
| CallSearch (source location query category : string) (limit : Z)
| CallDetails (source business_id : string)
| CallReviews (source business_id : string) (limit : Z).

(** [mock] is the object [MockDataSource()] returns, [foursquare] what
    [FoursquareSource()] returns or raises. *)
Definition _initialize_sources (settings : Settings)
  (mock : base.DataSource) (foursquare : result base.DataSource)
  : list (string * base.DataSource) :=
  let sources := dict_set "mock" mock [] in
  match FOURSQUARE_CLIENT_ID settings with
  | Some cid =>
      if (nonempty cid && negb (String.eqb cid "your-client-id-here"))%bool
      then match foursquare with
           | inr fs => dict_set "foursquare" fs sources
           | inl _ => sources
           end
      else sources
  | None => sources
  end.

(** [DataCollector()]: a fresh Mock adapter starts with an empty store. *)
Definition __init__ (settings : Settings)
  (mock : base.DataSource) (foursquare : result base.DataSource)
  (w : World) : t * World :=
  ({| sources := _initialize_sources settings mock foursquare |},
   set_generated [] w).

Definition get_available_sources (self : t) : list string :=
  dict_keys (sources self).

Definition get_primary_source (self : t) : string :=
  if dict_mem "foursquare" (sources self) then "foursquare" else "mock".

(** [repr] of a list of strings, as the f-string of the error message
    prints it. *)
Definition repr_list (l : list string) : string :=
  "[" +++ String.concat ", " (map (fun s => "'" +++ s +++ "'") l) +++ "]".

(** [v[k] = x]. *)
Definition set_item (v : pyval) (k : string) (x : pyval) : result pyval :=
  match v with
  | PDict d => inr (PDict (dict_set k x d))
  | _ => inl TypeError
  end.

(** [for business in businesses: business['data_source'] = source]. *)
Definition tag_all (source : string) (businesses : pyval) : result pyval :=
  match businesses with
  | PList l =>
      bs <~ rmap (fun b => set_item b "data_source" (PStr source)) l ;;
      inr (PList bs)
  | _ =>
      items <~ py_iter businesses ;;
      match items with
      | [] => inr businesses
      | _ => inl TypeError
      end
  end.

(** The body of the [try] block of [collect_businesses]; [timestamp] is
    what [_get_timestamp()] reads. *)
Definition attempt (source : string) (data_source : base.DataSource)
  (location query category : string) (limit : Z) (timestamp : string)
  : M pyval :=
  businesses <- base.search_businesses data_source location query category 5000 limit ;;
  businesses <- lift (tag_all source businesses) ;;
  count <- lift (Num.len businesses) ;;
  ret (PDict
         [("success", PBool true);
          ("source", PStr source);
          ("location", PStr location);
          ("query", PStr query);
          ("category", PStr category);
          ("count", PInt count);
          ("businesses", businesses);
          ("timestamp", PStr timestamp);
          ("cache_info",
           PDict [("cached", PBool false);
                  ("source", PStr (if String.eqb source "mock"
                                   then "generated" else "live_api"))])]).

(** [collect_businesses]. The recursive call of the handler has
    [source = 'mock'], for which the handler re-raises: the recursion is
    at most one level deep and is unfolded. *)
Definition collect_businesses (self : t)
  (location source query category : string) (limit : Z) (timestamp : string)
  (w : World) : result pyval * World * list Call :=
  let source := if String.eqb source "auto" then get_primary_source self else source in
  match dict_get source (sources self) with
  | None =>
      (inl (ValueError ("Source '" +++ source +++ "' not available. Available: "
                        +++ repr_list (get_available_sources self))), w, [])
  | Some data_source =>
      let call := CallSearch source location query category limit in
      match attempt source data_source location query category limit timestamp w with
      | (inr result, w1) => (inr result, w1, [call])
      | (inl e, w1) =>
          if (negb (String.eqb source "mock") && dict_mem "mock" (sources self))%bool
          then
            match dict_get "mock" (sources self) with
            | Some mock =>
                let '(r, w2) :=
                  attempt "mock" mock location query category limit timestamp w1 in
                (r, w2, [call; CallSearch "mock" location query category limit])
            | None => (inl e, w1, [call])
            end
          else (inl e, w1, [call])
      end
  end.

Definition get_business_details (self : t) (business_id source : string)
  (w : World) : pyval * World * list Call :=
  match dict_get source (sources self) with
  | None => (PNone, w, [])
  | Some data_source =>
      let call := CallDetails source business_id in
      match base.get_business_details data_source business_id w with
      | (inr details, w1) =>
          if truthy details
          then match set_item details "data_source" (PStr source) with
               | inr details' => (details', w1, [call])
               | inl _ => (PNone, w1, [call])
               end
          else (details, w1, [call])
      | (inl _, w1) => (PNone, w1, [call])
      end
  end.

Definition get_business_reviews (self : t) (business_id source : string)
  (limit : Z) (w : World) : pyval * World * list Call :=
  match dict_get source (sources self) with
  | None => (PList [], w, [])
  | Some data_source =>
      let call := CallReviews source business_id limit in
      match base.get_reviews data_source business_id limit w with
      | (inr reviews, w1) =>
          match tag_all source reviews with
          | inr reviews' => (reviews', w1, [call])
          | inl _ => (PList [], w1, [call])
          end
      | (inl _, w1) => (PList [], w1, [call])
      end
  end.

(** [business_name.lower() not in business['name'].lower()]. *)
Definition is_competitor (business_name : string) (business : pyval)
  : result bool :=
  name <~ py_item business "name" ;;
  match name with
  | PStr s => inr (negb (contains (lower business_name) (lower s)))
  | _ => inl AttributeError
  end.

(** The loop that fills [competitors]. *)
Fixpoint filter_competitors (business_name : string) (businesses : list pyval)
  : result (list pyval) :=
  match businesses with
  | [] => inr []
  | business :: rest =>
      keep <~ is_competitor business_name business ;;
      competitors <~ filter_competitors business_name rest ;;
      inr (if keep then business :: competitors else competitors)
  end.

(** [[b.get('rating', 0) for b in competitors if b.get('rating')]]. *)
Fixpoint ratings_of (competitors : list pyval) : result (list pyval) :=
  match competitors with
  | [] => inr []
  | b :: rest =>
      r <~ py_get b "rating" PNone ;;
      rs <~ ratings_of rest ;;
      if truthy r then (r' <~ py_get b "rating" (PInt 0) ;; inr (r' :: rs))
      else inr rs
  end.

(** [[b.get('stats', {}).get('tip_count', 0) for b in competitors]]. *)
Definition review_counts_of (competitors : list pyval) : result (list pyval) :=
  rmap (fun b => stats <~ py_get b "stats" (PDict []) ;;
                 py_get stats "tip_count" (PInt 0)) competitors.

(** [sum(l) / len(l) if l else 0]. *)
Definition average (l : list pyval) : result pyval :=
  match l with
  | [] => inr (PInt 0)
  | _ => s <~ Num.sum l ;; Num.truediv s (Pos.of_nat (length l))
  end.

(** The part of [collect_competitors] after the search has returned
    [search_results]. *)
Definition analyse (business_name : string) (limit : Z) (search_results : pyval)
  : result pyval :=
  businesses <~ py_item search_results "businesses" ;;
  businesses <~ py_iter businesses ;;
  competitors <~ filter_competitors business_name businesses ;;
  let competitors := slice_to competitors limit in
  averages <~
    (match competitors with
     | [] => inr (PInt 0, PInt 0)
     | _ =>
         ratings <~ ratings_of competitors ;;
         avg_rating <~ average ratings ;;
         review_counts <~ review_counts_of competitors ;;
         avg_reviews <~ average review_counts ;;
         inr (avg_rating, avg_reviews)
     end) ;;
  source <~ py_item search_results "source" ;;
  avg_rating <~ Num.round (fst averages) 2 ;;
  avg_reviews <~ Num.round (snd averages) 0 ;;
  inr (PDict
         [("success", PBool true);
          ("source", source);
          ("target_business", PStr business_name);
          ("competitors_count", PInt (Z.of_nat (length competitors)));
          ("competitors", PList competitors);
          ("analysis",
           PDict [("average_competitor_rating", avg_rating);
                  ("average_competitor_reviews", avg_reviews);
                  ("market_saturation", PInt (Z.of_nat (length competitors)))])]).

Definition collect_competitors (self : t)
  (business_name location category : string) (limit : Z) (timestamp : string)
  (w : World) : result pyval * World * list Call :=
  match collect_businesses self location "auto" category "" (limit * 2) timestamp w with
  | (inr search_results, w1, calls) =>
      (analyse business_name limit search_results, w1, calls)
  | (inl e, w1, calls) => (inl e, w1, calls)
  end.

End DataCollector.
End data_collector.

(** ** views.py *)

Module views.

(** [request.GET]. The [limit] parameter is absent ([None]), present but
    not the text of an int ([Some None], on which [int()] raises), or
    present with the int it denotes. *)
Record QueryDict := {
  GET_location : option string;
  GET_source : option string;
  GET_query : option string;
  GET_category : option string;
  GET_business : option string;
  GET_limit : option (option Z)
}.

Record Response := {
  data : pyval;
  status : Z
}.

Definition HTTP_200_OK : Z := 200.
Definition HTTP_400_BAD_REQUEST : Z := 400.
Definition HTTP_500_INTERNAL_SERVER_ERROR : Z := 500.

(** [str(e)], for the exceptions whose text the package itself writes. *)
Definition str_of_exn (e : exn) : string :=
  match e with
  | ValueError msg => msg
  | KeyError key => "'" +++ key +++ "'"
  | RequestException msg => msg
  | Exception msg => msg
  | AttributeError => "AttributeError"
  | TypeError => "TypeError"
  | ZeroDivisionError => "division by zero"
  | OverflowError => "OverflowError"
  | UnboundLocalError => "UnboundLocalError"
  end.

Definition error_response (e : exn) : Response :=
  {| data := PDict [("error", PStr (str_of_exn e)); ("success", PBool false)];
     status := HTTP_500_INTERNAL_SERVER_ERROR |}.

(** [int(request.GET.get('limit', dflt))]. *)
Definition int_limit (GET : QueryDict) (dflt : Z) : result Z :=
  match GET_limit GET with
  | None => inr dflt
  | Some (Some z) => inr z
  | Some None => inl (ValueError "invalid literal for int() with base 10")
  end.

Section Views.

(** The settings and the two adapter constructors the handlers run
    under. *)
Variable settings : Settings.
Variable mock : base.DataSource.
Variable foursquare : result base.DataSource.

(** [BusinessSearchView.get]. *)
Definition BusinessSearchView_get (GET : QueryDict) (timestamp : string)
  (w : World) : Response * World * list data_collector.DataCollector.Call :=
  let location := default (DEFAULT_LOCATION settings) (GET_location GET) in
  let source := default "auto" (GET_source GET) in
  let query := default "" (GET_query GET) in
  let category := default "" (GET_category GET) in
  match int_limit GET 10 with
  | inl e => (error_response e, w, [])
  | inr limit =>
      let limit := Z.min (Z.max limit 1) 50 in
      let '(collector, w1) :=
        data_collector.DataCollector.__init__ settings mock foursquare w in
      match data_collector.DataCollector.collect_businesses collector
              location source query category limit timestamp w1 with
      | (inr result, w2, calls) =>
          ({| data := result; status := HTTP_200_OK |}, w2, calls)
      | (inl e, w2, calls) => (error_response e, w2, calls)
      end
  end.

(** [CompetitorAnalysisView.get]. *)
Definition CompetitorAnalysisView_get (GET : QueryDict) (timestamp : string)
  (w : World) : Response * World * list data_collector.DataCollector.Call :=
  let business_name := default "" (GET_business GET) in
  let location := default (DEFAULT_LOCATION settings) (GET_location GET) in
  let category := default "" (GET_category GET) in
  match int_limit GET 5 with
  | inl e => (error_response e, w, [])
  | inr limit =>
      if negb (nonempty business_name)
      then ({| data := PDict [("error", PStr "Business name is required");
                              ("success", PBool false)];
               status := HTTP_400_BAD_REQUEST |}, w, [])
      else
        let '(collector, w1) :=
          data_collector.DataCollector.__init__ settings mock foursquare w in
        match data_collector.DataCollector.collect_competitors collector
                business_name location category limit timestamp w1 with
        | (inr result, w2, calls) =>
            ({| data := result; status := HTTP_200_OK |}, w2, calls)
        | (inl e, w2, calls) => (error_response e, w2, calls)
        end
  end.

(** The source a request for one business resolves to: an id that
    starts with ["mock_"] goes to Mock, any other to the primary source. *)
Definition detect_source (collector : data_collector.DataCollector.t)
  (source business_id : string) : string :=
  if String.eqb source "auto"
  then if String.prefix "mock_" business_id then "mock"
       else data_collector.DataCollector.get_primary_source collector
  else source.


(** [BusinessReviewsView.get]. *)
Definition BusinessReviewsView_get (GET : QueryDict) (business_id : string)
  (w : World) : Response * World * list data_collector.DataCollector.Call :=
  let source := default "auto" (GET_source GET) in
  match int_limit GET 20 with
  | inl e => (error_response e, w, [])
  | inr limit =>
      let '(collector, w1) :=
        data_collector.DataCollector.__init__ settings mock foursquare w in
      let source := detect_source collector source business_id in
      let '(reviews, w2, calls) :=
        data_collector.DataCollector.get_business_reviews collector business_id
          source limit w1 in
      match Num.len reviews with
      | inl e => (error_response e, w2, calls)
      | inr count =>
          ({| data := PDict [("success", PBool true);
                             ("business_id", PStr business_id);
                             ("source", PStr source);
                             ("count", PInt count);
                             ("reviews", reviews)];
              status := HTTP_200_OK |}, w2, calls)
      end
  end.

(** The loop of [TestConnectionView.get] over the sources; [timestamp]
    gives the clock reading of the search that tests a source. *)
Fixpoint test_sources (collector : data_collector.DataCollector.t)
  (timestamp : string -> string) (sources : list string)
  (results : list (string * pyval)) (w : World)
  : list (string * pyval) * World * list data_collector.DataCollector.Call :=
  match sources with
  | [] => (results, w, [])
  | source :: rest =>
      let '(test_result, w1, calls) :=
        data_collector.DataCollector.collect_businesses collector
          "New York" source "" "" 2 (timestamp source) w in
      let entry :=
        match (test_result <~ test_result ;;
               count <~ py_get test_result "count" (PInt 0) ;;
               businesses <~ py_get test_result "businesses" (PList []) ;;
               test_data <~ slice_value businesses 1 ;;
               inr (PDict [("status", PStr "connected");
                           ("count", count);
                           ("test_data", test_data)])) with
        | inr entry => entry
        | inl e => PDict [("status", PStr "error"); ("error", PStr (str_of_exn e))]
        end in
      let '(results', w2, calls') :=
        test_sources collector timestamp rest (dict_set source entry results) w1 in
      (results', w2, (calls ++ calls')%list)
  end.

(** [TestConnectionView.get]; [use_mock_data] is
    [getattr(settings, 'USE_MOCK_DATA', True)]. *)
Definition TestConnectionView_get (use_mock_data : pyval)
  (timestamp : string -> string) (w : World)
  : Response * World * list data_collector.DataCollector.Call :=
  let '(collector, w1) :=
    data_collector.DataCollector.__init__ settings mock foursquare w in
  let sources := data_collector.DataCollector.get_available_sources collector in
  let '(results, w2, calls) := test_sources collector timestamp sources [] w1 in
  ({| data :=
        PDict [("success", PBool true);
               ("available_sources", PList (map PStr sources));
               ("primary_source",
                PStr (data_collector.DataCollector.get_primary_source collector));
               ("test_results", PDict results);
               ("environment",
                PDict [("use_mock_data", use_mock_data);
                       ("foursquare_configured",
                        PBool (match FOURSQUARE_CLIENT_ID settings with
                               | Some cid =>
                                   (nonempty cid
                                    && negb (String.eqb cid "your-client-id-here"))%bool
                               | None => false
                               end))])];
      status := HTTP_200_OK |}, w2, calls).

End Views.

End views.

(** * Properties *)

Import data_collector.DataCollector.

(** ** Notions used in the statements *)

(** The keys of the value [collect_businesses] returns. *)
Definition result_keys : list string :=
  ["success"; "source"; "location"; "query"; "category"; "count";
   "businesses"; "timestamp"; "cache_info"].

(** A fallback flag would be a test on returned values that holds of a
    value served as a fallback and fails on a value served directly. *)
Definition tells_fallback (flag : pyval -> bool) (fallback direct : pyval) : Prop :=
  flag fallback = true /\ flag direct = false.

(** The source a request resolves to. *)
Definition resolve (self : t) (source : string) : string :=
  if String.eqb source "auto" then get_primary_source self else source.

(** A configuration with Foursquare credentials, and the two adapters as
    [_initialize_sources] registers them; the operations that are not
    embedded answer "not found" and "no reviews". *)
Definition configured : Settings :=
  {| FOURSQUARE_CLIENT_ID := Some "client-id";
     FOURSQUARE_CLIENT_SECRET := Some "client-secret";
     FOURSQUARE_API_KEY := Some "api-key";
     DEFAULT_LOCATION := "New York" |}.

Definition the_mock : base.DataSource :=
  mock_data.MockDataSource.as_DataSource
    (fun _ => ret PNone) (fun _ _ => ret (PList [])).

Definition the_foursquare (settings : Settings) : result base.DataSource :=
  match foursquare.FoursquareSource.__init__ settings with
  | inr self =>
      inr (foursquare.FoursquareSource.as_DataSource self
             (fun _ => ret PNone) (fun _ _ => ret (PList [])))
  | inl e => inl e
  end.

Definition the_collector : t :=
  {| sources := _initialize_sources configured the_mock (the_foursquare configured) |}.

(** A world in which the next request is answered with status 500. *)
Definition world_500 : World :=
  {| cache := ∅;
     network := [NetResponse {| status_code := 500; json := None |}];
     random := [];
     generated_businesses := [];
     events := [] |}.

(** ** Facts about dictionaries *)

Section DictFacts.
Context {V : Type}.
Implicit Types (d : list (string * V)) (k : string) (v : V).

Lemma dict_get_set_same k v d : dict_get k (dict_set k v d) = Some v.
Proof.
  induction d as [|[k' v'] d IH]; simpl.
  - now rewrite String.eqb_refl.
  - destruct (String.eqb k k') eqn:E; simpl; rewrite E; auto.
Qed.

Lemma dict_get_set_other k k' v d :
  k <> k' -> dict_get k' (dict_set k v d) = dict_get k' d.
Proof.
  intros Hne. induction d as [|[k0 v0] d IH]; simpl.
  - destruct (String.eqb k' k) eqn:E; auto.
    apply String.eqb_eq in E. congruence.
  - destruct (String.eqb k k0) eqn:E; simpl.
    + apply String.eqb_eq in E. subst k0.
      destruct (String.eqb k' k) eqn:E'; auto.
      apply String.eqb_eq in E'. congruence.
    + destruct (String.eqb k' k0); auto.
Qed.

Lemma dict_set_id k v d : dict_get k d = Some v -> dict_set k v d = d.
Proof.
  induction d as [|[k' v'] d IH]; simpl; [discriminate|].
  destruct (String.eqb k k') eqn:E.
  - intros [= ->]. reflexivity.
  - intros H. now rewrite IH.
Qed.

Lemma dict_mem_true k d : dict_mem k d = true <-> exists v, dict_get k d = Some v.
Proof.
  unfold dict_mem. destruct (dict_get k d); split; eauto.
  - discriminate.
  - intros [v Hv]. discriminate Hv.
Qed.

End DictFacts.

(** ** The Mock search always returns a list of records *)

Lemma generate_business_shape city index w :
  exists d w', mock_data.MockDataSource._generate_business city index w = (PDict d, w')
    /\ (exists s, dict_get "name" d = Some (PStr s))
    /\ (exists cs, dict_get "category_names" d = Some (PList (map PStr cs))).
Proof.
  unfold mock_data.MockDataSource._generate_business.
  repeat match goal with
         | |- context [let '(_, _) := ?x in _] => destruct x
         end.
  eexists _, _. split; [reflexivity|]. split; simpl; eauto.
Qed.

Lemma mock_search_loop_returns city query category n :
  forall i w, exists l w',
    mock_data.MockDataSource.search_loop city query category n i w = (inr l, w')
    /\ Forall (fun b => is_dict b = true) l.
Proof.
  induction n as [|n IH]; intros i w; simpl.
  - eexists [], w. split; [reflexivity|constructor].
  - destruct (generate_business_shape city i w) as (d & w1 & Hg & [s Hs] & [cs Hcs]).
    rewrite Hg.
    unfold bind, lift, ret, mock_data.MockDataSource.name_of,
      mock_data.MockDataSource.has_category, py_item, rbind.
    rewrite Hs, Hcs.
    destruct (IH (i + 1) w1) as (l & w' & Hl & Hall).
    destruct (nonempty query); destruct (nonempty category); simpl;
      repeat match goal with
             | |- context [if ?b then _ else _] => destruct b; simpl
             end;
      rewrite Hl; eexists _, _; (split; [reflexivity|]); auto.
Qed.

Lemma mock_search_returns location query category radius limit w :
  exists l w',
    mock_data.MockDataSource.search_businesses location query category radius limit w
    = (inr (PList l), w')
    /\ Forall (fun b => is_dict b = true) l.
Proof.
  unfold mock_data.MockDataSource.search_businesses.
  destruct (mock_data.MockDataSource._extract_city location w) as [city w1].
  destruct (mock_search_loop_returns city query category
              (Z.to_nat (Z.min limit 20)) 0 w1) as (l & w' & Hl & Hall).
  unfold bind, ret. rewrite Hl. eauto.
Qed.

(** ** The aggregator *)

Lemma tag_all_dicts source l :
  Forall (fun b => is_dict b = true) l ->
  exists l', tag_all source (PList l) = inr (PList l') /\ length l' = length l.
Proof.
  intros Hall. unfold tag_all.
  assert (exists l', rmap (fun b => set_item b "data_source" (PStr source)) l = inr l'
                     /\ length l' = length l) as (l' & Hl' & Hlen).
  { induction Hall as [|b l Hb Hall IH]; simpl.
    - exists []. auto.
    - destruct b; try discriminate. simpl.
      destruct IH as (l' & -> & Hlen). eexists. split; [reflexivity|].
      simpl. now rewrite Hlen. }
  unfold rbind. rewrite Hl'. eauto.
Qed.

(** An attempt on the Mock adapter returns, and what it returns is an
    ordinary result tagged with source "mock". *)
Lemma attempt_mock_returns mock location query category limit timestamp w :
  base.search_businesses mock = mock_data.MockDataSource.search_businesses ->
  exists r w',
    attempt "mock" mock location query category limit timestamp w = (inr (PDict r), w')
    /\ dict_get "source" r = Some (PStr "mock")
    /\ dict_get "success" r = Some (PBool true)
    /\ dict_keys r = result_keys.
Proof.
  intros Hmock. unfold attempt. rewrite Hmock.
  destruct (mock_search_returns location query category 5000 limit w)
    as (l & w' & Hs & Hall).
  destruct (tag_all_dicts "mock" l Hall) as (l' & Htag & _).
  unfold bind, lift, ret. rewrite Hs, Htag. simpl.
  eexists _, _. split; [reflexivity|]. repeat split.
Qed.

(** C1 (as amended). When the call of the resolved non-mock provider
    raises, [collect_businesses] makes exactly one more call, to Mock, and
    returns its result: source "mock", success true, the nine ordinary keys
    and nothing else; it is the very value a direct request for "mock"
    returns from the state the failure left, so nothing in it marks a
    fallback. *)
Theorem C1_fallback_returns_plain_mock_result :
  forall (self : t) (location source query category : string) (limit : Z)
         (timestamp : string) (w w1 : World)
         (data_source mock : base.DataSource) (e : exn),
    dict_get (resolve self source) (sources self) = Some data_source ->
    resolve self source <> "mock" ->
    dict_get "mock" (sources self) = Some mock ->
    base.search_businesses mock = mock_data.MockDataSource.search_businesses ->
    base.search_businesses data_source location query category 5000 limit w
      = (inl e, w1) ->
    exists r w2,
      collect_businesses self location source query category limit timestamp w
        = (inr (PDict r), w2,
           [CallSearch (resolve self source) location query category limit;
            CallSearch "mock" location query category limit])
      /\ dict_get "source" r = Some (PStr "mock")
      /\ dict_get "success" r = Some (PBool true)
      /\ dict_keys r = result_keys
      /\ collect_businesses self location "mock" query category limit timestamp w1
           = (inr (PDict r), w2, [CallSearch "mock" location query category limit]).
Proof.
  intros self location source query category limit timestamp w w1
    data_source mock e Hsrc Hne Hmock Hreal Hraise.
  destruct (attempt_mock_returns mock location query category limit timestamp w1 Hreal)
    as (r & w2 & Hatt & Hs & Hok & Hkeys).
  exists r, w2. repeat split; auto.
  - unfold collect_businesses. fold (resolve self source). rewrite Hsrc.
    unfold attempt at 1. unfold bind at 1. rewrite Hraise.
    assert (String.eqb (resolve self source) "mock" = false) as ->
      by (apply String.eqb_neq; exact Hne).
    assert (dict_mem "mock" (sources self) = true) as ->
      by (apply dict_mem_true; eauto).
    simpl. rewrite Hmock, Hatt. reflexivity.
  - unfold collect_businesses. simpl. rewrite Hmock, Hatt. reflexivity.
Qed.

Lemma C1_fallback_returns_plain_mock_result_witness :
  exists r w2,
    collect_businesses the_collector "New York" "foursquare" "" "" 2
      "2026-01-01T00:00:00" world_500
      = (inr (PDict r), w2,
         [CallSearch "foursquare" "New York" "" "" 2;
          CallSearch "mock" "New York" "" "" 2])
    /\ dict_get "source" r = Some (PStr "mock")
    /\ dict_get "success" r = Some (PBool true)
    /\ dict_keys r = result_keys
    /\ collect_businesses the_collector "New York" "mock" "" "" 2
         "2026-01-01T00:00:00"
         (snd (foursquare.FoursquareSource.search_businesses
                 {| foursquare.FoursquareSource.client_id := "client-id";
                    foursquare.FoursquareSource.client_secret := "client-secret";
                    foursquare.FoursquareSource.api_key := Some "api-key" |}
                 "New York" "" "" 5000 2 world_500))
       = (inr (PDict r), w2, [CallSearch "mock" "New York" "" "" 2]).
Proof.
  eapply (C1_fallback_returns_plain_mock_result the_collector "New York"
            "foursquare" "" "" 2 "2026-01-01T00:00:00" world_500 _ _ the_mock
            (Exception "Foursquare API error")).
  - reflexivity.
  - discriminate.
  - reflexivity.
  - reflexivity.
  - vm_compute. reflexivity.
Defined.

(** C1 as stated fails: on this request the provider's call raises, the
    value returned is the one a direct request for "mock" returns, and no
    test on returned values tells the two apart. *)
Lemma C1_no_fallback_flag_counterexample :
  let fallback :=
    fst (fst (collect_businesses the_collector "New York" "foursquare" "" "" 2
                "2026-01-01T00:00:00" world_500)) in
  let direct :=
    fst (fst (collect_businesses the_collector "New York" "mock" "" "" 2
                "2026-01-01T00:00:00" world_500)) in
  fst (base.search_businesses
         (default the_mock (dict_get "foursquare" (sources the_collector)))
         "New York" "" "" 5000 2 world_500)
    = inl (Exception "Foursquare API error")
  /\ (exists r, fallback = inr r /\ direct = inr r)
  /\ ~ (exists (flag : pyval -> bool) (r r' : pyval),
          fallback = inr r /\ direct = inr r' /\ tells_fallback flag r r').
Proof.
  cbv zeta. split; [vm_compute; reflexivity|].
  assert (fst (fst (collect_businesses the_collector "New York" "foursquare" "" "" 2
                      "2026-01-01T00:00:00" world_500))
          = fst (fst (collect_businesses the_collector "New York" "mock" "" "" 2
                        "2026-01-01T00:00:00" world_500))) as Heq
    by (vm_compute; reflexivity).
  split.
  - rewrite Heq. vm_compute. eexists. split; reflexivity.
  - intros (flag & r & r' & Hf & Hd & Ht & Hf').
    rewrite Heq in Hf. rewrite Hf in Hd. injection Hd as <-.
    rewrite Ht in Hf'. discriminate.
Qed.

(** C7. An explicit source name that is not registered makes
    [collect_businesses] raise [ValueError] at once: the world is as it
    was and no adapter has been called, Mock included. *)
Theorem C7_unknown_source_is_fatal :
  forall (self : t) (location source query category : string) (limit : Z)
         (timestamp : string) (w : World),
    source <> "auto" ->
    dict_get source (sources self) = None ->
    collect_businesses self location source query category limit timestamp w
    = (inl (ValueError ("Source '" +++ source +++ "' not available. Available: "
                        +++ repr_list (get_available_sources self))),
       w, []).
Proof.
  intros self location source query category limit timestamp w Hauto Hnone.
  unfold collect_businesses.
  assert (String.eqb source "auto" = false) as -> by (now apply String.eqb_neq).
  now rewrite Hnone.
Qed.

Lemma C7_unknown_source_is_fatal_witness :
  collect_businesses the_collector "New York" "bogus" "" "" 10
    "2026-01-01T00:00:00" world_500
  = (inl (ValueError "Source 'bogus' not available. Available: ['mock', 'foursquare']"),
     world_500, []).
Proof.
  apply (C7_unknown_source_is_fatal the_collector "New York" "bogus" "" "" 10
           "2026-01-01T00:00:00" world_500).
  - discriminate.
  - reflexivity.
Defined.

(** An adapter whose detail and review calls raise. *)
Definition failing_source : base.DataSource :=
  {| base.search_businesses := fun _ _ _ _ _ => raise (Exception "upstream");
     base.get_business_details := fun _ => raise (Exception "upstream");
     base.get_reviews := fun _ _ => raise (Exception "upstream") |}.

Definition collector_with_failing_source : t :=
  {| sources := [("mock", the_mock); ("foursquare", failing_source)] |}.

(** C10. [get_business_details] and [get_business_reviews] never hand an
    error to the caller: for a source that is not registered they answer
    [None] and [[]] without calling anything; when the adapter raises they
    answer [None] and [[]]; and whatever happens the only adapter called
    is the named one, once: Mock is not tried instead. *)
Theorem C10_details_and_reviews_absorb_failures :
  forall (self : t) (business_id source : string) (limit : Z) (w : World),
    (dict_get source (sources self) = None ->
     get_business_details self business_id source w = (PNone, w, [])
     /\ get_business_reviews self business_id source limit w = (PList [], w, []))
    /\ (forall ds e w1,
          dict_get source (sources self) = Some ds ->
          base.get_business_details ds business_id w = (inl e, w1) ->
          get_business_details self business_id source w
          = (PNone, w1, [CallDetails source business_id]))
    /\ (forall ds e w1,
          dict_get source (sources self) = Some ds ->
          base.get_reviews ds business_id limit w = (inl e, w1) ->
          get_business_reviews self business_id source limit w
          = (PList [], w1, [CallReviews source business_id limit]))
    /\ (forall ds,
          dict_get source (sources self) = Some ds ->
          snd (get_business_details self business_id source w)
          = [CallDetails source business_id]
          /\ snd (get_business_reviews self business_id source limit w)
             = [CallReviews source business_id limit]).
Proof.
  intros self business_id source limit w.
  unfold get_business_details, get_business_reviews.
  repeat split.
  - now rewrite H.
  - now rewrite H.
  - intros ds e w1 Hds Hraise. now rewrite Hds, Hraise.
  - intros ds e w1 Hds Hraise. now rewrite Hds, Hraise.
  - rewrite H.
    destruct (base.get_business_details ds business_id w) as [[e|details] w1];
      [reflexivity|].
    destruct (truthy details); [|reflexivity].
    destruct (set_item details "data_source" (PStr source)); reflexivity.
  - rewrite H.
    destruct (base.get_reviews ds business_id limit w) as [[e|reviews] w1];
      [reflexivity|].
    destruct (tag_all source reviews); reflexivity.
Qed.

Lemma C10_details_and_reviews_absorb_failures_witness :
  (get_business_details collector_with_failing_source "abc" "bogus" world_500
   = (PNone, world_500, [])
   /\ get_business_reviews collector_with_failing_source "abc" "bogus" 20 world_500
      = (PList [], world_500, []))
  /\ get_business_details collector_with_failing_source "abc" "foursquare" world_500
     = (PNone, world_500, [CallDetails "foursquare" "abc"])
  /\ get_business_reviews collector_with_failing_source "abc" "foursquare" 20 world_500
     = (PList [], world_500, [CallReviews "foursquare" "abc" 20]).
Proof.
  split; [|split].
  - apply (C10_details_and_reviews_absorb_failures
             collector_with_failing_source "abc" "bogus" 20 world_500).
    reflexivity.
  - apply (proj1 (proj2 (C10_details_and_reviews_absorb_failures
             collector_with_failing_source "abc" "foursquare" 20 world_500))
             failing_source (Exception "upstream") world_500);
      reflexivity.
  - apply (proj1 (proj2 (proj2 (C10_details_and_reviews_absorb_failures
             collector_with_failing_source "abc" "foursquare" 20 world_500)))
             failing_source (Exception "upstream") world_500);
      reflexivity.
Defined.

(** ** The limit that reaches the adapters *)

(** Every search call of [collect_businesses] carries the limit it was
    given. *)
Lemma collect_businesses_calls_limit self location source query category limit
  timestamp w s l q c n :
  In (CallSearch s l q c n)
     (snd (collect_businesses self location source query category limit timestamp w)) ->
  n = limit.
Proof.
  unfold collect_businesses.
  destruct (dict_get _ (sources self)) as [ds|]; simpl; [|tauto].
  destruct (attempt _ ds location query category limit timestamp w) as [[e|r] w1];
    simpl.
  - destruct (negb _ && dict_mem "mock" (sources self))%bool; simpl.
    + destruct (dict_get "mock" (sources self)) as [mock|]; simpl.
      * destruct (attempt "mock" mock location query category limit timestamp w1).
        simpl. intros [[=]|[[=]|[]]]; auto.
      * intros [[=]|[]]; auto.
    + intros [[=]|[]]; auto.
  - intros [[=]|[]]; auto.
Qed.

(** The ordinary search handler clamps: whatever [limit] the request
    carries, each adapter call it causes has a limit in [1, 50]. *)
Lemma search_view_limit_clamped settings mock fsq GET timestamp w s l q c n :
  In (CallSearch s l q c n)
     (snd (views.BusinessSearchView_get settings mock fsq GET timestamp w)) ->
  1 <= n <= 50.
Proof.
  unfold views.BusinessSearchView_get.
  destruct (views.int_limit GET 10) as [e|limit]; simpl; [tauto|].
  match goal with
  | |- context [collect_businesses ?x1 ?x2 ?x3 ?x4 ?x5 ?x6 ?x7 ?x8] =>
      pose proof (collect_businesses_calls_limit x1 x2 x3 x4 x5 x6 x7 x8 s l q c n) as Hc;
      destruct (collect_businesses x1 x2 x3 x4 x5 x6 x7 x8) as [[[e'|r] w2] calls]
  end; simpl in *; intros Hin; apply Hc in Hin; lia.
Qed.

(** The competitor handler passes twice the requested limit on, as it
    is. *)
Lemma competitor_view_limit_doubled settings mock fsq GET timestamp w s l q c n z :
  views.GET_limit GET = Some (Some z) ->
  In (CallSearch s l q c n)
     (snd (views.CompetitorAnalysisView_get settings mock fsq GET timestamp w)) ->
  n = 2 * z.
Proof.
  intros Hz. unfold views.CompetitorAnalysisView_get, views.int_limit.
  rewrite Hz.
  destruct (negb (nonempty _)); simpl; [tauto|].
  unfold collect_competitors.
  match goal with
  | |- context [collect_businesses ?x1 ?x2 ?x3 ?x4 ?x5 ?x6 ?x7 ?x8] =>
      pose proof (collect_businesses_calls_limit x1 x2 x3 x4 x5 x6 x7 x8 s l q c n) as Hc;
      destruct (collect_businesses x1 x2 x3 x4 x5 x6 x7 x8) as [[[e'|r] w2] calls]
  end; simpl in *.
  - intros Hin; apply Hc in Hin; lia.
  - destruct (analyse _ z r); simpl; intros Hin; apply Hc in Hin; lia.
Qed.

(** A competitor-analysis request for "Zen" with [limit=100]. *)
Definition competitor_request : views.QueryDict :=
  {| views.GET_location := None;
     views.GET_source := None;
     views.GET_query := None;
     views.GET_category := None;
     views.GET_business := Some "Zen";
     views.GET_limit := Some (Some 100) |}.

(** C3 (the code departs from it). On the competitor-analysis path the
    limit is not clamped: for [limit=100] both adapters are called with
    200. *)
Theorem C3_competitor_limit_reaches_adapter_unclamped :
  snd (views.CompetitorAnalysisView_get configured the_mock
         (the_foursquare configured) competitor_request
         "2026-01-01T00:00:00" world_500)
  = [CallSearch "foursquare" "New York" "" "" 200;
     CallSearch "mock" "New York" "" "" 200].
Proof. vm_compute. reflexivity. Qed.

(** ** The governors and the Foursquare adapter *)

Definition is_governor_event (e : Event) : bool :=
  match e with
  | EvBudgetCheck _ _ | EvRateWait _ => true
  | _ => false
  end.

(** The cache has nothing usable under the key of this search. *)
Definition cache_miss (location query category : string) (limit : Z) (w : World)
  : Prop :=
  truthy (default PNone
            (cache w !! foursquare.FoursquareSource.search_cache_key
                          location query category limit)) = false.

(** C2 (the code departs from it). On a cache miss
    [FoursquareSource.search_businesses] looks the cache up and issues the
    network request; no step of the call consults the budget tracker or
    the rate limiter. *)
Theorem C2_foursquare_request_without_governors :
  forall (self : foursquare.FoursquareSource.t)
         (location query category : string) (radius limit : Z) (w : World),
    cache_miss location query category limit w ->
    exists url params rest,
      events (snd (foursquare.FoursquareSource.search_businesses self
                     location query category radius limit w))
      = (events w
         ++ EvCacheGet (foursquare.FoursquareSource.search_cache_key
                          location query category limit)
         :: EvRequest url params :: rest)%list
      /\ forallb (fun e => negb (is_governor_event e)) rest = true.
Proof.
  intros self location query category radius limit w Hmiss.
  unfold cache_miss in Hmiss.
  unfold foursquare.FoursquareSource.search_businesses.
  unfold bind at 1. unfold cache_get at 1. cbv beta iota. rewrite Hmiss.
  set (key := foursquare.FoursquareSource.search_cache_key location query category limit).
  set (w1 := emit (EvCacheGet key) w).
  assert (forall url params,
    exists rest,
      events (snd ((response <- requests_get url params ;;
         match response with
         | None => raise UnboundLocalError
         | Some response =>
             if foursquare.FoursquareSource.is_http_error (status_code response)
             then raise (Exception "Foursquare API error")
             else
               match json response with
               | None => raise (Exception "Foursquare API error")
               | Some data =>
                   places <- lift
                     (if foursquare.FoursquareSource.has_api_key self
                      then py_get data "results" (PList [])
                      else (r <~ py_get data "response" (PDict []) ;;
                            py_get r "venues" (PList []))) ;;
                   places <- lift (foursquare.FoursquareSource.slice_places places limit) ;;
                   let businesses := PList (foursquare.FoursquareSource.format_places places) in
                   _ <- cache_set key businesses 300 ;;
                   ret businesses
               end
         end) w1))
      = (events w ++ EvCacheGet key :: EvRequest url params :: rest)%list
      /\ forallb (fun e => negb (is_governor_event e)) rest = true) as Hreq.
  { intros url params. unfold bind at 1. unfold requests_get.
    assert (events (emit (EvRequest url params) w1)
            = (events w ++ [EvCacheGet key; EvRequest url params])%list) as Hev.
    { unfold w1. simpl. now rewrite <- app_assoc. }
    destruct (network w1) as [|[|r] rest].
    - exists []. simpl in *. rewrite Hev. auto.
    - exists []. simpl in *. rewrite Hev. auto.
    - cbv beta iota.
      destruct (foursquare.FoursquareSource.is_http_error (status_code r));
        [exists []; simpl in *; rewrite Hev; auto|].
      destruct (json r) as [data|];
        [|exists []; simpl in *; rewrite Hev; auto].
      unfold bind, lift.
      destruct (if foursquare.FoursquareSource.has_api_key self
                then py_get data "results" (PList [])
                else _) as [e|places];
        [exists []; simpl in *; rewrite Hev; auto|].
      destruct (foursquare.FoursquareSource.slice_places places limit) as [e|l];
        [exists []; simpl in *; rewrite Hev; auto|].
      exists [EvCacheSet key 300]. simpl in *. rewrite Hev.
      rewrite <- app_assoc. auto. }
  destruct (foursquare.FoursquareSource.has_api_key self) eqn:Hkey.
  - destruct (Hreq (foursquare.FoursquareSource.BASE_URL
                    +++ foursquare.FoursquareSource.SEARCH_ENDPOINT)
                (foursquare.FoursquareSource.search_params
                   location query category radius limit)) as (rest & H1 & H2).
    eauto.
  - match goal with
    | |- context [requests_get ?u ?p] =>
        destruct (Hreq u p) as (rest & H1 & H2)
    end.
    eauto.
Qed.

Lemma C2_foursquare_request_without_governors_witness :
  exists url params rest,
    events (snd (foursquare.FoursquareSource.search_businesses
                   {| foursquare.FoursquareSource.client_id := "client-id";
                      foursquare.FoursquareSource.client_secret := "client-secret";
                      foursquare.FoursquareSource.api_key := Some "api-key" |}
                   "New York" "" "" 5000 10 world_500))
    = (events world_500
       ++ EvCacheGet (foursquare.FoursquareSource.search_cache_key "New York" "" "" 10)
       :: EvRequest url params :: rest)%list
    /\ forallb (fun e => negb (is_governor_event e)) rest = true.
Proof.
  apply (C2_foursquare_request_without_governors
           {| foursquare.FoursquareSource.client_id := "client-id";
              foursquare.FoursquareSource.client_secret := "client-secret";
              foursquare.FoursquareSource.api_key := Some "api-key" |}
           "New York" "" "" 5000 10 world_500).
  vm_compute. reflexivity.
Defined.

(** ** The rate limiter *)

Import budget_control.

(** One call arriving at [now]: the time at which the caller goes on,
    which is [now] plus the time slept. *)
Definition admitted_at (now : float) (r : RateLimiter.t)
  : result (float * RateLimiter.t) :=
  match RateLimiter.wait_if_needed now r with
  | inr (Some d, r') => inr (fadd now d, r')
  | inr (None, r') => inr (now, r')
  | inl e => inl e
  end.

(** Calls made back to back: each arrives when the previous one goes on.
    The result lists the times at which the calls go on. *)
Fixpoint back_to_back (n : nat) (now : float) (r : RateLimiter.t)
  : result (list float * RateLimiter.t) :=
  match n with
  | O => inr ([], r)
  | S n' =>
      match admitted_at now r with
      | inl e => inl e
      | inr (t, r1) =>
          match back_to_back n' t r1 with
          | inl e => inl e
          | inr (ts, r2) => inr (t :: ts, r2)
          end
      end
  end.

(** Calls arriving at the given times, one after the other. *)
Fixpoint calls_at (arrivals : list float) (r : RateLimiter.t)
  : result (list (option float) * RateLimiter.t) :=
  match arrivals with
  | [] => inr ([], r)
  | now :: rest =>
      match RateLimiter.wait_if_needed now r with
      | inl e => inl e
      | inr (s, r1) =>
          match calls_at rest r1 with
          | inl e => inl e
          | inr (ss, r2) => inr (s :: ss, r2)
          end
      end
  end.

(** The number of the times [ts] inside the 60-second window that opens
    at [start]. *)
Definition in_window (start : float) (ts : list float) : nat :=
  length (List.filter
            (fun t => (fle start t && flt (fsub t start) RateLimiter.sixty)%bool) ts).

(** The limiter never rejects: with a limit of at least one the call
    returns, with the pruned window extended by [now]. *)
Lemma wait_if_needed_never_rejects now r :
  1 <= RateLimiter.requests_per_minute r ->
  exists s r',
    RateLimiter.wait_if_needed now r = inr (s, r')
    /\ RateLimiter.requests_per_minute r' = RateLimiter.requests_per_minute r
    /\ RateLimiter.request_times r'
       = (List.filter (fun t => flt (fsub now t) RateLimiter.sixty)
            (RateLimiter.request_times r) ++ [now])%list.
Proof.
  intros Hn. unfold RateLimiter.wait_if_needed.
  set (times := List.filter _ (RateLimiter.request_times r)).
  destruct (RateLimiter.requests_per_minute r <=? Z.of_nat (length times)) eqn:E.
  - destruct times as [|t0 rest].
    + apply Z.leb_le in E. simpl in E. lia.
    + destruct (fgt _ _); eexists _, _; repeat split.
  - eexists _, _; repeat split.
Qed.

(** When the call sleeps, it sleeps [60 - (now - oldest)] for the oldest
    timestamp left in a full window, and that duration is positive. *)
Lemma wait_if_needed_delay now r d r' :
  RateLimiter.wait_if_needed now r = inr (Some d, r') ->
  exists t0 rest,
    List.filter (fun t => flt (fsub now t) RateLimiter.sixty)
      (RateLimiter.request_times r) = t0 :: rest
    /\ RateLimiter.requests_per_minute r <= Z.of_nat (length (t0 :: rest))
    /\ d = fsub RateLimiter.sixty (fsub now (RateLimiter.min_from t0 rest))
    /\ fgt d (S754_zero false) = true.
Proof.
  unfold RateLimiter.wait_if_needed.
  set (times := List.filter _ (RateLimiter.request_times r)).
  destruct (RateLimiter.requests_per_minute r <=? Z.of_nat (length times)) eqn:E;
    [|discriminate].
  destruct times as [|t0 rest]; [discriminate|].
  destruct (fgt _ _) eqn:Hpos; [|discriminate].
  intros [= <- <-]. exists t0, rest. apply Z.leb_le in E. auto.
Qed.

(** C5 (the code departs from it). A limiter with limit 2 receives
    calls at 0.0, 0.1 and 0.2 seconds. The third call sleeps
    [60 - (0.2 - 0.0)] seconds and goes on at 60.0, yet its timestamp 0.2,
    read before the sleep, joins the two already in the window: three
    timestamps within one second. Two more calls made back to back from
    60.0 then go on near 60.1 and 60.2, because the stale timestamps 0.1
    and 0.2 are what they wait for: three requests within one second, where
    the limit allows two in any 60 seconds. *)
Theorem C5_window_exceeds_limit :
  let r0 := RateLimiter.__init__ 2 in
  let t0 := S754_zero false in
  let t1 := float_of_ratio 1 10 in
  let t2 := float_of_ratio 2 10 in
  let d3 := fsub RateLimiter.sixty (fsub t2 t0) in
  exists r3 r5 t4 t5,
    calls_at [t0; t1; t2] r0 = inr ([None; None; Some d3], r3)
    /\ RateLimiter.request_times r3 = [t0; t1; t2]
    /\ in_window t0 (RateLimiter.request_times r3) = 3%nat
    /\ fadd t2 d3 = RateLimiter.sixty
    /\ back_to_back 2 RateLimiter.sixty r3 = inr ([t4; t5], r5)
    /\ in_window RateLimiter.sixty [RateLimiter.sixty; t4; t5] = 3%nat
    /\ flt (fsub t5 RateLimiter.sixty) (float_of_Z 1) = true.
Proof.
  cbv zeta. do 4 eexists.
  split; [vm_compute; reflexivity|].
  split; [vm_compute; reflexivity|].
  split; [vm_compute; reflexivity|].
  split; [vm_compute; reflexivity|].
  split; [vm_compute; reflexivity|].
  split; vm_compute; reflexivity.
Qed.

(** ** The budget tracker *)

Import BudgetTracker.

Lemma dict_mem_false {V : Type} (k : string) (d : list (string * V)) :
  dict_mem k d = false <-> dict_get k d = None.
Proof.
  unfold dict_mem. destruct (dict_get k d); split; auto; discriminate.
Qed.

(** Creating the missing entries changes no counter: an entry that is
    there keeps its value, and a missing one still reads as zero. *)
Lemma counter_init_usage today api_name du day name :
  counter day name (init_usage today api_name du) = counter day name du.
Proof.
  unfold counter, init_usage.
  destruct (String.eqb_spec today day) as [<-|Hday].
  - destruct (dict_mem today du) eqn:Hm.
    + apply dict_mem_true in Hm as [d Hd]. rewrite Hd. simpl.
      destruct (dict_mem api_name d) eqn:Ha; [now rewrite Hd|].
      rewrite dict_get_set_same. simpl.
      apply dict_mem_false in Ha.
      destruct (String.eqb_spec api_name name) as [<-|Hn].
      * now rewrite dict_get_set_same, Ha.
      * now rewrite dict_get_set_other.
    + apply dict_mem_false in Hm. rewrite dict_get_set_same. simpl.
      rewrite dict_get_set_same, Hm. simpl.
      destruct (String.eqb name api_name); reflexivity.
  - destruct (dict_mem today du).
    + destruct (dict_mem api_name _); [reflexivity|].
      now rewrite dict_get_set_other.
    + destruct (dict_mem api_name _); rewrite !dict_get_set_other; auto.
Qed.

(** Once the entries are there, the prologue changes nothing. *)
Lemma init_usage_idempotent today api_name du :
  init_usage today api_name (init_usage today api_name du)
  = init_usage today api_name du.
Proof.
  assert (forall du', (exists d, dict_get today du' = Some d
                                 /\ dict_mem api_name d = true) ->
                      init_usage today api_name du' = du') as Hid.
  { intros du' (d & Hd & Ha). unfold init_usage.
    assert (dict_mem today du' = true) as -> by (apply dict_mem_true; eauto).
    rewrite Hd. simpl. now rewrite Ha. }
  apply Hid. unfold init_usage.
  destruct (dict_mem today du) eqn:Hm.
  - apply dict_mem_true in Hm as [d Hd]. rewrite Hd. simpl.
    destruct (dict_mem api_name d) eqn:Ha; [eauto|].
    eexists. split; [apply dict_get_set_same|].
    apply dict_mem_true. eexists. apply dict_get_set_same.
  - rewrite dict_get_set_same. simpl.
    eexists. split; [apply dict_get_set_same|].
    unfold dict_mem. simpl. now rewrite String.eqb_refl.
Qed.

(** C6 (as amended). [can_make_request] answers [False] exactly when
    today's count for the provider has reached its daily cap or the total
    cost plus the cost of the operation exceeds the ceiling of 5.0. It
    leaves the total cost, the alerts, the monthly usage, the limits, the
    cost table and every counter as they were; what it does change is that
    the entries [daily_usage[today]] and [daily_usage[today][api_name]] are
    created, with a count of zero, when they were missing, and a second
    call changes nothing more. *)
Theorem C6_can_make_request_answer_and_frame :
  forall (today api_name endpoint : string) (self : t),
    let d := budget_data self in
    let answer := fst (can_make_request today api_name endpoint self) in
    let self' := snd (can_make_request today api_name endpoint self) in
    answer
    = (negb (daily_limit_of self api_name <=? counter today api_name (daily_usage d))
       && negb (fgt (fadd (total_cost d) (cost_of self api_name endpoint)) max_budget))%bool
    /\ (daily_limit_of self api_name <= counter today api_name (daily_usage d) ->
        answer = false)
    /\ (fgt (fadd (total_cost d) (cost_of self api_name endpoint)) max_budget = true ->
        answer = false)
    /\ total_cost (budget_data self') = total_cost d
    /\ alerts_sent (budget_data self') = alerts_sent d
    /\ monthly_usage (budget_data self') = monthly_usage d
    /\ daily_limits self' = daily_limits self
    /\ cost_per_request self' = cost_per_request self
    /\ budget_file self' = budget_file self
    /\ daily_usage (budget_data self') = init_usage today api_name (daily_usage d)
    /\ (forall day name,
          counter day name (daily_usage (budget_data self'))
          = counter day name (daily_usage d))
    /\ snd (can_make_request today api_name endpoint self') = self'.
Proof.
  intros today api_name endpoint self d answer self'.
  assert (self' = set_data (set_daily_usage (init_usage today api_name (daily_usage d)) d) self)
    as Hself'.
  { unfold self', can_make_request. fold d.
    destruct (_ <=? _); [reflexivity|]. destruct (fgt _ _); reflexivity. }
  assert (answer
          = (negb (daily_limit_of self api_name <=? counter today api_name (daily_usage d))
             && negb (fgt (fadd (total_cost d) (cost_of self api_name endpoint)) max_budget))%bool)
    as Hanswer.
  { unfold answer, can_make_request. fold d. rewrite counter_init_usage.
    destruct (_ <=? _); [reflexivity|]. destruct (fgt _ _); reflexivity. }
  split; [exact Hanswer|].
  split; [intros Hcap; rewrite Hanswer; apply Z.leb_le in Hcap; now rewrite Hcap|].
  split; [intros Hcost; rewrite Hanswer, Hcost; apply andb_false_r|].
  rewrite Hself'. simpl.
  repeat (split; [reflexivity|]).
  split; [intros day name; apply counter_init_usage|].
  unfold can_make_request. simpl. rewrite init_usage_idempotent.
  repeat match goal with
         | |- context [if ?c then _ else _] => destruct c
         end; reflexivity.
Qed.

(** A tracker built on a budget file where one yelp request was counted
    on 2026-01-01 and 4.995 has been spent. *)
Definition tracker_near_ceiling : t :=
  fst (__init__
         (Some {| total_cost := float_of_ratio 4995 1000;
                  daily_usage := [("2026-01-01", [("yelp", 1)])];
                  monthly_usage := [];
                  alerts_sent := [] |})).

Lemma C6_can_make_request_answer_and_frame_witness :
  fst (can_make_request "2026-01-01" "google_places" "search" tracker_near_ceiling)
  = false
  /\ fst (can_make_request "2026-01-01" "yelp" "search"
            (set_data {| total_cost := S754_zero false;
                         daily_usage := [("2026-01-01", [("yelp", 500)])];
                         monthly_usage := [];
                         alerts_sent := [] |} tracker_near_ceiling))
     = false.
Proof.
  split.
  - apply (proj1 (proj2 (proj2 (C6_can_make_request_answer_and_frame
             "2026-01-01" "google_places" "search" tracker_near_ceiling)))).
    vm_compute. reflexivity.
  - apply (proj1 (proj2 (C6_can_make_request_answer_and_frame
             "2026-01-01" "yelp" "search"
             (set_data {| total_cost := S754_zero false;
                          daily_usage := [("2026-01-01", [("yelp", 500)])];
                          monthly_usage := [];
                          alerts_sent := [] |} tracker_near_ceiling)))).
    vm_compute. discriminate.
Defined.

(** C6 as stated fails: on a fresh tracker the call creates today's
    entry for the provider, so the budget state after the call is not the
    state before it. *)
Lemma C6_can_make_request_mutates_counterexample :
  let self := fst (__init__ None) in
  budget_data self
  = {| total_cost := S754_zero false; daily_usage := [];
       monthly_usage := []; alerts_sent := [] |}
  /\ budget_data (snd (can_make_request "2026-01-01" "yelp" "search" self))
     = {| total_cost := S754_zero false;
          daily_usage := [("2026-01-01", [("yelp", 0)])];
          monthly_usage := []; alerts_sent := [] |}
  /\ budget_data (snd (can_make_request "2026-01-01" "yelp" "search" self))
     <> budget_data self.
Proof.
  cbv zeta. split; [reflexivity|]. split; [reflexivity|].
  vm_compute. discriminate.
Qed.

(** ** Normalization of Foursquare payloads *)

Import foursquare.FoursquareSource.

Lemma rbind_inr {A B : Type} (r : result A) (k : A -> result B) (b : B) :
  rbind r k = inr b -> exists a, r = inr a /\ k a = inr b.
Proof. destruct r as [e|a]; simpl; [discriminate|eauto]. Qed.

Lemma truthy_filtered_dict (f : string * pyval -> bool) l x :
  In x l -> f x = true -> truthy (PDict (List.filter f l)) = true.
Proof.
  intros Hin Hf.
  assert (In x (List.filter f l)) as Hin' by (apply filter_In; auto).
  simpl. destruct (List.filter f l); [destruct Hin'|reflexivity].
Qed.

(** A record that [_format_business] returns is never empty: it always
    carries its source tag. *)
Lemma format_business_body_truthy place business :
  _format_business_body place = inr business -> truthy business = true.
Proof.
  unfold _format_business_body. intros H.
  do 28 (apply rbind_inr in H; destruct H as (? & _ & H)).
  match type of H with
  | inr ?X = inr _ =>
      assert (business = X) as ->
        by (symmetry;
            exact (f_equal (fun r => match r with inr v => v | inl _ => business end) H))
  end.
  clear H.
  apply truthy_filtered_dict with (x := ("source", PStr "foursquare"));
    [|reflexivity].
  do 18 right. left. reflexivity.
Qed.




(** A payload on which the body of [_format_business] raises. *)
Definition malformed_place : pyval := PDict [("location", PStr "nowhere")].


(** A well-formed place and a response that carries it between two
    malformed ones. *)
Definition sample_place : pyval :=
  PDict [("fsq_id", PStr "4b5a");
         ("name", PStr "Joe's Pizza");
         ("location", PDict [("locality", PStr "New York")]);
         ("rating", PFloat (float_of_ratio 85 10))].

Definition sample_response : Response :=
  {| status_code := 200;
     json := Some (PDict [("results",
                           PList [malformed_place; sample_place; PInt 7])]) |}.

Definition world_ok : World :=
  {| cache := ∅; network := [NetResponse sample_response]; random := [];
     generated_businesses := []; events := [] |}.


Definition sample_source : t :=
  {| client_id := "client-id"; client_secret := "client-secret";
     api_key := Some "api-key" |}.


(** ** Competitor analysis *)















(** Search results with one record that mentions "zen" and three that do
    not, rated 1, 1, 2 with tip counts 1, 2, 2. *)
Definition competitor (name : string) (rating tips : Z) : pyval :=
  PDict [("id", PStr name); ("name", PStr name); ("rating", PInt rating);
         ("stats", PDict [("tip_count", PInt tips)])].





(** ** Recording requests *)

(** One call of [record_request]: the dates read by the call and by its
    alert check, the provider and the operation. *)
Record Recorded := {
  on_day : string;
  alert_day : string;
  provider : string;
  operation : string
}.

(** A sequence of calls of [record_request], in order. *)
Fixpoint record_all (reqs : list Recorded) (self : BudgetTracker.t) (file : Store) : BudgetTracker.t * Store :=
  match reqs with
  | [] => (self, file)
  | r :: rest =>
      let '(_, (self', file')) :=
        record_request (on_day r) (alert_day r) (provider r) (operation r) self file in
      record_all rest self' file'
  end.

(** The tabulated costs of a sequence of calls. *)
Definition costs_of (self : BudgetTracker.t) (reqs : list Recorded) : list float :=
  map (fun r => cost_of self (provider r) (operation r)) reqs.

(** What one call of [record_request] does to the total, the tables and
    the file. *)
Lemma record_request_step today today' api_name endpoint self file :
  let out := record_request today today' api_name endpoint self file in
  fst out = cost_of self api_name endpoint
  /\ total_cost (budget_data (fst (snd out)))
     = fadd (total_cost (budget_data self)) (cost_of self api_name endpoint)
  /\ cost_per_request (fst (snd out)) = cost_per_request self
  /\ daily_limits (fst (snd out)) = daily_limits self
  /\ snd (snd out) = Some (budget_data (fst (snd out))).
Proof. cbv zeta. unfold record_request, _check_alerts. simpl. auto. Qed.

Lemma cost_of_same_table self self' api_name endpoint :
  cost_per_request self' = cost_per_request self ->
  cost_of self' api_name endpoint = cost_of self api_name endpoint.
Proof. unfold cost_of. now intros ->. Qed.

Lemma record_all_total reqs :
  forall self file,
    total_cost (budget_data (fst (record_all reqs self file)))
    = fold_left fadd (costs_of self reqs) (total_cost (budget_data self))
    /\ cost_per_request (fst (record_all reqs self file)) = cost_per_request self
    /\ (reqs <> [] ->
        snd (record_all reqs self file)
        = Some (budget_data (fst (record_all reqs self file)))).
Proof.
  induction reqs as [|r rest IH]; intros self file.
  - simpl. repeat split. congruence.
  - unfold costs_of. cbn [record_all map fold_left]. fold (costs_of self rest).
    destruct (record_request_step (on_day r) (alert_day r) (provider r)
                (operation r) self file) as (_ & Ht & Hc & _ & Hf).
    destruct (record_request (on_day r) (alert_day r) (provider r)
                (operation r) self file) as [c [self1 file1]].
    simpl in Ht, Hc, Hf |- *.
    destruct (IH self1 file1) as (IHt & IHc & IHf).
    rewrite IHt, IHc, Ht, Hc.
    assert (costs_of self1 rest = costs_of self rest) as ->.
    { unfold costs_of. apply map_ext. intros a. now apply cost_of_same_table. }
    repeat split.
    intros _. destruct rest as [|r' rest'].
    + simpl. exact Hf.
    + apply IHf. discriminate.
Qed.

(** ** The rounding error of binary64 additions

    Values are counted in units of [2^-1074], the smallest positive
    binary64, so that the error analysis of [SFadd] stays within the
    integers. *)

Module Binary64.

Lemma digits2_pos_bounds p :
  2 ^ (Zpos (digits2_pos p) - 1) <= Zpos p < 2 ^ Zpos (digits2_pos p).
Proof.
  induction p as [p IH|p IH|]; simpl digits2_pos.
  - rewrite Pos2Z.inj_succ. replace (Z.succ (Zpos (digits2_pos p)) - 1) with (Z.succ (Zpos (digits2_pos p) - 1)) by lia.
    rewrite !Z.pow_succ_r by lia. lia.
  - rewrite Pos2Z.inj_succ. replace (Z.succ (Zpos (digits2_pos p)) - 1) with (Z.succ (Zpos (digits2_pos p) - 1)) by lia.
    rewrite !Z.pow_succ_r by lia. lia.
  - simpl. lia.
Qed.

Lemma shr_1_spec m r s :
  0 <= m -> shr_1 (Build_shr_record m r s) = Build_shr_record (m / 2) (Z.odd m) (r || s).
Proof.
  intros Hm. destruct m as [|p|p]; [reflexivity| |lia].
  destruct p as [p|p|]; simpl shr_1.
  - f_equal. rewrite Pos2Z.inj_xI. apply Z.div_unique with 1; lia.
  - f_equal. rewrite Pos2Z.inj_xO. apply Z.div_unique with 0; lia.
  - reflexivity.
Qed.

(** [mrs] is [m] shifted right by [k] bits, with its two location bits. *)
Definition located (m k : Z) (mrs : shr_record) : Prop :=
  exists rem,
    m = shr_m mrs * 2 ^ k + rem /\ 0 <= shr_m mrs /\ 0 <= rem < 2 ^ k /\
    match shr_r mrs, shr_s mrs with
    | false, false => rem = 0
    | false, true => 0 < 2 * rem < 2 ^ k
    | true, false => 2 * rem = 2 ^ k
    | true, true => 2 ^ k < 2 * rem
    end.

Lemma located_0 m : 0 <= m -> located m 0 (Build_shr_record m false false).
Proof. intros. exists 0. cbn [shr_m shr_r shr_s]. rewrite Z.pow_0_r. lia. Qed.

Lemma located_shr_1 m k mrs :
  0 <= k -> located m k mrs -> located m (k + 1) (shr_1 mrs).
Proof.
  intros Hk (rem & Hm & Hpos & Hrem & Hloc).
  destruct mrs as [q r s]. cbn [shr_m shr_r shr_s] in Hm, Hpos, Hloc.
  rewrite shr_1_spec by lia.
  assert (0 < 2 ^ k) by (apply Z.pow_pos_nonneg; lia).
  assert (2 ^ (k + 1) = 2 * 2 ^ k) as Hp by (rewrite Z.pow_add_r by lia; lia).
  pose proof (Z.div_mod q 2 ltac:(lia)) as Hq.
  pose proof (Zmod_odd q) as Hodd.
  assert (0 <= q / 2) by (apply Z.div_pos; lia).
  exists ((if Z.odd q then 1 else 0) * 2 ^ k + rem).
  cbn [shr_m shr_r shr_s]. rewrite Hp.
  rewrite Hodd in Hq.
  destruct (Z.odd q).
  - split; [rewrite Hm; rewrite Hq at 1; ring|]. split; [lia|]. split; [lia|].
    destruct r, s; cbn [orb]; lia.
  - split; [rewrite Hm; rewrite Hq at 1; ring|]. split; [lia|]. split; [lia|].
    destruct r, s; cbn [orb]; lia.
Qed.

Lemma located_iter_pos p : forall m k mrs,
  0 <= k -> located m k mrs -> located m (k + Zpos p) (SpecFloat.iter_pos shr_1 p mrs).
Proof.
  induction p as [p IH|p IH|]; intros m k mrs Hk H; simpl SpecFloat.iter_pos.
  - replace (k + Zpos p~1) with (((k + 1) + Zpos p) + Zpos p) by lia.
    apply IH; [lia|]. apply IH; [lia|]. now apply located_shr_1.
  - replace (k + Zpos p~0) with ((k + Zpos p) + Zpos p) by lia.
    apply IH; [lia|]. now apply IH.
  - now apply located_shr_1.
Qed.

Lemma located_round m k mrs :
  0 <= k -> located m k mrs ->
  let m2 := round_nearest_even (shr_m mrs) (loc_of_shr_record mrs) in
  0 <= m2 /\ 2 * Z.abs (m2 * 2 ^ k - m) <= 2 ^ k /\ (k = 0 -> m2 = m).
Proof.
  intros Hk (rem & Hm & Hpos & Hrem & Hloc).
  destruct mrs as [q r s].
  cbn [shr_m shr_r shr_s loc_of_shr_record round_nearest_even] in *.
  assert (0 < 2 ^ k) by (apply Z.pow_pos_nonneg; lia).
  assert (k = 0 -> 2 ^ k = 1) as H0 by (intros ->; reflexivity).
  destruct r, s; cbn [loc_of_shr_record round_nearest_even].
  - split; [lia|]. split; [nia|]. intros E. specialize (H0 E). lia.
  - destruct (Z.even q); (split; [lia|]); (split; [nia|]); intros E; specialize (H0 E); lia.
  - split; [lia|]. split; [nia|]. intros E. specialize (H0 E). lia.
  - split; [lia|]. split; [nia|]. intros E. specialize (H0 E). lia.
Qed.

Abbreviation fexp64 := (fexp 53 1024).

Lemma fexp64_eq e : fexp64 e = Z.max (e - 53) (-1074).
Proof. reflexivity. Qed.

Lemma shr_fexp_spec mx ex :
  0 <= mx ->
  exists k,
    0 <= k
    /\ snd (shr_fexp 53 1024 mx ex loc_Exact) = ex + k
    /\ located mx k (fst (shr_fexp 53 1024 mx ex loc_Exact))
    /\ (0 < k -> ex + k = fexp64 (Zdigits2 mx + ex)).
Proof.
  intros Hm. unfold shr_fexp, shr. cbn [shr_record_of_loc].
  destruct (fexp64 (Zdigits2 mx + ex) - ex) as [|p|p] eqn:E.
  - exists 0. cbn [fst snd]. repeat split; try lia. now apply located_0.
  - exists (Zpos p). cbn [fst snd]. repeat split; try lia.
    apply (located_iter_pos p mx 0); [lia|]. now apply located_0.
  - exists 0. cbn [fst snd]. repeat split; try lia. now apply located_0.
Qed.

Lemma pow2_pos k : 0 <= k -> 0 < 2 ^ k.
Proof. intros. apply Z.pow_pos_nonneg; lia. Qed.

(** If [m * 2^a < 2^b] for a positive [m] of [d] digits, then [d + a <= b]. *)
Lemma digits_bound m a b :
  0 < m -> 0 <= a -> 0 <= b -> m * 2 ^ a < 2 ^ b -> Zdigits2 m + a <= b.
Proof.
  intros Hm Ha Hb H. destruct m as [|p|p]; try lia.
  cbn [Zdigits2]. pose proof (digits2_pos_bounds p) as [Hlo _].
  set (d := Zpos (digits2_pos p)) in *.
  assert (0 < d) by (unfold d; lia).
  assert (2 ^ (d - 1) * 2 ^ a < 2 ^ b) as H2.
  { pose proof (pow2_pos a Ha). nia. }
  rewrite <- Z.pow_add_r in H2 by lia.
  apply Z.pow_lt_mono_r_iff in H2; lia.
Qed.

(** A finite binary64 that is not negative (and not below the subnormal
    range, as every number read from JSON is). *)
Definition finite_nonneg (x : spec_float) : Prop :=
  match x with
  | S754_zero _ => True
  | S754_finite false _ e => -1074 <= e
  | _ => False
  end.

(** The value of such a number, in units of [2^-1074]. *)
Definition units (x : spec_float) : Z :=
  match x with
  | S754_finite false m e => Zpos m * 2 ^ (e + 1074)
  | _ => 0
  end.

Lemma pow2_le a b : 0 <= a <= b -> 2 ^ a <= 2 ^ b.
Proof. intros. apply Z.pow_le_mono_r; lia. Qed.

Lemma seven_lt : 7 * 2 ^ 1074 + 2 ^ 1023 < 2 ^ 1077.
Proof. reflexivity. Qed.

Lemma binary_round_aux_error mx ex :
  0 < mx -> -1074 <= ex -> mx * 2 ^ (ex + 1074) <= 7 * 2 ^ 1074 ->
  finite_nonneg (binary_round_aux 53 1024 false mx ex loc_Exact)
  /\ Z.abs (units (binary_round_aux 53 1024 false mx ex loc_Exact)
            - mx * 2 ^ (ex + 1074)) <= 3 * 2 ^ 1023.
Proof.
  intros Hmx Hex HV. unfold binary_round_aux.
  destruct (shr_fexp_spec mx ex ltac:(lia)) as (k & Hk & He1 & Hloc1 & Hk1).
  destruct (shr_fexp 53 1024 mx ex loc_Exact) as [mrs1 e1].
  cbn [fst snd] in He1, Hloc1. subst e1.
  destruct (located_round mx k mrs1 Hk Hloc1) as (Hm2 & Herr1 & Hexact1).
  set (m2 := round_nearest_even (shr_m mrs1) (loc_of_shr_record mrs1)) in *.
  destruct (shr_fexp_spec m2 (ex + k) Hm2) as (k2 & Hk2 & He2 & Hloc2 & Hk2').
  destruct (shr_fexp 53 1024 m2 (ex + k) loc_Exact) as [mrs2 e2].
  cbn [fst snd] in He2, Hloc2. subst e2.
  destruct Hloc2 as (rem2 & Hm2eq & Hm3 & Hrem2 & _).
  set (m3 := shr_m mrs2) in *.
  set (A := ex + 1074) in *.
  assert (0 <= A) as HA by (unfold A; lia).
  pose proof (pow2_pos A HA) as HP.
  pose proof (pow2_pos k Hk) as HPk.
  pose proof (pow2_pos k2 Hk2) as HPk2.
  pose proof seven_lt as H7.
  assert (2 ^ 1024 = 2 * 2 ^ 1023) as H1024 by reflexivity.
  assert (0 < 2 ^ 1023) as H1023 by reflexivity.
  (* the first rounding *)
  assert (Z.abs (m2 * (2 ^ k * 2 ^ A) - mx * 2 ^ A) <= 2 ^ 1023
          /\ (0 < k -> A + k <= 1024)) as [HE1 Hk1b].
  { destruct (Z.eq_dec k 0) as [->|Hkpos].
    - rewrite (Hexact1 eq_refl). rewrite Z.pow_0_r. split; [|lia].
      replace (mx * (1 * 2 ^ A) - mx * 2 ^ A) with 0 by ring. simpl. lia.
    - assert (Zdigits2 mx + A <= 1077) as Hd
        by (apply digits_bound; lia).
      assert (A + k <= 1024) as Hle.
      { specialize (Hk1 ltac:(lia)). rewrite fexp64_eq in Hk1. unfold A in *. lia. }
      split; [|lia].
      assert (2 ^ k * 2 ^ A <= 2 ^ 1024) as Hp.
      { rewrite <- Z.pow_add_r by lia. apply pow2_le. lia. }
      replace (m2 * (2 ^ k * 2 ^ A) - mx * 2 ^ A)
        with ((m2 * 2 ^ k - mx) * 2 ^ A) by ring.
      rewrite Z.abs_mul, (Z.abs_eq (2 ^ A)) by lia. nia. }
  (* the second shift *)
  assert (0 <= rem2 * (2 ^ k * 2 ^ A) <= 2 ^ 1024
          /\ (0 < k2 -> 0 < m3 -> A + k + k2 <= 1024)) as [HE2 Hk2b].
  { destruct (Z.eq_dec k2 0) as [->|Hk2pos].
    - rewrite Z.pow_0_r in Hrem2. assert (rem2 = 0) as -> by lia. split; lia.
    - destruct (Z.eq_dec m2 0) as [E0|E0].
      + assert (rem2 = 0) as -> by nia. split; [lia|]. intros _ Hm3pos. nia.
      + assert (m2 * 2 ^ (A + k) < 2 ^ 1077) as Hlt.
        { rewrite Z.pow_add_r by lia.
          replace (m2 * (2 ^ A * 2 ^ k)) with (m2 * (2 ^ k * 2 ^ A)) by ring. lia. }
        assert (Zdigits2 m2 + (A + k) <= 1077) as Hd
          by (apply digits_bound; lia).
        assert (A + k + k2 <= 1024) as Hle.
        { specialize (Hk2' ltac:(lia)). rewrite fexp64_eq in Hk2'. unfold A in *. lia. }
        split; [|lia].
        assert (2 ^ k2 * (2 ^ k * 2 ^ A) <= 2 ^ 1024) as Hp.
        { rewrite <- !Z.pow_add_r by lia. apply pow2_le. lia. }
        split; nia. }
  assert (A <= 1076) as HA76.
  { assert (Zdigits2 mx + A <= 1077) by (apply digits_bound; lia).
    destruct mx; cbn [Zdigits2] in *; lia. }
  assert (m2 * (2 ^ k * 2 ^ A) = m3 * (2 ^ k2 * (2 ^ k * 2 ^ A)) + rem2 * (2 ^ k * 2 ^ A))
    as Hsplit by (rewrite Hm2eq; ring).
  destruct m3 as [|p|p] eqn:Em3; [| |lia].
  - cbn [finite_nonneg units]. split; [exact I|]. lia.
  - assert (ex + k + k2 <= 971) as Hfin.
    { destruct (Z.eq_dec k2 0); [|specialize (Hk2b ltac:(lia) ltac:(lia)); unfold A in *; lia].
      destruct (Z.eq_dec k 0); [unfold A in *; lia|].
      specialize (Hk1b ltac:(lia)). unfold A in *. lia. }
    replace (1024 - 53) with 971 by reflexivity.
    replace (ex + k + k2 <=? 971) with true by (symmetry; apply Z.leb_le; lia).
    cbn [finite_nonneg units]. split; [lia|].
    replace (ex + k + k2 + 1074) with (k2 + (k + A)) by (unfold A; lia).
    rewrite !Z.pow_add_r by lia. lia.
Qed.

Lemma iter_xO_spec d m : Zpos (Pos.iter xO m d) = Zpos m * 2 ^ Zpos d.
Proof.
  change (Pos.iter xO m d) with (shift_pos d m).
  rewrite shift_pos_correct. rewrite Z.pow_pos_fold. lia.
Qed.

(** [shl_align] keeps the value and lowers the exponent to [ex'] when
    that is smaller. *)
Lemma shl_align_spec mx ex ex' :
  -1074 <= ex -> -1074 <= ex' ->
  snd (shl_align mx ex ex') = Z.min ex ex'
  /\ Zpos (fst (shl_align mx ex ex')) * 2 ^ (Z.min ex ex' + 1074)
     = Zpos mx * 2 ^ (ex + 1074).
Proof.
  intros Hex Hex'. unfold shl_align.
  destruct (ex' - ex) as [|d|d] eqn:E; cbn [fst snd].
  - assert (Z.min ex ex' = ex) as -> by lia. auto.
  - pose proof (Pos2Z.is_pos d). assert (Z.min ex ex' = ex) as -> by lia. auto.
  - pose proof (Pos2Z.neg_is_neg d). assert (Z.min ex ex' = ex') as -> by lia. split; [reflexivity|].
    rewrite iter_xO_spec.
    replace (ex + 1074) with (Zpos d + (ex' + 1074)) by lia.
    rewrite (Z.pow_add_r 2 (Zpos d) (ex' + 1074)) by lia. ring.
Qed.

Lemma binary_round_error mp ez :
  -1074 <= ez -> Zpos mp * 2 ^ (ez + 1074) <= 7 * 2 ^ 1074 ->
  finite_nonneg (binary_round 53 1024 false mp ez)
  /\ Z.abs (units (binary_round 53 1024 false mp ez) - Zpos mp * 2 ^ (ez + 1074))
     <= 3 * 2 ^ 1023.
Proof.
  intros Hez HV. unfold binary_round.
  pose proof (shl_align_spec mp ez (fexp64 (Zpos (digits2_pos mp) + ez)) Hez
                ltac:(rewrite fexp64_eq; lia)) as [He Hv].
  destruct (shl_align mp ez (fexp64 (Zpos (digits2_pos mp) + ez))) as [mz e0].
  cbn [fst snd] in He, Hv. subst e0. rewrite <- Hv in *.
  apply binary_round_aux_error; try lia.
  rewrite fexp64_eq. lia.
Qed.

Lemma fadd_error x y :
  finite_nonneg x -> finite_nonneg y -> units x + units y <= 7 * 2 ^ 1074 ->
  finite_nonneg (SFadd 53 1024 x y)
  /\ Z.abs (units (SFadd 53 1024 x y) - (units x + units y)) <= 3 * 2 ^ 1023.
Proof.
  assert (0 <= 3 * 2 ^ 1023) as H3 by (vm_compute; discriminate).
  intros Hx Hy HV.
  destruct x as [sx|sx| |sx mx ex]; try contradiction;
    destruct y as [sy|sy| |sy my ey]; try contradiction.
  - destruct sx, sy; cbn [SFadd finite_nonneg units]; split; auto; simpl; lia.
  - destruct sy; try contradiction. cbn [SFadd finite_nonneg units] in *.
    split; [lia|]. rewrite Z.abs_eq; lia.
  - destruct sx; try contradiction. cbn [SFadd finite_nonneg units] in *.
    split; [lia|]. rewrite Z.abs_eq; lia.
  - destruct sx, sy; try contradiction. cbn [finite_nonneg units] in *.
    unfold SFadd. cbn [cond_Zopp].
    pose proof (shl_align_spec mx ex (Z.min ex ey) Hx ltac:(lia)) as [_ H1].
    pose proof (shl_align_spec my ey (Z.min ex ey) Hy ltac:(lia)) as [_ H2].
    replace (Z.min ex (Z.min ex ey)) with (Z.min ex ey) in H1 by lia.
    replace (Z.min ey (Z.min ex ey)) with (Z.min ex ey) in H2 by lia.
    set (mx' := fst (shl_align mx ex (Z.min ex ey))) in *.
    set (my' := fst (shl_align my ey (Z.min ex ey))) in *.
    replace (Zpos mx' + Zpos my') with (Zpos (mx' + my')) by lia.
    cbn [binary_normalize].
    rewrite <- H1, <- H2 in *.
    replace (Zpos mx' * 2 ^ (Z.min ex ey + 1074) + Zpos my' * 2 ^ (Z.min ex ey + 1074))
      with (Zpos (mx' + my') * 2 ^ (Z.min ex ey + 1074)) in * by lia.
    apply binary_round_error; lia.
Qed.

Lemma units_nonneg x : 0 <= units x.
Proof.
  destruct x as [| | |[] m e]; cbn [units]; lia.
Qed.

Definition sum_units (l : list spec_float) : Z :=
  fold_right (fun c acc => units c + acc) 0 l.

Lemma sum_units_nonneg l : 0 <= sum_units l.
Proof. induction l; simpl; [lia|]. pose proof (units_nonneg a). lia. Qed.

Lemma fold_fadd_error costs :
  forall start,
    finite_nonneg start -> Forall finite_nonneg costs ->
    units start + sum_units costs + 3 * 2 ^ 1023 * Z.of_nat (length costs)
      <= 7 * 2 ^ 1074 ->
    finite_nonneg (fold_left (SFadd 53 1024) costs start)
    /\ Z.abs (units (fold_left (SFadd 53 1024) costs start)
              - (units start + sum_units costs))
       <= 3 * 2 ^ 1023 * Z.of_nat (length costs).
Proof.
  assert (0 < 3 * 2 ^ 1023) as H3 by reflexivity.
  induction costs as [|c costs IH]; intros start Hs Hc Hb.
  - simpl. split; [exact Hs|]. replace (units start - (units start + 0)) with 0 by lia.
    simpl. lia.
  - inversion Hc as [|? ? Hc1 Hc2]; subst.
    cbn [fold_left sum_units fold_right length] in *.
    fold (sum_units costs) in *.
    rewrite Nat2Z.inj_succ in *.
    pose proof (sum_units_nonneg costs) as Hn.
    pose proof (units_nonneg c) as Hn'.
    pose proof (units_nonneg start) as Hn''.
    destruct (fadd_error start c Hs Hc1 ltac:(lia)) as [Hp He].
    destruct (IH (SFadd 53 1024 start c) Hp Hc2 ltac:(lia)) as [Hp' He'].
    split; [exact Hp'|]. lia.
Qed.


(** The exact value, as a rational number. *)
Lemma float_Q_units x :
  finite_nonneg x ->
  exists q, float_Q x = Some q /\ Qeq q (Qmake (units x) (2 ^ 1074)%positive).
Proof.
  intros Hx. destruct x as [s| | |[] m e]; try contradiction.
  - exists (Qmake 0 1). split; [reflexivity|]. reflexivity.
  - cbn [finite_nonneg] in Hx. unfold float_Q, float_ratio. cbn [cond_Zopp units].
    destruct e as [|p|p].
    + eexists. split; [reflexivity|]. unfold Qeq. cbn [Qnum Qden]. lia.
    + eexists. split; [reflexivity|]. unfold Qeq. cbn [Qnum Qden].
      rewrite (Z.pow_add_r 2 (Zpos p) 1074) by lia.
      rewrite Pos2Z.inj_pow. lia.
    + eexists. split; [reflexivity|]. unfold Qeq. cbn [Qnum Qden].
      rewrite !Pos2Z.inj_pow.
      replace (2 ^ 1074) with (2 ^ (Zneg p + 1074) * 2 ^ Zpos p).
      * ring.
      * rewrite <- Z.pow_add_r by lia. f_equal. lia.
Qed.

End Binary64.

(** ** The recorded total against the exact sum *)

(** The exact value of a float, zero for what is not a number. *)
Definition exact (x : float) : Q := default (Qmake 0 1) (float_Q x).

(** The exact sum of a starting value and a list of costs. *)
Definition exact_sum (start : float) (costs : list float) : Q :=
  fold_right (fun c acc => Qplus (exact c) acc) (exact start) costs.

(** The cost table that [__init__] installs. *)
Definition standard_costs : list (string * float) :=
  BudgetTracker.cost_per_request (fst (BudgetTracker.__init__ None)).

Lemma exact_units x :
  Binary64.finite_nonneg x ->
  Qeq (exact x) (Qmake (Binary64.units x) (2 ^ 1074)%positive).
Proof.
  intros Hx. destruct (Binary64.float_Q_units x Hx) as (q & Hq & Hv).
  unfold exact. now rewrite Hq.
Qed.

Lemma Qmake_plus_same a b (d : positive) :
  Qeq (Qplus (Qmake a d) (Qmake b d)) (Qmake (a + b) d).
Proof. unfold Qeq, Qplus. cbn [Qnum Qden]. rewrite Pos2Z.inj_mul. ring. Qed.

Lemma exact_sum_units start costs :
  Binary64.finite_nonneg start -> Forall Binary64.finite_nonneg costs ->
  Qeq (exact_sum start costs)
      (Qmake (Binary64.units start + Binary64.sum_units costs) (2 ^ 1074)%positive).
Proof.
  intros Hs Hc. induction Hc as [|c costs Hc1 Hc2 IH]; simpl.
  - rewrite Z.add_0_r. now apply exact_units.
  - fold (exact_sum start costs). fold (Binary64.sum_units costs).
    rewrite IH, (exact_units c Hc1), Qmake_plus_same.
    replace (Binary64.units c + (Binary64.units start + Binary64.sum_units costs))
      with (Binary64.units start + (Binary64.units c + Binary64.sum_units costs))
      by lia.
    reflexivity.
Qed.

(** Adding up to 750000 costs onto a total, all finite and not negative,
    with an exact sum of at most 6, stays within 1e-9 of that sum. *)
Lemma fold_fadd_within_tolerance start costs :
  Binary64.finite_nonneg start -> Forall Binary64.finite_nonneg costs ->
  Z.of_nat (length costs) <= 750000 ->
  Qle (exact_sum start costs) (Qmake 6 1) ->
  exists q,
    float_Q (fold_left fadd costs start) = Some q
    /\ Qle (Qabs (Qminus q (exact_sum start costs))) (Qmake 1 (10 ^ 9)%positive).
Proof.
  intros Hs Hc Hlen Hsum.
  pose proof (exact_sum_units start costs Hs Hc) as Hexact.
  rewrite Hexact in Hsum.
  assert (Binary64.units start + Binary64.sum_units costs <= 6 * 2 ^ 1074) as HS.
  { unfold Qle in Hsum. cbn [Qnum Qden] in Hsum.
    rewrite Pos2Z.inj_pow in Hsum. lia. }
  assert (3 * 2 ^ 1023 * 750000 * 10 ^ 9 <= 2 ^ 1074) as Hconst
    by (vm_compute; discriminate).
  assert (0 < 2 ^ 1023) as Hpos by reflexivity.
  destruct (Binary64.fold_fadd_error costs start Hs Hc) as [Hfin Herr].
  { nia. }
  change (SFadd 53 1024) with fadd in Hfin, Herr.
  destruct (Binary64.float_Q_units _ Hfin) as (q & Hq & Hv).
  exists q. split; [exact Hq|].
  rewrite Hv, Hexact.
  assert (Qeq (Qminus (Qmake (Binary64.units (fold_left fadd costs start)) (2 ^ 1074)%positive)
                      (Qmake (Binary64.units start + Binary64.sum_units costs) (2 ^ 1074)%positive))
              (Qmake (Binary64.units (fold_left fadd costs start)
                      - (Binary64.units start + Binary64.sum_units costs)) (2 ^ 1074)%positive))
    as ->.
  { unfold Qeq, Qminus, Qplus, Qopp. cbn [Qnum Qden]. rewrite Pos2Z.inj_mul. ring. }
  unfold Qabs, Qle. cbn [Qnum Qden]. rewrite Pos2Z.inj_pow.
  change (Z.pos (10 ^ 9)) with (10 ^ 9). nia.
Qed.

Lemma standard_costs_finite self api_name endpoint :
  BudgetTracker.cost_per_request self = standard_costs ->
  Binary64.finite_nonneg (cost_of self api_name endpoint).
Proof.
  intros Htable. unfold cost_of. rewrite Htable.
  unfold standard_costs. cbn [BudgetTracker.__init__ _load_budget fst
                              BudgetTracker.cost_per_request dict_get].
  repeat match goal with
         | |- context [if ?c then _ else _] => destruct c
         end; vm_compute; first [exact I | discriminate].
Qed.

(** C4 (as amended). After any sequence of calls of [record_request] the
    total cost is the starting total with the tabulated costs added one
    after the other in binary64; the budget file then holds the tracker's
    state, and a tracker rebuilt from the file has that state and so the
    same total. With the cost table of the source, a starting total that is
    a finite number and not negative, at most 750000 calls and an exact sum
    of at most 6, the total is within 1e-9 of the exact sum of the starting
    total and the costs. *)
Theorem C4_recorded_total_persisted_and_reloaded :
  forall (reqs : list Recorded) (self : BudgetTracker.t) (file : Store),
    let self' := fst (record_all reqs self file) in
    let file' := snd (record_all reqs self file) in
    let start := total_cost (budget_data self) in
    let costs := costs_of self reqs in
    total_cost (budget_data self') = fold_left fadd costs start
    /\ (reqs <> [] ->
        file' = Some (budget_data self')
        /\ budget_data (fst (BudgetTracker.__init__ file')) = budget_data self'
        /\ total_cost (budget_data (fst (BudgetTracker.__init__ file')))
           = total_cost (budget_data self'))
    /\ (Binary64.finite_nonneg start ->
        BudgetTracker.cost_per_request self = standard_costs ->
        Z.of_nat (length reqs) <= 750000 ->
        Qle (exact_sum start costs) (Qmake 6 1) ->
        exists q,
          float_Q (total_cost (budget_data self')) = Some q
          /\ Qle (Qabs (Qminus q (exact_sum start costs)))
                 (Qmake 1 (10 ^ 9)%positive)).
Proof.
  intros reqs self file self' file' start costs.
  destruct (record_all_total reqs self file) as (Htotal & _ & Hfile).
  fold self' in Htotal, Hfile. fold file' in Hfile. fold start costs in Htotal.
  split; [exact Htotal|]. split.
  - intros Hne. specialize (Hfile Hne). rewrite Hfile. auto.
  - intros Hstart Htable Hlen Hsum. rewrite Htotal.
    apply fold_fadd_within_tolerance; auto.
    + unfold costs, costs_of. apply List.Forall_forall. intros c Hin.
      apply List.in_map_iff in Hin as (r & <- & _).
      now apply standard_costs_finite.
    + unfold costs, costs_of. now rewrite length_map.
Qed.

(** Three recorded requests on a fresh tracker. *)
Definition three_requests : list Recorded :=
  [ {| on_day := "2026-01-01"; alert_day := "2026-01-01";
       provider := "google_places"; operation := "search" |};
    {| on_day := "2026-01-01"; alert_day := "2026-01-01";
       provider := "google_places"; operation := "details" |};
    {| on_day := "2026-01-01"; alert_day := "2026-01-02";
       provider := "yelp"; operation := "search" |} ].

Lemma C4_recorded_total_persisted_and_reloaded_witness :
  let self := fst (BudgetTracker.__init__ None) in
  let out := record_all three_requests self None in
  (snd out = Some (budget_data (fst out))
   /\ budget_data (fst (BudgetTracker.__init__ (snd out))) = budget_data (fst out)
   /\ total_cost (budget_data (fst (BudgetTracker.__init__ (snd out))))
      = total_cost (budget_data (fst out)))
  /\ exists q,
       float_Q (total_cost (budget_data (fst out))) = Some q
       /\ Qle (Qabs (Qminus q (exact_sum (total_cost (budget_data self))
                                 (costs_of self three_requests))))
              (Qmake 1 (10 ^ 9)%positive).
Proof.
  cbv zeta.
  destruct (C4_recorded_total_persisted_and_reloaded three_requests
              (fst (BudgetTracker.__init__ None)) None) as (_ & Hfile & Htol).
  split.
  - apply Hfile. discriminate.
  - apply Htol.
    + exact I.
    + reflexivity.
    + vm_compute. discriminate.
    + vm_compute. discriminate.
Defined.

(** C4 as stated fails: from a total of 2^53 one recorded request of
    cost 0.017 leaves the total at 2^53, which is further than 1e-9 from
    the exact sum. *)
Lemma C4_large_total_absorbs_cost_counterexample :
  let self :=
    set_data {| total_cost := float_of_Z (2 ^ 53); daily_usage := [];
                monthly_usage := []; alerts_sent := [] |}
      (fst (BudgetTracker.__init__ None)) in
  let reqs := [ {| on_day := "2026-01-01"; alert_day := "2026-01-01";
                   provider := "google_places"; operation := "search" |} ] in
  let total' := total_cost (budget_data (fst (record_all reqs self None))) in
  costs_of self reqs = [float_of_ratio 17 1000]
  /\ total' = float_of_Z (2 ^ 53)
  /\ exists q,
       float_Q total' = Some q
       /\ ~ Qle (Qabs (Qminus q (exact_sum (total_cost (budget_data self))
                                   (costs_of self reqs))))
                (Qmake 1 (10 ^ 9)%positive).
Proof.
  cbv zeta. split; [vm_compute; reflexivity|]. split; [vm_compute; reflexivity|].
  eexists. split; [vm_compute; reflexivity|].
  vm_compute. intros H. apply H. reflexivity.
Qed.

(** * Further properties of the code *)

(** ** The budget tracker: counters, caps and alerts *)

Lemma counter_after_record today today' api_name endpoint self file day name :
  counter day name
    (daily_usage (budget_data
       (fst (snd (record_request today today' api_name endpoint self file)))))
  = if (String.eqb day today && String.eqb name api_name)%bool
    then counter today api_name (daily_usage (budget_data self)) + 1
    else counter day name (daily_usage (budget_data self)).
Proof.
  unfold record_request, _check_alerts. simpl.
  set (du := init_usage today api_name (daily_usage (budget_data self))).
  assert (forall d n, counter d n du = counter d n (daily_usage (budget_data self)))
    as Hinit by (intros; apply counter_init_usage).
  rewrite <- (Hinit today api_name), <- (Hinit day name).
  unfold counter at 1.
  destruct (String.eqb_spec day today) as [->|Hday]; simpl.
  - rewrite dict_get_set_same. simpl.
    destruct (String.eqb_spec name api_name) as [->|Hname].
    + now rewrite dict_get_set_same.
    + rewrite dict_get_set_other by congruence. reflexivity.
  - rewrite dict_get_set_other by congruence. reflexivity.
Qed.

(** [n] requests recorded for one provider on one day. *)
Definition same_day (today api_name endpoint : string) (n : nat) : list Recorded :=
  repeat {| on_day := today; alert_day := today;
            provider := api_name; operation := endpoint |} n.

Lemma record_all_limits reqs :
  forall self file,
    daily_limits (fst (record_all reqs self file)) = daily_limits self.
Proof.
  induction reqs as [|r rest IH]; intros self file; [reflexivity|].
  cbn [record_all].
  destruct (record_request_step (on_day r) (alert_day r) (provider r)
              (operation r) self file) as (_ & _ & _ & Hl & _).
  destruct (record_request (on_day r) (alert_day r) (provider r)
              (operation r) self file) as [c [self1 file1]].
  simpl in Hl |- *. now rewrite IH.
Qed.

Lemma record_all_same_day_counter today api_name endpoint n :
  forall self file,
    counter today api_name
      (daily_usage (budget_data
         (fst (record_all (same_day today api_name endpoint n) self file))))
    = counter today api_name (daily_usage (budget_data self)) + Z.of_nat n.
Proof.
  induction n as [|n IH]; intros self file.
  - simpl. lia.
  - unfold same_day. cbn [repeat record_all on_day alert_day provider operation].
    fold (same_day today api_name endpoint n).
    pose proof (counter_after_record today today api_name endpoint self file
                  today api_name) as Hone.
    rewrite !String.eqb_refl in Hone. cbn [andb] in Hone.
    destruct (record_request today today api_name endpoint self file)
      as [c [self1 file1]].
    cbn [fst snd] in Hone |- *. rewrite IH, Hone. lia.
Qed.

(** X1. [record_request] adds one to the counter of the provider for the
    day it reads, and changes the counter of no other provider and of no
    other day. *)
Theorem record_request_counts_one :
  forall (today today' api_name endpoint : string) (self : BudgetTracker.t)
         (file : Store) (day name : string),
    counter day name
      (daily_usage (budget_data
         (fst (snd (record_request today today' api_name endpoint self file)))))
    = if (String.eqb day today && String.eqb name api_name)%bool
      then counter today api_name (daily_usage (budget_data self)) + 1
      else counter day name (daily_usage (budget_data self)).
Proof. intros. apply counter_after_record. Qed.

Lemma daily_cap_helper today api_name endpoint endpoint' n self file :
  daily_limit_of self api_name
  <= counter today api_name (daily_usage (budget_data self)) + Z.of_nat n ->
  fst (can_make_request today api_name endpoint'
         (fst (record_all (same_day today api_name endpoint n) self file)))
  = false.
Proof.
  intros Hn.
  unfold can_make_request. rewrite counter_init_usage.
  rewrite record_all_same_day_counter.
  unfold daily_limit_of. rewrite record_all_limits.
  fold (daily_limit_of self api_name).
  apply Z.leb_le in Hn. rewrite Hn. reflexivity.
Qed.

(** X2. Once the requests recorded for a provider on a day bring its
    counter to the daily cap, [can_make_request] refuses that provider for
    that day, whatever the operation and whatever has been spent. *)
Theorem daily_cap_reached_refuses :
  forall (today api_name endpoint endpoint' : string) (n : nat)
         (self : BudgetTracker.t) (file : Store),
    daily_limit_of self api_name
    <= counter today api_name (daily_usage (budget_data self)) + Z.of_nat n ->
    fst (can_make_request today api_name endpoint'
           (fst (record_all (same_day today api_name endpoint n) self file)))
    = false.
Proof.
  intros today api_name endpoint endpoint' n self file Hn.
  now apply daily_cap_helper.
Qed.

(** A fresh tracker, one hundred Foursquare searches later, refuses the
    next one. *)
Lemma daily_cap_reached_refuses_witness :
  let self := fst (BudgetTracker.__init__ None) in
  fst (can_make_request "2026-01-01" "foursquare" "venues"
         (fst (record_all (same_day "2026-01-01" "foursquare" "venues" 100)
                 self None)))
  = false.
Proof.
  cbv zeta.
  apply (daily_cap_reached_refuses "2026-01-01" "foursquare" "venues" "venues"
           100 (fst (BudgetTracker.__init__ None)) None).
  vm_compute. discriminate.
Defined.

(** X3. A request recorded after [can_make_request] has allowed it leaves
    the total cost not above the ceiling of 5.0 and the provider's counter
    for the day not above its daily cap. *)
Theorem allowed_request_stays_within_limits :
  forall (today today' api_name endpoint : string) (self : BudgetTracker.t)
         (file : Store),
    fst (can_make_request today api_name endpoint self) = true ->
    let checked := snd (can_make_request today api_name endpoint self) in
    let recorded := fst (snd (record_request today today' api_name endpoint checked file)) in
    fgt (total_cost (budget_data recorded)) max_budget = false
    /\ counter today api_name (daily_usage (budget_data recorded))
       <= daily_limit_of recorded api_name.
Proof.
  intros today today' api_name endpoint self file Hok checked recorded.
  assert (checked
          = set_data (set_daily_usage
                        (init_usage today api_name (daily_usage (budget_data self)))
                        (budget_data self)) self) as Hchecked.
  { unfold checked, can_make_request.
    destruct (_ <=? _); [reflexivity|]. destruct (fgt _ _); reflexivity. }
  unfold can_make_request in Hok. rewrite counter_init_usage in Hok.
  destruct (daily_limit_of self api_name
            <=? counter today api_name (daily_usage (budget_data self))) eqn:Hcap;
    [discriminate|].
  destruct (fgt (fadd (total_cost (budget_data self)) (cost_of self api_name endpoint))
              max_budget) eqn:Hcost; [discriminate|].
  apply Z.leb_gt in Hcap.
  destruct (record_request_step today today' api_name endpoint checked file)
    as (_ & Ht & _ & Hl & _).
  fold recorded in Ht, Hl.
  split.
  - rewrite Ht, Hchecked. exact Hcost.
  - unfold recorded. rewrite counter_after_record, !String.eqb_refl. cbn [andb].
    unfold daily_limit_of. fold recorded. rewrite Hl, Hchecked. simpl.
    rewrite counter_init_usage. fold (daily_limit_of self api_name). lia.
Qed.

Lemma allowed_request_stays_within_limits_witness :
  let self := fst (BudgetTracker.__init__ None) in
  let checked := snd (can_make_request "2026-01-01" "google_places" "search" self) in
  let recorded :=
    fst (snd (record_request "2026-01-01" "2026-01-01" "google_places" "search"
                checked None)) in
  fgt (total_cost (budget_data recorded)) max_budget = false
  /\ counter "2026-01-01" "google_places" (daily_usage (budget_data recorded))
     <= daily_limit_of recorded "google_places".
Proof.
  apply (allowed_request_stays_within_limits "2026-01-01" "2026-01-01"
           "google_places" "search" (fst (BudgetTracker.__init__ None)) None).
  vm_compute. reflexivity.
Defined.

(** *** Alerts *)

Lemma send_alerts_app alerts :
  forall sent, exists new,
    send_alerts alerts sent = (sent ++ new)%list
    /\ (forall a, In a new -> In a alerts /\ ~ In a sent)
    /\ List.NoDup new.
Proof.
  unfold send_alerts.
  induction alerts as [|a alerts IH]; intros sent; cbn [fold_left].
  - exists []. rewrite app_nil_r. repeat split; try constructor; contradiction.
  - destruct (existsb (String.eqb a) sent) eqn:E.
    + destruct (IH sent) as (new & -> & Hnew & Hnd).
      exists new. repeat split; auto.
      * right. now apply Hnew.
      * now apply Hnew.
    + destruct (IH (sent ++ [a])%list) as (new & -> & Hnew & Hnd).
      exists (a :: new). rewrite <- app_assoc. repeat split.
      * destruct H as [<-|H]; [now left|]. right. now apply Hnew.
      * destruct H as [<-|H].
        -- intros Hin.
           assert (existsb (String.eqb a) sent = true) as Habs
             by (apply existsb_exists; exists a; split; [auto|apply String.eqb_refl]).
           congruence.
        -- intros Hin. apply (proj2 (Hnew a0 H)). apply in_or_app. now left.
      * constructor; [|exact Hnd].
        intros Hin. apply (proj2 (Hnew a Hin)). apply in_or_app. right. now left.
Qed.

Lemma send_alerts_known alerts :
  forall sent,
    (forall a, In a alerts -> In a sent) -> send_alerts alerts sent = sent.
Proof.
  unfold send_alerts.
  induction alerts as [|a alerts IH]; intros sent Hall; cbn [fold_left]; [reflexivity|].
  assert (existsb (String.eqb a) sent = true) as ->.
  { apply existsb_exists. exists a. split; [apply Hall; now left|apply String.eqb_refl]. }
  apply IH. intros b Hb. apply Hall. now right.
Qed.

Lemma send_alerts_all alerts :
  forall sent a, In a alerts \/ In a sent -> In a (send_alerts alerts sent).
Proof.
  unfold send_alerts.
  induction alerts as [|b alerts IH]; intros sent a H; cbn [fold_left].
  - destruct H as [[]|H]; exact H.
  - apply IH. destruct (existsb (String.eqb b) sent) eqn:E.
    + destruct H as [[<-|H]|H]; auto.
      right. apply existsb_exists in E as (x & Hx & Hbx).
      apply String.eqb_eq in Hbx. now subst x.
    + destruct H as [[<-|H]|H]; auto.
      * right. apply in_or_app. right. now left.
      * right. apply in_or_app. now left.
Qed.

(** The alerts [_check_alerts] computes for a day. *)
Definition alerts_for (today : string) (self : BudgetTracker.t) : list string :=
  ((match dict_get today (daily_usage (budget_data self)) with
    | Some day => daily_alerts self day
    | None => []
    end) ++ cost_alerts (budget_data self))%list.

Lemma check_alerts_sent today self file :
  alerts_sent (budget_data (fst (_check_alerts today self file)))
  = send_alerts (alerts_for today self) (alerts_sent (budget_data self)).
Proof. reflexivity. Qed.

(** X4. [_check_alerts] only appends to the list of alerts sent, and what
    it appends was not in the list and holds no message twice, so that a
    list without duplicates stays so; a second check on the same day adds
    nothing; the total cost and the usage counters are not touched. *)
Theorem check_alerts_appends_each_alert_once :
  forall (today : string) (self : BudgetTracker.t) (file file' : Store),
    List.NoDup (alerts_sent (budget_data self)) ->
    let self' := fst (_check_alerts today self file) in
    (exists new,
        alerts_sent (budget_data self')
        = (alerts_sent (budget_data self) ++ new)%list
        /\ forall a, In a new -> ~ In a (alerts_sent (budget_data self)))
    /\ List.NoDup (alerts_sent (budget_data self'))
    /\ fst (_check_alerts today self' file') = self'
    /\ total_cost (budget_data self') = total_cost (budget_data self)
    /\ daily_usage (budget_data self') = daily_usage (budget_data self)
    /\ snd (_check_alerts today self file) = Some (budget_data self').
Proof.
  intros today self file file' Hnd self'.
  destruct (send_alerts_app (alerts_for today self) (alerts_sent (budget_data self)))
    as (new & Hsent & Hnew & Hndnew).
  assert (alerts_sent (budget_data self')
          = (alerts_sent (budget_data self) ++ new)%list) as Hsent'
    by (unfold self'; now rewrite check_alerts_sent).
  split; [exists new; split; [exact Hsent'|intros a Ha; now apply Hnew]|].
  split.
  { rewrite Hsent'. apply List.NoDup_app; repeat split; auto.
    intros a Ha Hin. now apply (proj2 (Hnew a Hin)). }
  split; [|repeat split].
  unfold self' at 2. unfold _check_alerts at 1. fold (alerts_for today self').
  assert (alerts_for today self' = alerts_for today self) as -> by reflexivity.
  rewrite send_alerts_known.
  - unfold self', _check_alerts. destruct self as [f [tc du mu al] dl cp]. reflexivity.
  - intros a Ha. unfold self'. rewrite check_alerts_sent.
    apply send_alerts_all. now left.
Qed.

(** A tracker that has spent 1.25 and sent nothing yet. *)
Definition tracker_over_one_dollar : BudgetTracker.t :=
  set_data {| total_cost := float_of_ratio 125 100; daily_usage := [];
              monthly_usage := []; alerts_sent := [] |}
    (fst (BudgetTracker.__init__ None)).

Lemma check_alerts_appends_each_alert_once_witness :
  let self := tracker_over_one_dollar in
  let self' := fst (_check_alerts "2026-01-01" self None) in
  alerts_sent (budget_data self') = ["Total cost: $1.25"]
  /\ fst (_check_alerts "2026-01-01" self' None) = self'.
Proof.
  cbv zeta. split; [vm_compute; reflexivity|].
  apply (check_alerts_appends_each_alert_once "2026-01-01"
           tracker_over_one_dollar None None).
  vm_compute. constructor.
Defined.

Lemma dict_get_In {V : Type} (k : string) (v : V) (d : list (string * V)) :
  dict_get k d = Some v -> In (k, v) d.
Proof.
  induction d as [|[k' v'] d IH]; simpl; [discriminate|].
  destruct (String.eqb_spec k k') as [->|Hne].
  - intros [= ->]. now left.
  - intros H. right. now apply IH.
Qed.

(** X5. When a recorded request brings the provider's counter for the day
    to 80% of its daily cap or beyond, the message
    ["<provider>: <count>/<cap> daily requests"] is in the alerts sent
    once [record_request] returns (the date read by its alert check being
    the date of the request). *)
Theorem usage_alert_sent_from_80_percent :
  forall (today api_name endpoint : string) (self : BudgetTracker.t) (file : Store),
    let count := counter today api_name (daily_usage (budget_data self)) + 1 in
    let limit := daily_limit_of self api_name in
    Zge_float count (fmul (float_of_Z limit) (float_of_ratio 8 10)) = true ->
    In (api_name +++ ": " +++ str_of_Z count +++ "/" +++ str_of_Z limit
        +++ " daily requests")
       (alerts_sent (budget_data
          (fst (snd (record_request today today api_name endpoint self file))))).
Proof.
  intros today api_name endpoint self file count limit Hge.
  unfold record_request. cbn [fst snd]. rewrite check_alerts_sent.
  apply send_alerts_all. left. unfold alerts_for. apply in_or_app. left.
  cbn [budget_data set_data daily_usage set_total_cost set_daily_usage].
  rewrite dict_get_set_same. unfold daily_alerts. apply in_flat_map.
  exists (api_name, count). split.
  - apply dict_get_In. unfold count. rewrite counter_init_usage.
    apply dict_get_set_same.
  - cbn beta iota. change (daily_limit_of _ api_name) with limit.
    rewrite Hge. now left.
Qed.

(** A tracker on which 79 Foursquare searches were recorded on
    2026-01-01: the next one brings the counter to 80 of 100. *)
Definition tracker_at_79 : BudgetTracker.t :=
  fst (record_all (same_day "2026-01-01" "foursquare" "venues" 79)
         (fst (BudgetTracker.__init__ None)) None).

Lemma usage_alert_sent_from_80_percent_witness :
  In "foursquare: 80/100 daily requests"
     (alerts_sent (budget_data
        (fst (snd (record_request "2026-01-01" "2026-01-01" "foursquare" "venues"
                     tracker_at_79 None))))).
Proof.
  apply (usage_alert_sent_from_80_percent "2026-01-01" "foursquare" "venues"
           tracker_at_79 None).
  vm_compute. reflexivity.
Defined.

(** X6. After [record_request], the usage summary read on the same day
    shows the provider one request higher than its counter was, every
    other provider of the day as it was, and the total cost risen by the
    cost of the operation. *)
Theorem usage_summary_after_record :
  forall (today today' api_name endpoint : string) (self : BudgetTracker.t)
         (file : Store) (name : string),
    let self' := fst (snd (record_request today today' api_name endpoint self file)) in
    let '(total, today_usage, limits) := get_usage_summary today self' in
    total = fadd (total_cost (budget_data self)) (cost_of self api_name endpoint)
    /\ dict_get api_name today_usage
       = Some (counter today api_name (daily_usage (budget_data self)) + 1)
    /\ (name <> api_name ->
        dict_get name today_usage
        = dict_get name (snd (fst (get_usage_summary today self))))
    /\ limits = daily_limits self.
Proof.
  intros today today' api_name endpoint self file name. cbv zeta.
  unfold get_usage_summary, record_request, _check_alerts.
  cbn [fst snd budget_data set_data daily_usage set_total_cost set_daily_usage
       set_alerts_sent total_cost daily_limits].
  rewrite dict_get_set_same. cbn [default from_option id].
  split; [reflexivity|].
  split; [rewrite counter_init_usage; apply dict_get_set_same|].
  split; [|reflexivity].
  intros Hne. rewrite dict_get_set_other by congruence.
  unfold init_usage.
  destruct (dict_mem today (daily_usage (budget_data self))) eqn:Hm.
  - apply dict_mem_true in Hm as [d Hd]. rewrite Hd. cbn [default from_option id].
    destruct (dict_mem api_name d); [now rewrite Hd|].
    rewrite dict_get_set_same. cbn [default from_option id].
    now rewrite dict_get_set_other by congruence.
  - apply dict_mem_false in Hm. rewrite dict_get_set_same. cbn [default from_option id].
    rewrite Hm. cbn [dict_mem dict_get default from_option id].
    rewrite dict_get_set_same. cbn [default from_option id].
    now rewrite dict_get_set_other by congruence.
Qed.

Lemma usage_summary_after_record_witness :
  let self := fst (BudgetTracker.__init__ None) in
  let self' :=
    fst (snd (record_request "2026-01-01" "2026-01-01" "yelp" "search" self None)) in
  dict_get "yelp" (snd (fst (get_usage_summary "2026-01-01" self'))) = Some 1
  /\ dict_get "foursquare" (snd (fst (get_usage_summary "2026-01-01" self'))) = None.
Proof.
  cbv zeta.
  pose proof (usage_summary_after_record "2026-01-01" "2026-01-01" "yelp" "search"
                (fst (BudgetTracker.__init__ None)) None "foursquare") as H.
  cbv zeta in H.
  destruct (get_usage_summary "2026-01-01" _) as [[total today_usage] limits].
  destruct H as (_ & Hyelp & Hother & _).
  split; [exact Hyelp|].
  cbn [fst snd]. rewrite Hother by discriminate. reflexivity.
Defined.

(** ** The rate limiter *)

Lemma filter_length_le {A : Type} (f : A -> bool) (l : list A) :
  (length (List.filter f l) <= length l)%nat.
Proof.
  induction l as [|a l IH]; simpl; [lia|]. destruct (f a); simpl; lia.
Qed.

Lemma calls_at_below_limit arrivals :
  forall r,
    Z.of_nat (length (RateLimiter.request_times r)) + Z.of_nat (length arrivals)
    <= RateLimiter.requests_per_minute r ->
    exists r',
      calls_at arrivals r = inr (repeat None (length arrivals), r')
      /\ RateLimiter.requests_per_minute r' = RateLimiter.requests_per_minute r
      /\ (length (RateLimiter.request_times r')
          <= length (RateLimiter.request_times r) + length arrivals)%nat.
Proof.
  induction arrivals as [|now rest IH]; intros r Hlen.
  - exists r. simpl. repeat split. lia.
  - cbn [calls_at]. unfold RateLimiter.wait_if_needed.
    set (times := List.filter _ (RateLimiter.request_times r)).
    pose proof (filter_length_le (fun t => flt (fsub now t) RateLimiter.sixty)
                  (RateLimiter.request_times r)) as Hle.
    fold times in Hle. cbn [length] in Hlen.
    assert ((RateLimiter.requests_per_minute r <=? Z.of_nat (length times)) = false)
      as -> by (apply Z.leb_gt; lia).
    destruct (IH {| RateLimiter.requests_per_minute := RateLimiter.requests_per_minute r;
                    RateLimiter.request_times := (times ++ [now])%list |})
      as (r' & -> & Hn & Hlen').
    { cbn [RateLimiter.request_times RateLimiter.requests_per_minute].
      rewrite length_app. cbn [length]. lia. }
    exists r'. cbn [RateLimiter.request_times RateLimiter.requests_per_minute] in *.
    rewrite length_app in Hlen'. cbn [length repeat] in *.
    repeat split; [exact Hn|lia].
Qed.

(** X7. A new limiter lets as many calls through as its limit allows
    without sleeping, whatever the clock reads at each call. *)
Theorem fresh_limiter_lets_limit_calls_through :
  forall (limit : Z) (arrivals : list float),
    Z.of_nat (length arrivals) <= limit ->
    exists r',
      calls_at arrivals (RateLimiter.__init__ limit)
      = inr (repeat None (length arrivals), r').
Proof.
  intros limit arrivals Hlen.
  destruct (calls_at_below_limit arrivals (RateLimiter.__init__ limit))
    as (r' & H & _); [simpl; lia|].
  exists r'. exact H.
Qed.

Lemma fresh_limiter_lets_limit_calls_through_witness :
  exists r',
    calls_at [float_of_Z 0; float_of_Z 0; float_of_Z 1] (RateLimiter.__init__ 3)
    = inr ([None; None; None], r').
Proof.
  apply (fresh_limiter_lets_limit_calls_through 3
           [float_of_Z 0; float_of_Z 0; float_of_Z 1]).
  simpl. lia.
Defined.

(** X8. With a limit of at least one, no sequence of calls makes the
    limiter raise: every call returns, the limit is kept, and the window
    ends with the time the last call read. *)
Theorem limiter_with_positive_limit_never_raises :
  forall (arrivals : list float) (r : RateLimiter.t),
    1 <= RateLimiter.requests_per_minute r ->
    exists slept r',
      calls_at arrivals r = inr (slept, r')
      /\ length slept = length arrivals
      /\ RateLimiter.requests_per_minute r' = RateLimiter.requests_per_minute r
      /\ (arrivals <> [] ->
          forall d, List.last (RateLimiter.request_times r') d = List.last arrivals d).
Proof.
  induction arrivals as [|now rest IH]; intros r Hn.
  - exists [], r. split; [reflexivity|]. split; [reflexivity|]. split; [reflexivity|].
    congruence.
  - cbn [calls_at].
    destruct (wait_if_needed_never_rejects now r Hn) as (s & r1 & -> & Hn1 & Ht1).
    destruct (IH r1) as (slept & r' & Hcalls & Hlen & Hn' & Hlast); [lia|].
    rewrite Hcalls. exists (s :: slept), r'.
    split; [reflexivity|]. split; [simpl; lia|]. split; [lia|].
    intros _ d. destruct rest as [|now2 rest'].
    + injection Hcalls as <- <-. rewrite Ht1. apply last_last.
    + rewrite Hlast by discriminate. reflexivity.
Qed.

Lemma limiter_with_positive_limit_never_raises_witness :
  exists slept r',
    calls_at [float_of_Z 0; float_of_Z 1] (RateLimiter.__init__ 1) = inr (slept, r')
    /\ length slept = 2%nat.
Proof.
  destruct (limiter_with_positive_limit_never_raises [float_of_Z 0; float_of_Z 1]
              (RateLimiter.__init__ 1)) as (slept & r' & H & Hlen & _).
  - simpl. lia.
  - exists slept, r'. split; [exact H|exact Hlen].
Defined.

(** X9. With a limit of zero or less, a call that finds no timestamp of
    the last 60 seconds in the window raises [ValueError], the [min] of
    an empty sequence; the first call on a new limiter is such a call. *)
Theorem limiter_with_nonpositive_limit_raises :
  forall (now : float) (r : RateLimiter.t),
    RateLimiter.requests_per_minute r <= 0 ->
    Forall (fun t => flt (fsub now t) RateLimiter.sixty = false)
      (RateLimiter.request_times r) ->
    RateLimiter.wait_if_needed now r
    = inl (ValueError "min() arg is an empty sequence").
Proof.
  intros now r Hn Hold. unfold RateLimiter.wait_if_needed.
  assert (List.filter (fun t => flt (fsub now t) RateLimiter.sixty)
            (RateLimiter.request_times r) = []) as ->.
  { induction Hold as [|t l Ht Hl IH]; simpl; [reflexivity|]. now rewrite Ht. }
  apply Z.leb_le in Hn. change (Z.of_nat (length [])) with 0. now rewrite Hn.
Qed.

Lemma limiter_with_nonpositive_limit_raises_witness :
  RateLimiter.wait_if_needed (float_of_Z 100) (RateLimiter.__init__ 0)
  = inl (ValueError "min() arg is an empty sequence").
Proof.
  apply (limiter_with_nonpositive_limit_raises (float_of_Z 100) (RateLimiter.__init__ 0)).
  - simpl. lia.
  - simpl. constructor.
Defined.

(** ** The Foursquare adapter: cache and failures *)

(** The request a search sends on a cache miss. *)
Definition search_url (self : t) : string :=
  if has_api_key self then BASE_URL +++ SEARCH_ENDPOINT
  else "https://api.foursquare.com/v2/venues/search".

Definition search_request_params (self : t) (location query category : string)
  (radius limit : Z) : list (string * pyval) :=
  let params := search_params location query category radius limit in
  if has_api_key self then params
  else fold_left (fun d kv => dict_set (fst kv) (snd kv) d) (v2_params self) params.

(** What a search does with the outcome of its request. *)
Definition search_outcome (self : t) (key : string) (limit : Z)
  (response : option Response) (w1 : World) : result pyval * World :=
  match response with
  | None => (inl UnboundLocalError, w1)
  | Some response =>
      if is_http_error (status_code response)
      then (inl (Exception "Foursquare API error"), w1)
      else
        match json response with
        | None => (inl (Exception "Foursquare API error"), w1)
        | Some data =>
            match (places <~ (if has_api_key self
                              then py_get data "results" (PList [])
                              else (r <~ py_get data "response" (PDict []) ;;
                                    py_get r "venues" (PList []))) ;;
                   slice_places places limit) with
            | inl e => (inl e, w1)
            | inr places =>
                (inr (PList (format_places places)),
                 emit (EvCacheSet key 300)
                   (set_cache (<[key := PList (format_places places)]> (cache w1)) w1))
            end
        end
  end.

Lemma requests_get_spec url params w :
  exists response w1,
    requests_get url params w = (inr response, w1)
    /\ cache w1 = cache w
    /\ events w1 = (events w ++ [EvRequest url params])%list
    /\ generated_businesses w1 = generated_businesses w
    /\ response = match network w with
                  | NetResponse r :: _ => Some r
                  | _ => None
                  end
    /\ network w1 = tl (network w).
Proof.
  unfold requests_get. destruct (network w) as [|[|r] rest] eqn:E; simpl.
  - eexists _, _. split; [reflexivity|]. simpl. now rewrite E.
  - eexists _, _. split; [reflexivity|]. now simpl.
  - eexists _, _. split; [reflexivity|]. now simpl.
Qed.

(** A search on a cache miss: the lookup, one request, and what follows
    from its outcome. *)
Lemma search_businesses_miss self location query category radius limit w :
  cache_miss location query category limit w ->
  exists response w1,
    requests_get (search_url self)
      (search_request_params self location query category radius limit)
      (emit (EvCacheGet (search_cache_key location query category limit)) w)
    = (inr response, w1)
    /\ search_businesses self location query category radius limit w
       = search_outcome self (search_cache_key location query category limit)
           limit response w1.
Proof.
  intros Hmiss. unfold cache_miss in Hmiss.
  destruct (requests_get_spec (search_url self)
              (search_request_params self location query category radius limit)
              (emit (EvCacheGet (search_cache_key location query category limit)) w))
    as (response & w1 & Hreq & _).
  exists response, w1. split; [exact Hreq|].
  unfold search_businesses.
  unfold bind at 1. unfold cache_get at 1. cbv beta iota zeta. rewrite Hmiss.
  unfold bind at 1.
  assert ((if has_api_key self
           then requests_get (BASE_URL +++ SEARCH_ENDPOINT)
                  (search_params location query category radius limit)
           else requests_get "https://api.foursquare.com/v2/venues/search"
                  (fold_left (fun d kv => dict_set (fst kv) (snd kv) d)
                     (v2_params self)
                     (search_params location query category radius limit)))
          = requests_get (search_url self)
              (search_request_params self location query category radius limit))
    as -> by (unfold search_url, search_request_params;
              destruct (has_api_key self); reflexivity).
  rewrite Hreq. unfold search_outcome.
  destruct response as [response|]; [|reflexivity].
  unfold raise.
  destruct (is_http_error (status_code response)); [reflexivity|].
  destruct (json response) as [data|]; [|reflexivity].
  unfold bind, lift, rbind, cache_set, ret.
  destruct (if has_api_key self then _ else _) as [e|places]; [reflexivity|].
  destruct (slice_places places limit); reflexivity.
Qed.

(** X10. Whatever a search returns and is not empty is in the cache under
    the key of the search when it returns; the key holds the location,
    the query, the category and the limit but not the radius, so that, as
    long as the entry is there, the same search for any other radius is
    answered with that same value after a cache lookup alone: no request
    is sent and the cache and the network are as they were. *)
Theorem search_is_served_from_cache_whatever_the_radius :
  forall (self : t) (location query category : string) (radius radius' limit : Z)
         (w w1 : World) (v : pyval),
    search_businesses self location query category radius limit w = (inr v, w1) ->
    truthy v = true ->
    cache w1 !! search_cache_key location query category limit = Some v
    /\ search_businesses self location query category radius' limit w1
       = (inr v, emit (EvCacheGet (search_cache_key location query category limit)) w1).
Proof.
  intros self location query category radius radius' limit w w1 v Hsearch Hv.
  assert (cache w1 !! search_cache_key location query category limit = Some v) as Hc.
  { destruct (truthy (default PNone
                        (cache w !! search_cache_key location query category limit)))
      eqn:Hhit.
    - unfold search_businesses, bind, cache_get in Hsearch. rewrite Hhit in Hsearch.
      unfold ret in Hsearch. injection Hsearch as <- <-. simpl.
      destruct (cache w !! search_cache_key location query category limit);
        [reflexivity|discriminate].
    - destruct (search_businesses_miss self location query category radius limit w Hhit)
        as (response & w' & _ & Hout).
      rewrite Hout in Hsearch. unfold search_outcome in Hsearch.
      destruct response as [response|]; [|discriminate].
      destruct (is_http_error (status_code response)); [discriminate|].
      destruct (json response) as [data|]; [|discriminate].
      destruct (rbind _ _) as [e|places]; [discriminate|].
      injection Hsearch as <- <-. simpl. apply lookup_insert_eq. }
  split; [exact Hc|].
  unfold search_businesses, bind, cache_get. rewrite Hc. simpl. now rewrite Hv.
Qed.

Lemma search_is_served_from_cache_whatever_the_radius_witness :
  let w1 := snd (search_businesses sample_source "New York" "" "" 5000 10 world_ok) in
  exists v,
    search_businesses sample_source "New York" "" "" 100 10 w1
    = (inr v, emit (EvCacheGet (search_cache_key "New York" "" "" 10)) w1).
Proof.
  cbv zeta.
  destruct (search_businesses sample_source "New York" "" "" 5000 10 world_ok)
    as [[e|v] w1] eqn:E; [vm_compute in E; discriminate|].
  exists v.
  apply (search_is_served_from_cache_whatever_the_radius sample_source
           "New York" "" "" 5000 100 10 world_ok w1 v E).
  vm_compute in E. injection E as <- _. reflexivity.
Defined.

Lemma search_outcome_events self key limit response w1 :
  exists rest,
    events (snd (search_outcome self key limit response w1))
    = (events w1 ++ rest)%list
    /\ (forall e, fst (search_outcome self key limit response w1) = inl e ->
                  rest = []
                  /\ cache (snd (search_outcome self key limit response w1)) = cache w1).
Proof.
  unfold search_outcome.
  destruct response as [response|];
    [|exists []; rewrite app_nil_r; repeat split].
  destruct (is_http_error (status_code response));
    [exists []; rewrite app_nil_r; repeat split|].
  destruct (json response) as [data|];
    [|exists []; rewrite app_nil_r; repeat split].
  destruct (rbind _ _) as [e|places];
    [exists []; rewrite app_nil_r; repeat split|].
  exists [EvCacheSet key 300]. split; [reflexivity|]. intros e He. discriminate He.
Qed.

(** X11. A search that raises has looked the cache up, sent exactly one
    request and written nothing to the cache: no failure is retried and
    none is cached. *)
Theorem failed_search_sends_one_request_and_caches_nothing :
  forall (self : t) (location query category : string) (radius limit : Z)
         (w : World) (e : exn),
    fst (search_businesses self location query category radius limit w) = inl e ->
    let w' := snd (search_businesses self location query category radius limit w) in
    cache w' = cache w
    /\ events w'
       = (events w
          ++ [EvCacheGet (search_cache_key location query category limit);
              EvRequest (search_url self)
                (search_request_params self location query category radius limit)])%list.
Proof.
  intros self location query category radius limit w e Hfail. cbv zeta.
  destruct (truthy (default PNone
                      (cache w !! search_cache_key location query category limit)))
    eqn:Hhit.
  - unfold search_businesses, bind, cache_get in Hfail. rewrite Hhit in Hfail.
    discriminate Hfail.
  - destruct (search_businesses_miss self location query category radius limit w Hhit)
      as (response & w1 & Hreq & Hout).
    rewrite Hout in Hfail |- *.
    destruct (requests_get_spec (search_url self)
                (search_request_params self location query category radius limit)
                (emit (EvCacheGet (search_cache_key location query category limit)) w))
      as (response' & w1' & Hreq' & Hcache & Hevents & _).
    rewrite Hreq in Hreq'. injection Hreq' as <- <-.
    destruct (search_outcome_events self
                (search_cache_key location query category limit) limit response w1)
      as (rest & Hev & Hfailed).
    destruct (Hfailed e Hfail) as [-> Hc].
    rewrite Hc, Hcache, Hev, Hevents, app_nil_r. simpl.
    split; [reflexivity|]. now rewrite <- app_assoc.
Qed.

Lemma failed_search_sends_one_request_and_caches_nothing_witness :
  let w' := snd (search_businesses sample_source "New York" "" "" 5000 10 world_500) in
  cache w' = cache world_500
  /\ events w'
     = (events world_500
        ++ [EvCacheGet (search_cache_key "New York" "" "" 10);
            EvRequest (search_url sample_source)
              (search_request_params sample_source "New York" "" "" 5000 10)])%list.
Proof.
  apply (failed_search_sends_one_request_and_caches_nothing sample_source
           "New York" "" "" 5000 10 world_500 (Exception "Foursquare API error")).
  vm_compute. reflexivity.
Defined.

(** X12. An empty result is stored in the cache like any other, but a
    stored empty list is never served: the next search with the same key
    sends a request again, whatever its radius. *)
Theorem empty_result_is_cached_but_never_served :
  forall (self : t) (location query category : string) (radius radius' limit : Z)
         (w w1 : World) (v : pyval),
    search_businesses self location query category radius limit w = (inr v, w1) ->
    truthy v = false ->
    v = PList []
    /\ cache w1 !! search_cache_key location query category limit = Some (PList [])
    /\ exists rest,
         events (snd (search_businesses self location query category radius' limit w1))
         = (events w1
            ++ EvCacheGet (search_cache_key location query category limit)
            :: EvRequest (search_url self)
                 (search_request_params self location query category radius' limit)
            :: rest)%list.
Proof.
  intros self location query category radius radius' limit w w1 v Hsearch Hv.
  assert (v = PList []
          /\ cache w1 !! search_cache_key location query category limit = Some (PList []))
    as [-> Hc].
  { destruct (truthy (default PNone
                        (cache w !! search_cache_key location query category limit)))
      eqn:Hhit.
    - unfold search_businesses, bind, cache_get in Hsearch. rewrite Hhit in Hsearch.
      unfold ret in Hsearch. injection Hsearch as <- <-. congruence.
    - destruct (search_businesses_miss self location query category radius limit w Hhit)
        as (response & w' & _ & Hout).
      rewrite Hout in Hsearch. unfold search_outcome in Hsearch.
      destruct response as [response|]; [|discriminate].
      destruct (is_http_error (status_code response)); [discriminate|].
      destruct (json response) as [data|]; [|discriminate].
      destruct (rbind _ _) as [e|places]; [discriminate|].
      injection Hsearch as <- <-. simpl in Hv.
      destruct (format_places places); [|discriminate].
      split; [reflexivity|]. simpl. apply lookup_insert_eq. }
  split; [reflexivity|]. split; [exact Hc|].
  assert (cache_miss location query category limit w1) as Hmiss
    by (unfold cache_miss; now rewrite Hc).
  destruct (search_businesses_miss self location query category radius' limit w1 Hmiss)
    as (response & w2 & Hreq & Hout).
  rewrite Hout.
  destruct (requests_get_spec (search_url self)
              (search_request_params self location query category radius' limit)
              (emit (EvCacheGet (search_cache_key location query category limit)) w1))
    as (response' & w2' & Hreq' & _ & Hevents & _).
  rewrite Hreq in Hreq'. injection Hreq' as <- <-.
  destruct (search_outcome_events self
              (search_cache_key location query category limit) limit response w2)
    as (rest & Hev & _).
  exists rest. rewrite Hev, Hevents. simpl. now rewrite <- !app_assoc.
Qed.

(** A world in which the next request is answered with no place at all. *)
Definition world_no_places : World :=
  {| cache := ∅;
     network := [NetResponse {| status_code := 200;
                                json := Some (PDict [("results", PList [])]) |}];
     random := []; generated_businesses := []; events := [] |}.

Lemma empty_result_is_cached_but_never_served_witness :
  let w1 := snd (search_businesses sample_source "Nowhere" "" "" 5000 10 world_no_places) in
  cache w1 !! search_cache_key "Nowhere" "" "" 10 = Some (PList []).
Proof.
  cbv zeta.
  destruct (search_businesses sample_source "Nowhere" "" "" 5000 10 world_no_places)
    as [[e|v] w1] eqn:E; [vm_compute in E; discriminate|].
  refine (proj1 (proj2 (empty_result_is_cached_but_never_served sample_source
                          "Nowhere" "" "" 5000 5000 10 world_no_places w1 v E _))).
  vm_compute in E. injection E as <- _. reflexivity.
Defined.

(** *** The records of a search *)

Lemma dict_get_filter_nth {V : Type} (f : string * V -> bool)
  (l : list (string * V)) (n : nat) (k : string) (v : V) :
  nth_error l n = Some (k, v) ->
  f (k, v) = true ->
  forallb (fun kv => negb (String.eqb k (fst kv))) (firstn n l) = true ->
  dict_get k (List.filter f l) = Some v.
Proof.
  revert n. induction l as [|[k' v'] l IH]; intros [|n] Hnth Hf Hbefore;
    simpl in Hnth; try discriminate.
  - injection Hnth as -> ->. simpl. rewrite Hf. simpl. now rewrite String.eqb_refl.
  - simpl in Hbefore. apply andb_prop in Hbefore as [Hk Hbefore].
    apply negb_true_iff in Hk. simpl.
    destruct (f (k', v')); [simpl; rewrite Hk|]; eapply IH; eauto.
Qed.

Lemma Forall_filter_true {A : Type} (f : A -> bool) (l : list A) :
  Forall (fun x => f x = true) (List.filter f l).
Proof.
  induction l as [|a l IH]; simpl; [constructor|].
  destruct (f a) eqn:E; [constructor; assumption|assumption].
Qed.

(** A record as a Foursquare search returns it: a dict tagged with its
    source in which no value is [None], [''], [[]] or [{}]. *)
Definition foursquare_record (b : pyval) : Prop :=
  exists d,
    b = PDict d
    /\ dict_get "source" d = Some (PStr "foursquare")
    /\ Forall (fun kv => is_empty_value (snd kv) = false) d.

Lemma format_business_body_record place business :
  _format_business_body place = inr business -> foursquare_record business.
Proof.
  unfold _format_business_body. intros H.
  do 28 (apply rbind_inr in H; destruct H as (? & _ & H)).
  match type of H with
  | inr ?X = inr _ =>
      assert (business = X) as ->
        by (symmetry;
            exact (f_equal (fun r => match r with inr v => v | inl _ => business end) H))
  end.
  clear H.
  eexists. split; [reflexivity|]. split.
  - apply (dict_get_filter_nth _ _ 18 "source" (PStr "foursquare")); reflexivity.
  - eapply List.Forall_impl; [|apply Forall_filter_true].
    intros kv Hkv. now apply negb_true_iff in Hkv.
Qed.

Lemma format_places_records places :
  Forall foursquare_record (format_places places)
  /\ (length (format_places places) <= length places)%nat.
Proof.
  induction places as [|place rest [IH IHlen]]; [split; [constructor|simpl; lia]|].
  simpl format_places.
  destruct (_format_business place) as [business|] eqn:E; [|split; [exact IH|simpl; lia]].
  destruct (truthy business); [|split; [exact IH|simpl; lia]].
  split; [|simpl; lia].
  constructor; [|exact IH].
  unfold _format_business in E.
  destruct (_format_business_body place) as [e|b] eqn:Eb; [discriminate|].
  injection E as <-. exact (format_business_body_record place b Eb).
Qed.

Lemma slice_to_length {A : Type} (l : list A) (n : Z) :
  0 <= n -> Z.of_nat (length (slice_to l n)) <= n.
Proof.
  intros Hn. unfold slice_to.
  assert ((0 <=? n) = true) as -> by (apply Z.leb_le; lia).
  rewrite length_firstn. lia.
Qed.

(** X13. What a search returns after a cache miss, for a limit that is
    not negative, is a list of at most [limit] records, each of them a
    dict tagged with source "foursquare" that holds no empty value. *)
Theorem search_returns_at_most_limit_clean_records :
  forall (self : t) (location query category : string) (radius limit : Z)
         (w : World) (v : pyval),
    cache_miss location query category limit w ->
    0 <= limit ->
    fst (search_businesses self location query category radius limit w) = inr v ->
    exists l,
      v = PList l
      /\ Z.of_nat (length l) <= limit
      /\ Forall foursquare_record l.
Proof.
  intros self location query category radius limit w v Hmiss Hlimit Hsearch.
  destruct (search_businesses_miss self location query category radius limit w Hmiss)
    as (response & w1 & _ & Hout).
  rewrite Hout in Hsearch. unfold search_outcome in Hsearch.
  destruct response as [response|]; [|discriminate].
  destruct (is_http_error (status_code response)); [discriminate|].
  destruct (json response) as [data|]; [|discriminate].
  destruct (rbind _ _) as [e|places] eqn:Hplaces; [discriminate|].
  injection Hsearch as <-.
  exists (format_places places). split; [reflexivity|].
  destruct (format_places_records places) as [Hrec Hlen].
  split; [|exact Hrec].
  apply rbind_inr in Hplaces as (p & _ & Hslice).
  assert (Z.of_nat (length places) <= limit).
  { unfold slice_places in Hslice.
    destruct p; try discriminate; injection Hslice as <-;
      now apply slice_to_length. }
  lia.
Qed.

Lemma search_returns_at_most_limit_clean_records_witness :
  exists l,
    fst (search_businesses sample_source "New York" "" "" 5000 1 world_ok)
    = inr (PList l)
    /\ Z.of_nat (length l) <= 1.
Proof.
  destruct (search_businesses sample_source "New York" "" "" 5000 1 world_ok)
    as [[e|v] w1] eqn:E; [vm_compute in E; discriminate|].
  destruct (search_returns_at_most_limit_clean_records sample_source
              "New York" "" "" 5000 1 world_ok v) as (l & -> & Hlen & _).
  - vm_compute. reflexivity.
  - lia.
  - now rewrite E.
  - exists l. split; [reflexivity|exact Hlen].
Defined.

(** ** The Foursquare adapter: details and photos *)

(** The next request fails as a [RequestException]: there is no response,
    or its status is an HTTP error, or its body is not JSON. *)
Definition request_fails (w : World) : Prop :=
  match network w with
  | NetResponse r :: _ => is_http_error (status_code r) = true \/ json r = None
  | _ => True
  end.

(** The next request is answered with the JSON value [data]. *)
Definition request_answers (data : pyval) (w : World) : Prop :=
  exists r rest,
    network w = NetResponse r :: rest
    /\ is_http_error (status_code r) = false
    /\ json r = Some data.

(** The world after a request. *)
Definition after_request (url : string) (params : list (string * pyval))
  (w : World) : World :=
  set_network (tl (network w)) (emit (EvRequest url params) w).

Lemma request_json_fails {A : Type} url params (handler : M A) k w :
  request_fails w ->
  request_json url params handler k w = handler (after_request url params w).
Proof.
  unfold request_fails, request_json, bind, requests_get, after_request.
  destruct (network w) as [|[|r] rest] eqn:E; simpl; try reflexivity.
  - intros _. destruct w; simpl in E; subst; reflexivity.
  - intros [-> | Hjson]; [reflexivity|].
    destruct (is_http_error (status_code r)); [reflexivity|]. now rewrite Hjson.
Qed.

Lemma request_json_answers {A : Type} url params (handler : M A) k w data :
  request_answers data w ->
  request_json url params handler k w = k data (after_request url params w).
Proof.
  intros (r & rest & Hnet & Hok & Hjson).
  unfold request_json, bind, requests_get, after_request.
  rewrite Hnet. simpl. now rewrite Hok, Hjson.
Qed.

(** The cache has nothing usable under the key of the details of
    [fsq_id]. *)
Definition details_miss (fsq_id : string) (w : World) : Prop :=
  truthy (default PNone (cache w !! details_cache_key fsq_id)) = false.

Definition details_url (self : t) (fsq_id : string) : string :=
  if has_api_key self then BASE_URL +++ "/places/" +++ fsq_id
  else "https://api.foursquare.com/v2/venues/" +++ fsq_id.

Definition details_params (self : t) : list (string * pyval) :=
  if has_api_key self
  then [("fields", PStr "fsq_id,name,categories,location,geocodes,rating,price,stats,hours,popularity,tastes,website,tel,email,description,photos,social_media")]
  else v2_params self.

Definition photos_url (self : t) (fsq_id : string) : string :=
  if has_api_key self
  then BASE_URL +++ "/places/" +++ fsq_id +++ "/photos"
  else "https://api.foursquare.com/v2/venues/" +++ fsq_id +++ "/photos".

Definition photos_params (self : t) (limit : Z) : list (string * pyval) :=
  if has_api_key self
  then [("limit", PInt (Z.min limit 50))]
  else dict_set "limit" (PInt (Z.min limit 50)) (v2_params self).

(** What [get_business_details] does with the body of the response. *)
Definition details_of_response (other : pyval -> string) (self : t)
  (fsq_id : string) (data : pyval) : M pyval :=
  place_data <- lift
    (if has_api_key self then inr data
     else (r <~ py_get data "response" (PDict []) ;;
           py_get r "venue" (PDict []))) ;;
  details <- _format_detailed_business other self place_data ;;
  _ <- cache_set (details_cache_key fsq_id) details 3600 ;;
  ret details.

Lemma get_business_details_miss other self fsq_id w :
  details_miss fsq_id w ->
  get_business_details other self fsq_id w
  = request_json (details_url self fsq_id) (details_params self) (ret PNone)
      (details_of_response other self fsq_id)
      (emit (EvCacheGet (details_cache_key fsq_id)) w).
Proof.
  intros Hmiss. unfold details_miss in Hmiss.
  unfold get_business_details, bind at 1, cache_get at 1.
  cbv beta iota zeta. now rewrite Hmiss.
Qed.

(** X14. Where a search raises, the other operations of the adapter
    absorb a failed request: on a connection failure, an HTTP error
    status or a body that is not JSON, [get_business_details] returns
    [None], [get_photos] and [get_categories] return the empty list, and
    none of them writes to the cache. *)
Theorem failed_requests_are_absorbed_outside_search :
  forall (other : pyval -> string) (self : t) (fsq_id : string) (limit : Z)
         (w : World),
    request_fails w ->
    (details_miss fsq_id w ->
     fst (get_business_details other self fsq_id w) = inr PNone
     /\ cache (snd (get_business_details other self fsq_id w)) = cache w)
    /\ (fst (get_photos self fsq_id limit w) = inr (PList [])
        /\ cache (snd (get_photos self fsq_id limit w)) = cache w)
    /\ (truthy (default PNone (cache w !! "foursquare_categories")) = false ->
        fst (get_categories self w) = inr (PList [])
        /\ cache (snd (get_categories self w)) = cache w).
Proof.
  intros other self fsq_id limit w Hfail.
  assert (forall key, request_fails (emit (EvCacheGet key) w)) as Hfail'
    by (intros key; exact Hfail).
  split; [|split].
  - intros Hmiss. rewrite get_business_details_miss by exact Hmiss.
    rewrite request_json_fails by apply Hfail'. split; reflexivity.
  - unfold get_photos. rewrite request_json_fails by exact Hfail. split; reflexivity.
  - intros Hmiss.
    assert (get_categories self w
            = (inr (PList []),
               after_request
                 (if has_api_key self
                  then BASE_URL +++ "/places/categories"
                  else "https://api.foursquare.com/v2/venues/categories")
                 (if has_api_key self then [] else v2_params self)
                 (emit (EvCacheGet "foursquare_categories") w))) as ->.
    { unfold get_categories, bind at 1, cache_get at 1.
      cbv beta iota zeta. rewrite Hmiss.
      now rewrite request_json_fails by apply Hfail'. }
    split; reflexivity.
Qed.

Lemma failed_requests_are_absorbed_outside_search_witness :
  fst (get_business_details (fun _ => "") sample_source "4b5a" world_500) = inr PNone
  /\ fst (get_photos sample_source "4b5a" 5 world_500) = inr (PList [])
  /\ fst (get_categories sample_source world_500) = inr (PList []).
Proof.
  destruct (failed_requests_are_absorbed_outside_search (fun _ => "") sample_source
              "4b5a" 5 world_500) as (Hd & Hp & Hc).
  - vm_compute. now left.
  - split; [apply Hd; vm_compute; reflexivity|].
    split; [apply Hp|apply Hc; vm_compute; reflexivity].
Defined.

Lemma format_business_of_dict place details :
  _format_business place = Some details ->
  (exists pd, place = PDict pd)
  /\ truthy details = true
  /\ exists dd, details = PDict dd.
Proof.
  intros H.
  assert (exists pd, place = PDict pd) as Hplace.
  { destruct place; eauto;
      unfold _format_business, _format_business_body in H;
      unfold rbind at 1 in H; cbv beta iota delta [py_get] in H; discriminate H. }
  split; [exact Hplace|].
  unfold _format_business in H.
  destruct (_format_business_body place) as [e|b] eqn:Eb; [discriminate|].
  injection H as <-.
  split; [exact (format_business_body_truthy place b Eb)|].
  destruct (format_business_body_record place b Eb) as (dd & -> & _). eauto.
Qed.

Lemma py_get_dict d k dflt :
  exists x, py_get (PDict d) k dflt = inr x.
Proof. unfold py_get. eauto. Qed.

(** The place in the body of a details response: the body itself with
    the v3 API, [data['response']['venue']] with v2. *)
Definition place_of_body (self : t) (data : pyval) : result pyval :=
  if has_api_key self then inr data
  else (r <~ py_get data "response" (PDict []) ;;
        py_get r "venue" (PDict [])).

(** X15. When the place in the response formats to a record without an
    id, [get_business_details] raises [KeyError] on ['id'] instead of
    returning the record: the one request has been sent, no photos are
    asked for and nothing is cached. *)
Theorem details_of_a_place_without_id_raise :
  forall (other : pyval -> string) (self : t) (fsq_id : string) (w : World)
         (data place details : pyval),
    details_miss fsq_id w ->
    request_answers data (emit (EvCacheGet (details_cache_key fsq_id)) w) ->
    place_of_body self data = inr place ->
    _format_business place = Some details ->
    py_item details "id" = inl (KeyError "id") ->
    let w' := snd (get_business_details other self fsq_id w) in
    fst (get_business_details other self fsq_id w) = inl (KeyError "id")
    /\ cache w' = cache w
    /\ events w'
       = (events w
          ++ [EvCacheGet (details_cache_key fsq_id);
              EvRequest (details_url self fsq_id) (details_params self)])%list.
Proof.
  intros other self fsq_id w data place details Hmiss Hanswer Hplace Hfmt Hid.
  cbv zeta.
  assert (get_business_details other self fsq_id w
          = (inl (KeyError "id"),
             after_request (details_url self fsq_id) (details_params self)
               (emit (EvCacheGet (details_cache_key fsq_id)) w))) as ->.
  { rewrite get_business_details_miss by exact Hmiss.
    rewrite (request_json_answers _ _ _ _ _ data) by exact Hanswer.
    destruct (format_business_of_dict place details Hfmt) as ([pd ->] & Htruthy & _).
    unfold details_of_response. fold (place_of_body self data). rewrite Hplace.
    unfold bind at 1. unfold lift at 1.
    unfold bind at 1. unfold _format_detailed_business.
    rewrite Hfmt, Htruthy. cbn [negb].
    do 5 (unfold bind at 1; unfold lift at 1; cbn [py_get]).
    unfold bind at 1. unfold lift at 1. now rewrite Hid. }
  split; [reflexivity|]. split; [reflexivity|].
  cbn [snd after_request events set_network emit]. now rewrite <- app_assoc.
Qed.

(** A place with a name but neither [fsq_id] nor [id]. *)
Definition place_without_id : pyval := PDict [("name", PStr "Joe's Pizza")].

Definition world_place_without_id : World :=
  {| cache := ∅;
     network := [NetResponse {| status_code := 200; json := Some place_without_id |}];
     random := []; generated_businesses := []; events := [] |}.

Lemma details_of_a_place_without_id_raise_witness :
  fst (get_business_details (fun _ => "") sample_source "4b5a" world_place_without_id)
  = inl (KeyError "id").
Proof.
  destruct (_format_business place_without_id) as [details|] eqn:E;
    [|vm_compute in E; discriminate].
  apply (details_of_a_place_without_id_raise (fun _ => "") sample_source "4b5a"
           world_place_without_id place_without_id place_without_id details).
  - vm_compute. reflexivity.
  - eexists _, _. split; [reflexivity|]. split; reflexivity.
  - reflexivity.
  - exact E.
  - vm_compute in E. injection E as <-. reflexivity.
Defined.

(** The keys [_format_detailed_business] adds to a record. *)
Definition DETAIL_KEYS : list string :=
  ["website"; "phone"; "email"; "description"; "social_media"; "photos";
   "tips_count"; "users_count"; "checkins_count"; "here_now"; "menu";
   "attributes"; "verified"].

Lemma dict_mem_set {V : Type} (k k' : string) (v : V) (d : list (string * V)) :
  dict_mem k (dict_set k' v d) = (String.eqb k k' || dict_mem k d)%bool.
Proof.
  destruct (String.eqb_spec k k') as [->|Hne]; unfold dict_mem.
  - now rewrite dict_get_set_same.
  - rewrite dict_get_set_other by congruence. reflexivity.
Qed.

Lemma dict_mem_update {V : Type} (entries : list (string * V)) :
  forall (d : list (string * V)) (k : string),
    dict_mem k (fold_left (fun d kv => dict_set (fst kv) (snd kv) d) entries d)
    = (existsb (String.eqb k) (map fst entries) || dict_mem k d)%bool.
Proof.
  induction entries as [|[k' v'] entries IH]; intros d k; cbn [fold_left map existsb].
  - reflexivity.
  - rewrite IH, dict_mem_set. cbn [fst snd].
    destruct (String.eqb k k'), (existsb (String.eqb k) (map fst entries)),
      (dict_mem k d); reflexivity.
Qed.

(** X16. A failing photos request does not fail the details: when the
    details request is answered with a place that formats to a record
    with an id and whose [stats], if any, is a dict, and the photos
    request that follows fails, [get_business_details] returns the record
    with an empty list of photos and with every detail key present, and
    stores it in the cache under the key of the id. *)
Theorem details_survive_a_failed_photos_request :
  forall (other : pyval -> string) (self : t) (fsq_id : string) (w : World)
         (data place details id : pyval) (stats : list (string * pyval)),
    details_miss fsq_id w ->
    request_answers data (emit (EvCacheGet (details_cache_key fsq_id)) w) ->
    place_of_body self data = inr place ->
    _format_business place = Some details ->
    py_item details "id" = inr id ->
    py_get place "stats" (PDict []) = inr (PDict stats) ->
    request_fails
      (after_request (details_url self fsq_id) (details_params self)
         (emit (EvCacheGet (details_cache_key fsq_id)) w)) ->
    exists d,
      fst (get_business_details other self fsq_id w) = inr (PDict d)
      /\ dict_get "photos" d = Some (PList [])
      /\ forallb (fun k => dict_mem k d) DETAIL_KEYS = true
      /\ cache (snd (get_business_details other self fsq_id w))
           !! details_cache_key fsq_id = Some (PDict d).
Proof.
  intros other self fsq_id w data place details id stats
    Hmiss Hanswer Hplace Hfmt Hid Hstats Hphotos.
  destruct (format_business_of_dict place details Hfmt)
    as ([pd ->] & Htruthy & [dd ->]).
  set (w1 := after_request (details_url self fsq_id) (details_params self)
               (emit (EvCacheGet (details_cache_key fsq_id)) w)) in *.
  set (w2 := after_request (photos_url self (str_of_id other id))
               (photos_params self 5) w1).
  assert (exists d,
            _format_detailed_business other self (PDict pd) w1 = (inr (PDict d), w2)
            /\ dict_get "photos" d = Some (PList [])
            /\ forallb (fun k => dict_mem k d) DETAIL_KEYS = true)
    as (d & Hdetailed & Hd_photos & Hd_keys).
  { cbn [py_get] in Hstats. injection Hstats as Hstats.
    unfold _format_detailed_business. rewrite Hfmt, Htruthy. cbn [negb py_get].
    rewrite !Hstats. cbn [rbind py_get].
    do 5 (unfold bind at 1; unfold lift at 1).
    unfold bind at 1. unfold lift at 1. rewrite Hid.
    unfold bind at 1. unfold get_photos.
    fold (photos_url self (str_of_id other id)). fold (photos_params self 5).
    rewrite request_json_fails by exact Hphotos. fold w2. unfold ret at 1.
    do 4 (unfold bind at 1; unfold lift at 1).
    match goal with
    | |- context [if is_dict ?a then ?b else ?c] =>
        assert (exists h, (if is_dict a then b else c) = inr h) as [here_now ->]
          by (destruct (dict_get "here_now" pd) as [[]|];
              cbn [is_dict py_get]; eauto)
    end.
    do 3 (unfold bind at 1; unfold lift at 1).
    unfold lift, update. eexists. split; [reflexivity|]. split.
    - cbn [fold_left fst snd]. rewrite !dict_get_set_other by discriminate.
      apply dict_get_set_same.
    - unfold DETAIL_KEYS. cbn [forallb]. rewrite !dict_mem_update. reflexivity. }
  exists d.
  assert (get_business_details other self fsq_id w
          = (inr (PDict d),
             emit (EvCacheSet (details_cache_key fsq_id) 3600)
               (set_cache (<[details_cache_key fsq_id := PDict d]> (cache w2)) w2)))
    as ->.
  { rewrite get_business_details_miss by exact Hmiss.
    rewrite (request_json_answers _ _ _ _ _ data) by exact Hanswer.
    unfold details_of_response. fold (place_of_body self data). rewrite Hplace.
    unfold bind at 1. unfold lift at 1.
    unfold bind at 1. fold w1. rewrite Hdetailed.
    reflexivity. }
  split; [reflexivity|]. split; [exact Hd_photos|]. split; [exact Hd_keys|].
  cbn [snd cache emit set_cache]. apply lookup_insert_eq.
Qed.

(** The details request is answered with a well-formed place; the photos
    request that follows meets no response. *)
Definition world_details_without_photos : World :=
  {| cache := ∅;
     network := [NetResponse {| status_code := 200; json := Some sample_place |};
                 NetFail];
     random := []; generated_businesses := []; events := [] |}.

Lemma details_survive_a_failed_photos_request_witness :
  exists d,
    fst (get_business_details (fun _ => "") sample_source "4b5a"
           world_details_without_photos) = inr (PDict d)
    /\ dict_get "photos" d = Some (PList []).
Proof.
  destruct (_format_business sample_place) as [details|] eqn:E;
    [|vm_compute in E; discriminate].
  destruct (details_survive_a_failed_photos_request (fun _ => "") sample_source
              "4b5a" world_details_without_photos sample_place sample_place
              details (PStr "4b5a") [])
    as (d & Hd & Hphotos & _).
  - vm_compute. reflexivity.
  - eexists _, _. split; [reflexivity|]. split; reflexivity.
  - reflexivity.
  - exact E.
  - vm_compute in E. injection E as <-. reflexivity.
  - reflexivity.
  - vm_compute. exact I.
  - exists d. split; [exact Hd|exact Hphotos].
Defined.

(** ** The aggregator: sources and results *)

(** Foursquare is registered: the client id is set and is not the
    placeholder, and the constructor of the adapter did not raise. *)
Definition foursquare_registered (settings : Settings)
  (foursquare : result base.DataSource) : bool :=
  match FOURSQUARE_CLIENT_ID settings, foursquare with
  | Some cid, inr _ => (nonempty cid && negb (String.eqb cid "your-client-id-here"))%bool
  | _, _ => false
  end.

Lemma initialize_sources_cases settings mock foursquare :
  (foursquare_registered settings foursquare = false
   /\ _initialize_sources settings mock foursquare = [("mock", mock)])
  \/ (exists fs,
        foursquare_registered settings foursquare = true
        /\ foursquare = inr fs
        /\ _initialize_sources settings mock foursquare
           = [("mock", mock); ("foursquare", fs)]).
Proof.
  unfold _initialize_sources, foursquare_registered.
  destruct (FOURSQUARE_CLIENT_ID settings) as [cid|]; [|left; split; reflexivity].
  destruct foursquare as [e|fs].
  - left. split; [reflexivity|].
    destruct (nonempty cid && negb (String.eqb cid "your-client-id-here"))%bool;
      reflexivity.
  - destruct (nonempty cid && negb (String.eqb cid "your-client-id-here"))%bool.
    + right. exists fs. repeat split.
    + left. split; reflexivity.
Qed.

Lemma collector_sources_mock settings mock foursquare :
  dict_get "mock" (_initialize_sources settings mock foursquare) = Some mock.
Proof.
  destruct (initialize_sources_cases settings mock foursquare)
    as [[_ ->]|(fs & _ & _ & ->)]; reflexivity.
Qed.

(** X17. Whatever the settings and whatever the Foursquare constructor
    does, a new collector has Mock registered; Foursquare is registered
    next to it exactly when its client id is set, is not the placeholder
    and the constructor did not raise, and is then the primary source;
    source 'auto' always resolves to a registered source. *)
Theorem collector_always_has_mock_and_a_primary_source :
  forall (settings : Settings) (mock : base.DataSource)
         (foursquare : result base.DataSource) (w : World),
    let self := fst (data_collector.DataCollector.__init__ settings mock foursquare w) in
    dict_get "mock" (sources self) = Some mock
    /\ get_available_sources self
       = (if foursquare_registered settings foursquare
          then ["mock"; "foursquare"] else ["mock"])
    /\ get_primary_source self
       = (if foursquare_registered settings foursquare then "foursquare" else "mock")
    /\ dict_mem (resolve self "auto") (sources self) = true.
Proof.
  intros settings mock foursquare w. cbv zeta.
  unfold data_collector.DataCollector.__init__, resolve, get_primary_source,
    get_available_sources.
  cbn [fst sources].
  destruct (initialize_sources_cases settings mock foursquare)
    as [[-> ->]|(fs & -> & _ & ->)]; repeat split.
Qed.

(** A record tagged with the source it was collected from. *)
Definition tagged (source : string) (b : pyval) : Prop :=
  exists d, b = PDict d /\ dict_get "data_source" d = Some (PStr source).

Lemma rmap_set_item_tagged source l :
  forall l',
    rmap (fun b => set_item b "data_source" (PStr source)) l = inr l' ->
    length l' = length l /\ Forall (tagged source) l'.
Proof.
  induction l as [|b l IH]; intros l' H; simpl in H.
  - injection H as <-. split; [reflexivity|constructor].
  - destruct (set_item b "data_source" (PStr source)) as [e|b'] eqn:Eb; [discriminate|].
    destruct (rmap _ l) as [e|bs] eqn:El; [discriminate|].
    injection H as <-. destruct (IH bs eq_refl) as [Hlen Hall].
    split; [simpl; now rewrite Hlen|].
    constructor; [|exact Hall].
    unfold set_item in Eb. destruct b; try discriminate. injection Eb as <-.
    eexists. split; [reflexivity|]. apply dict_get_set_same.
Qed.

Lemma attempt_result source data_source location query category limit timestamp w
  result w' :
  attempt source data_source location query category limit timestamp w
  = (inr result, w') ->
  exists r businesses count,
    result = PDict r
    /\ dict_keys r = result_keys
    /\ dict_get "success" r = Some (PBool true)
    /\ dict_get "source" r = Some (PStr source)
    /\ dict_get "businesses" r = Some businesses
    /\ dict_get "count" r = Some (PInt count)
    /\ Num.len businesses = inr count
    /\ (forall l, businesses = PList l -> Forall (tagged source) l).
Proof.
  unfold attempt, bind, lift, ret. intros H.
  destruct (base.search_businesses data_source location query category 5000 limit w)
    as [[e|found] w1]; [discriminate|].
  destruct (tag_all source found) as [e|businesses] eqn:Etag; [discriminate|].
  destruct (Num.len businesses) as [e|count] eqn:Elen; [discriminate|].
  injection H as <- <-.
  eexists _, businesses, count. split; [reflexivity|].
  repeat (split; [reflexivity|]). split; [exact Elen|].
  intros l ->. unfold tag_all in Etag.
  destruct found; simpl in Etag;
    try discriminate;
    try (destruct (chars _); discriminate);
    try (destruct (map _ _); discriminate).
  destruct (rmap _ l0) as [e|bs] eqn:Ebs; [discriminate|].
  simpl in Etag. injection Etag as <-.
  now apply (rmap_set_item_tagged source l0).
Qed.

(** X18. Whatever the adapters do, a result that [collect_businesses]
    returns has the nine keys of a result, [success] true, a source that
    is the source the request resolved to or "mock", a [count] that is the
    length of [businesses], and every business tagged with that source
    under [data_source]; it took one adapter call, or two of which the
    second went to Mock. *)
Theorem collected_result_is_counted_and_tagged :
  forall (self : data_collector.DataCollector.t)
         (location source query category : string) (limit : Z)
         (timestamp : string) (w w' : World) (result : pyval) (calls : list Call),
    collect_businesses self location source query category limit timestamp w
    = (inr result, w', calls) ->
    exists r served businesses count,
      result = PDict r
      /\ dict_keys r = result_keys
      /\ dict_get "success" r = Some (PBool true)
      /\ dict_get "source" r = Some (PStr served)
      /\ dict_get "businesses" r = Some businesses
      /\ dict_get "count" r = Some (PInt count)
      /\ Num.len businesses = inr count
      /\ (forall l, businesses = PList l -> Forall (tagged served) l)
      /\ ((served = resolve self source
           /\ calls = [CallSearch served location query category limit])
          \/ (served = "mock"
              /\ calls = [CallSearch (resolve self source) location query category limit;
                          CallSearch "mock" location query category limit])).
Proof.
  intros self location source query category limit timestamp w w' result calls H.
  unfold collect_businesses in H. fold (resolve self source) in H.
  destruct (dict_get (resolve self source) (sources self)) as [ds|]; [|discriminate].
  destruct (attempt (resolve self source) ds location query category limit timestamp w)
    as [[e|res] w1] eqn:E1.
  - destruct (negb _ && dict_mem "mock" (sources self))%bool; [|discriminate].
    destruct (dict_get "mock" (sources self)) as [mock|]; [|discriminate].
    destruct (attempt "mock" mock location query category limit timestamp w1)
      as [r2 w2] eqn:E2.
    injection H as -> <- <-.
    destruct (attempt_result _ _ _ _ _ _ _ _ _ _ E2)
      as (r & businesses & count & -> & Hk & Hs & Hsrc & Hb & Hc & Hlen & Htag).
    exists r, "mock", businesses, count. repeat (split; [assumption || reflexivity|]).
    right. split; reflexivity.
  - injection H as <- <- <-.
    destruct (attempt_result _ _ _ _ _ _ _ _ _ _ E1)
      as (r & businesses & count & -> & Hk & Hs & Hsrc & Hb & Hc & Hlen & Htag).
    exists r, (resolve self source), businesses, count.
    repeat (split; [assumption || reflexivity|]).
    left. split; reflexivity.
Qed.

Lemma collected_result_is_counted_and_tagged_witness :
  exists r served,
    fst (fst (collect_businesses the_collector "New York" "auto" "" "" 3
                "2026-01-01T00:00:00" world_500)) = inr (PDict r)
    /\ dict_get "source" r = Some (PStr served).
Proof.
  destruct (collect_businesses the_collector "New York" "auto" "" "" 3
              "2026-01-01T00:00:00" world_500) as [[[e|result] w'] calls] eqn:E;
    [vm_compute in E; discriminate|].
  destruct (collected_result_is_counted_and_tagged the_collector "New York" "auto"
              "" "" 3 "2026-01-01T00:00:00" world_500 w' result calls E)
    as (r & served & _ & _ & -> & _ & _ & Hsrc & _).
  exists r, served. split; [reflexivity|exact Hsrc].
Defined.

(** ** The views *)

(** Mock is the adapter of the package. *)
Definition real_mock (mock : base.DataSource) : Prop :=
  base.search_businesses mock = mock_data.MockDataSource.search_businesses.

Lemma attempt_mock_shape mock location query category limit timestamp w :
  real_mock mock ->
  exists r l w',
    attempt "mock" mock location query category limit timestamp w = (inr (PDict r), w')
    /\ dict_get "businesses" r = Some (PList l)
    /\ dict_get "count" r = Some (PInt (Z.of_nat (length l)))
    /\ dict_get "source" r = Some (PStr "mock").
Proof.
  intros Hmock. unfold attempt. rewrite Hmock.
  destruct (mock_search_returns location query category 5000 limit w)
    as (l & w' & Hs & Hall).
  destruct (tag_all_dicts "mock" l Hall) as (l' & Htag & _).
  unfold bind, lift, ret. rewrite Hs, Htag. simpl.
  eexists _, l', _. split; [reflexivity|]. repeat split.
Qed.

(** With Mock registered, a request for a registered source always gets
    a result. *)
Lemma collect_businesses_returns self mock location source query category limit
  timestamp w :
  real_mock mock ->
  dict_get "mock" (sources self) = Some mock ->
  dict_mem (resolve self source) (sources self) = true ->
  exists result w' calls,
    collect_businesses self location source query category limit timestamp w
    = (inr result, w', calls).
Proof.
  intros Hreal Hmock Hmem. apply dict_mem_true in Hmem as [ds Hds].
  unfold collect_businesses. fold (resolve self source). rewrite Hds.
  destruct (attempt (resolve self source) ds location query category limit timestamp w)
    as [[e|res] w1] eqn:E1; [|eauto].
  destruct (attempt_mock_shape mock location query category limit timestamp w1 Hreal)
    as (r & l & w2 & Hfallback & _).
  destruct (String.eqb_spec (resolve self source) "mock") as [Heq|Hne].
  - rewrite Heq in Hds, E1. assert (ds = mock) as -> by congruence.
    destruct (attempt_mock_shape mock location query category limit timestamp w Hreal)
      as (r' & l' & w2' & Hdirect & _).
    congruence.
  - assert (dict_mem "mock" (sources self) = true) as ->
      by (apply dict_mem_true; eauto).
    cbn [negb andb]. rewrite Hmock, Hfallback. eauto.
Qed.

(** The [limit] parameter is present and is not the text of an int. *)
Definition bad_limit (GET : views.QueryDict) : bool :=
  match views.GET_limit GET with
  | Some None => true
  | _ => false
  end.

(** X19. With the Mock adapter of the package, [BusinessSearchView]
    answers 500 in two cases only, a [limit] that is not an int and a
    source name that is not registered; every other request is answered
    200, whatever the Foursquare adapter does. *)
Theorem search_view_fails_only_on_bad_limit_or_unknown_source :
  forall (settings : Settings) (mock : base.DataSource)
         (foursquare : result base.DataSource) (GET : views.QueryDict)
         (timestamp : string) (w : World),
    real_mock mock ->
    let collector := fst (data_collector.DataCollector.__init__ settings mock foursquare w) in
    let source := default "auto" (views.GET_source GET) in
    views.status
      (fst (fst (views.BusinessSearchView_get settings mock foursquare GET timestamp w)))
    = if (bad_limit GET
          || negb (dict_mem (resolve collector source) (sources collector)))%bool
      then views.HTTP_500_INTERNAL_SERVER_ERROR
      else views.HTTP_200_OK.
Proof.
  intros settings mock foursquare GET timestamp w Hreal. cbv zeta.
  unfold views.BusinessSearchView_get, views.int_limit, bad_limit.
  destruct (views.GET_limit GET) as [[limit|]|]; cbn [orb]; try reflexivity.
  - cbn [data_collector.DataCollector.__init__ fst].
    set (self := {| sources := _initialize_sources settings mock foursquare |}).
    set (source := default "auto" (views.GET_source GET)).
    destruct (dict_mem (resolve self source) (sources self)) eqn:Hmem; cbn [negb].
    + destruct (collect_businesses_returns self mock
                  (default (DEFAULT_LOCATION settings) (views.GET_location GET))
                  source (default "" (views.GET_query GET))
                  (default "" (views.GET_category GET))
                  (Z.min (Z.max limit 1) 50) timestamp (set_generated [] w))
        as (result & w' & calls & ->); auto.
      apply (collector_sources_mock settings mock foursquare).
    + unfold collect_businesses. fold (resolve self source).
      apply dict_mem_false in Hmem. now rewrite Hmem.
  - cbn [data_collector.DataCollector.__init__ fst].
    set (self := {| sources := _initialize_sources settings mock foursquare |}).
    set (source := default "auto" (views.GET_source GET)).
    destruct (dict_mem (resolve self source) (sources self)) eqn:Hmem; cbn [negb].
    + destruct (collect_businesses_returns self mock
                  (default (DEFAULT_LOCATION settings) (views.GET_location GET))
                  source (default "" (views.GET_query GET))
                  (default "" (views.GET_category GET))
                  (Z.min (Z.max 10 1) 50) timestamp (set_generated [] w))
        as (result & w' & calls & ->); auto.
      apply (collector_sources_mock settings mock foursquare).
    + unfold collect_businesses. fold (resolve self source).
      apply dict_mem_false in Hmem. now rewrite Hmem.
Qed.

Lemma search_view_fails_only_on_bad_limit_or_unknown_source_witness :
  views.status
    (fst (fst (views.BusinessSearchView_get configured the_mock
                 (the_foursquare configured) competitor_request
                 "2026-01-01T00:00:00" world_500)))
  = views.HTTP_200_OK.
Proof.
  rewrite (search_view_fails_only_on_bad_limit_or_unknown_source configured the_mock
             (the_foursquare configured) competitor_request
             "2026-01-01T00:00:00" world_500); reflexivity.
Defined.

(** X20. Whatever the request, [BusinessSearchView] makes at most two
    adapter calls, all of them searches, and each carries a limit between
    1 and 50. *)
Theorem search_view_calls_carry_a_clamped_limit :
  forall (settings : Settings) (mock : base.DataSource)
         (foursquare : result base.DataSource) (GET : views.QueryDict)
         (timestamp : string) (w : World),
    let calls := snd (views.BusinessSearchView_get settings mock foursquare GET timestamp w) in
    (length calls <= 2)%nat
    /\ Forall (fun call => exists s l q c n,
                   call = CallSearch s l q c n /\ 1 <= n <= 50) calls.
Proof.
  intros settings mock foursquare GET timestamp w. cbv zeta.
  unfold views.BusinessSearchView_get.
  destruct (views.int_limit GET 10) as [e|limit]; [split; [simpl; lia|constructor]|].
  cbn [data_collector.DataCollector.__init__].
  match goal with
  | |- context [collect_businesses ?x1 ?x2 ?x3 ?x4 ?x5 ?x6 ?x7 ?x8] =>
      set (run := collect_businesses x1 x2 x3 x4 x5 x6 x7 x8);
      assert (exists s, snd run = [] \/ snd run = [CallSearch s x2 x4 x5 x6]
                        \/ snd run = [CallSearch s x2 x4 x5 x6;
                                      CallSearch "mock" x2 x4 x5 x6]) as [s Hcalls]
  end.
  { unfold run, collect_businesses.
    match goal with
    | |- context [dict_get ?k (sources ?c)] =>
        exists k; destruct (dict_get k (sources c)) as [ds|]; [|now left]
    end.
    destruct (attempt _ ds _ _ _ _ _ _) as [[e|r] w1]; [|right; now left].
    destruct (negb _ && dict_mem "mock" _)%bool; [|right; now left].
    destruct (dict_get "mock" _) as [m|]; [|right; now left].
    destruct (attempt "mock" m _ _ _ _ _ _). right. now right. }
  assert (snd (let '(result, w2, calls) := run in
               match result with
               | inr result => ({| views.data := result; views.status := views.HTTP_200_OK |},
                                w2, calls)
               | inl e => (views.error_response e, w2, calls)
               end) = snd run) as ->
    by (destruct run as [[[e|r] w2] calls]; reflexivity).
  destruct Hcalls as [-> | [-> | ->]].
  - split; [simpl; lia|constructor].
  - split; [simpl; lia|]. repeat constructor. eexists _, _, _, _, _.
    split; [reflexivity|lia].
  - split; [simpl; lia|]. repeat constructor; eexists _, _, _, _, _;
      (split; [reflexivity|lia]).
Qed.

(** X21. The three views that read [limit] answer 500 to a [limit] that
    is not the text of an int before a collector exists, and
    [CompetitorAnalysisView] answers 400 to a request without a business
    name once the limit has been read: in each case no adapter is called
    and nothing changes. A bad limit goes before a missing business
    name. *)
Theorem bad_requests_are_rejected_before_any_call :
  forall (settings : Settings) (mock : base.DataSource)
         (foursquare : result base.DataSource) (GET : views.QueryDict)
         (timestamp business_id : string) (w : World),
    (bad_limit GET = true ->
     views.BusinessSearchView_get settings mock foursquare GET timestamp w
     = (views.error_response (ValueError "invalid literal for int() with base 10"), w, [])
     /\ views.CompetitorAnalysisView_get settings mock foursquare GET timestamp w
        = (views.error_response (ValueError "invalid literal for int() with base 10"), w, [])
     /\ views.BusinessReviewsView_get settings mock foursquare GET business_id w
        = (views.error_response (ValueError "invalid literal for int() with base 10"), w, []))
    /\ (bad_limit GET = false ->
        nonempty (default "" (views.GET_business GET)) = false ->
        views.CompetitorAnalysisView_get settings mock foursquare GET timestamp w
        = ({| views.data := PDict [("error", PStr "Business name is required");
                                   ("success", PBool false)];
              views.status := views.HTTP_400_BAD_REQUEST |}, w, [])).
Proof.
  intros settings mock foursquare GET timestamp business_id w.
  unfold bad_limit, views.BusinessSearchView_get, views.CompetitorAnalysisView_get,
    views.BusinessReviewsView_get, views.int_limit.
  split.
  - destruct (views.GET_limit GET) as [[z|]|]; try discriminate. intros _.
    repeat split.
  - destruct (views.GET_limit GET) as [[z|]|]; try discriminate;
      intros _ ->; reflexivity.
Qed.

(** A request with [limit=abc] and no business name. *)
Definition request_with_bad_limit : views.QueryDict :=
  {| views.GET_location := None; views.GET_source := None;
     views.GET_query := None; views.GET_category := None;
     views.GET_business := None; views.GET_limit := Some None |}.

Lemma bad_requests_are_rejected_before_any_call_witness :
  views.CompetitorAnalysisView_get configured the_mock (the_foursquare configured)
    request_with_bad_limit "2026-01-01T00:00:00" world_500
  = (views.error_response (ValueError "invalid literal for int() with base 10"),
     world_500, []).
Proof.
  apply (proj1 (bad_requests_are_rejected_before_any_call configured the_mock
                  (the_foursquare configured) request_with_bad_limit
                  "2026-01-01T00:00:00" "4b5a" world_500)).
  reflexivity.
Defined.




Lemma tag_all_has_len source v v' :
  tag_all source v = inr v' -> exists n, Num.len v' = inr n.
Proof.
  unfold tag_all. destruct v; simpl; try discriminate.
  - destruct (chars s); [|discriminate]. intros [= <-]. simpl. eauto.
  - destruct (rmap _ l); simpl; [discriminate|]. intros [= <-]. simpl. eauto.
  - destruct (map _ d); [|discriminate]. intros [= <-]. simpl. eauto.
Qed.

(** X23. For a [limit] that is an int, [BusinessReviewsView] always
    answers 200 with [count] the length of [reviews]: for an unknown
    source, for an adapter that raises and for reviews that cannot be
    tagged the list is empty. The limit reaches the adapter as it was
    sent, without a bound. *)
Theorem reviews_view_always_answers_200 :
  forall (settings : Settings) (mock : base.DataSource)
         (foursquare : result base.DataSource) (GET : views.QueryDict)
         (business_id : string) (w : World) (limit : Z),
    views.int_limit GET 20 = inr limit ->
    let out := views.BusinessReviewsView_get settings mock foursquare GET business_id w in
    let collector := fst (data_collector.DataCollector.__init__ settings mock foursquare w) in
    let source := views.detect_source collector (default "auto" (views.GET_source GET))
                    business_id in
    exists reviews count,
      fst (fst out)
      = {| views.data := PDict [("success", PBool true);
                                ("business_id", PStr business_id);
                                ("source", PStr source);
                                ("count", PInt count);
                                ("reviews", reviews)];
           views.status := views.HTTP_200_OK |}
      /\ Num.len reviews = inr count
      /\ snd out = (if dict_mem source (sources collector)
                    then [CallReviews source business_id limit] else [])
      /\ (dict_mem source (sources collector) = false -> reviews = PList []).
Proof.
  intros settings mock foursquare GET business_id w limit Hlimit. cbv zeta.
  unfold views.BusinessReviewsView_get. rewrite Hlimit.
  cbn [data_collector.DataCollector.__init__ fst].
  set (self := {| sources := _initialize_sources settings mock foursquare |}).
  set (source := views.detect_source self (default "auto" (views.GET_source GET))
                   business_id).
  assert (exists reviews w2 count,
            data_collector.DataCollector.get_business_reviews self business_id source
              limit (set_generated [] w)
            = (reviews, w2,
               if dict_mem source (sources self)
               then [CallReviews source business_id limit] else [])
            /\ Num.len reviews = inr count
            /\ (dict_mem source (sources self) = false -> reviews = PList []))
    as (reviews & w2 & count & -> & Hlen & Hnone).
  { unfold data_collector.DataCollector.get_business_reviews, dict_mem.
    destruct (dict_get source (sources self)) as [ds|];
      [|eexists _, _, _; split; [reflexivity|]; split; [reflexivity|auto]].
    destruct (base.get_reviews ds business_id limit (set_generated [] w))
      as [[e|found] w1];
      [eexists _, _, _; split; [reflexivity|]; split; [reflexivity|discriminate]|].
    destruct (tag_all source found) as [e|reviews] eqn:Etag;
      [eexists _, _, _; split; [reflexivity|]; split; [reflexivity|discriminate]|].
    destruct (tag_all_has_len source found reviews Etag) as [n Hn].
    eexists _, _, _. split; [reflexivity|]. split; [exact Hn|discriminate]. }
  rewrite Hlen. exists reviews, count. repeat split; auto.
Qed.

(** A request for 500 reviews. *)
Definition request_500_reviews : views.QueryDict :=
  {| views.GET_location := None; views.GET_source := None;
     views.GET_query := None; views.GET_category := None;
     views.GET_business := None; views.GET_limit := Some (Some 500) |}.

Lemma reviews_view_always_answers_200_witness :
  snd (views.BusinessReviewsView_get configured the_mock (the_foursquare configured)
         request_500_reviews "4b5a" world_500)
  = [CallReviews "foursquare" "4b5a" 500].
Proof.
  destruct (reviews_view_always_answers_200 configured the_mock
              (the_foursquare configured) request_500_reviews "4b5a" world_500 500)
    as (reviews & count & _ & _ & Hcalls & _); [reflexivity|].
  exact Hcalls.
Defined.

(** An adapter whose search raises on every call. *)
Definition search_always_raises (data_source : base.DataSource) : Prop :=
  forall location query category radius limit w,
  exists e w',
    base.search_businesses data_source location query category radius limit w
    = (inl e, w').

Lemma collect_businesses_served_by_mock self mock data_source location source
  query category limit timestamp w :
  real_mock mock ->
  dict_get "mock" (sources self) = Some mock ->
  dict_get (resolve self source) (sources self) = Some data_source ->
  resolve self source = "mock" \/ search_always_raises data_source ->
  exists r l w' calls,
    collect_businesses self location source query category limit timestamp w
    = (inr (PDict r), w', calls)
    /\ dict_get "businesses" r = Some (PList l)
    /\ dict_get "count" r = Some (PInt (Z.of_nat (length l))).
Proof.
  intros Hreal Hmock Hds Hcase.
  unfold collect_businesses. fold (resolve self source). rewrite Hds.
  destruct (String.eqb_spec (resolve self source) "mock") as [Heq|Hne].
  - rewrite Heq in *. assert (data_source = mock) as -> by congruence.
    destruct (attempt_mock_shape mock location query category limit timestamp w Hreal)
      as (r & l & w' & -> & Hb & Hc & _).
    eauto 10.
  - destruct Hcase as [Heq|Hraises]; [contradiction|].
    destruct (Hraises location query category 5000 limit w) as (e & w1 & Hsearch).
    unfold attempt at 1. unfold bind at 1. rewrite Hsearch.
    assert (dict_mem "mock" (sources self) = true) as ->
      by (apply dict_mem_true; eauto).
    cbn [negb andb]. rewrite Hmock.
    destruct (attempt_mock_shape mock location query category limit timestamp w1 Hreal)
      as (r & l & w' & -> & Hb & Hc & _).
    eauto 10.
Qed.

(** X24. [TestConnectionView] reports a source as connected whenever the
    test search returns, and a search that fails is answered by Mock: with
    the Mock adapter of the package, a registered Foursquare adapter whose
    every search raises is still reported with status "connected", next
    to Mock, in a response with status 200. *)
Theorem test_connection_reports_a_failing_source_as_connected :
  forall (settings : Settings) (mock fs : base.DataSource) (use_mock_data : pyval)
         (timestamp : string -> string) (w : World),
    real_mock mock ->
    foursquare_registered settings (inr fs) = true ->
    search_always_raises fs ->
    let response :=
      fst (fst (views.TestConnectionView_get settings mock (inr fs) use_mock_data
                  timestamp w)) in
    views.status response = views.HTTP_200_OK
    /\ exists results,
         py_get (views.data response) "test_results" PNone = inr (PDict results)
         /\ dict_keys results = ["mock"; "foursquare"]
         /\ forall source, In source ["mock"; "foursquare"] ->
              exists count test_data,
                dict_get source results
                = Some (PDict [("status", PStr "connected");
                               ("count", count);
                               ("test_data", test_data)]).
Proof.
  intros settings mock fs use_mock_data timestamp w Hreal Hreg Hraises. cbv zeta.
  unfold views.TestConnectionView_get.
  cbn [data_collector.DataCollector.__init__ fst].
  set (self := {| sources := _initialize_sources settings mock (inr fs) |}).
  assert (sources self = [("mock", mock); ("foursquare", fs)]) as Hsources.
  { unfold self. cbn [sources].
    destruct (initialize_sources_cases settings mock (inr fs))
      as [[Hno _]|(fs' & _ & Hfs & ->)]; [congruence|].
    now injection Hfs as <-. }
  assert (get_available_sources self = ["mock"; "foursquare"]) as ->
    by (unfold get_available_sources; now rewrite Hsources).
  assert (dict_get "mock" (sources self) = Some mock) as Hmock
    by now rewrite Hsources.
  cbn [views.test_sources].
  destruct (collect_businesses_served_by_mock self mock mock "New York" "mock" "" "" 2
              (timestamp "mock") (set_generated [] w) Hreal Hmock)
    as (r1 & l1 & w1 & calls1 & -> & Hb1 & Hc1);
    [now rewrite Hsources|now left|].
  destruct (collect_businesses_served_by_mock self mock fs "New York" "foursquare"
              "" "" 2 (timestamp "foursquare") w1 Hreal Hmock)
    as (r2 & l2 & w2 & calls2 & -> & Hb2 & Hc2);
    [now rewrite Hsources|now right|].
  cbn [rbind py_get]. rewrite Hb1, Hc1, Hb2, Hc2. cbn [slice_value rbind].
  cbn [fst views.status views.data py_get dict_get String.eqb Ascii.eqb Bool.eqb].
  split; [reflexivity|].
  eexists. split; [reflexivity|]. split; [reflexivity|].
  intros source [<-|[<-|[]]]; eexists _, _; reflexivity.
Qed.

Lemma test_connection_reports_a_failing_source_as_connected_witness :
  views.status
    (fst (fst (views.TestConnectionView_get configured the_mock
                 (inr failing_source) (PBool true) (fun _ => "") world_500)))
  = views.HTTP_200_OK.
Proof.
  apply (test_connection_reports_a_failing_source_as_connected configured the_mock
           failing_source (PBool true) (fun _ => "") world_500).
  - reflexivity.
  - reflexivity.
  - intros location query category radius limit w. eexists _, _. reflexivity.
Defined.

(** ** The Mock adapter *)

(** A record of the Mock adapter that passes the two filters of a
    search: it is tagged with source "mock", its name contains the query
    when there is one, case put aside, and its category names include the
    category when there is one. *)
Definition mock_match (query category : string) (b : pyval) : Prop :=
  exists d nm cs,
    b = PDict d
    /\ dict_get "source" d = Some (PStr "mock")
    /\ dict_get "name" d = Some (PStr nm)
    /\ dict_get "category_names" d = Some (PList (map PStr cs))
    /\ (nonempty query = true -> contains (lower query) (lower nm) = true)
    /\ (nonempty category = true -> In category cs).

Lemma generate_business_record city index w :
  exists d w' nm cs,
    mock_data.MockDataSource._generate_business city index w = (PDict d, w')
    /\ dict_get "source" d = Some (PStr "mock")
    /\ dict_get "name" d = Some (PStr nm)
    /\ dict_get "category_names" d = Some (PList (map PStr cs)).
Proof.
  unfold mock_data.MockDataSource._generate_business.
  repeat match goal with
         | |- context [let '(_, _) := ?x in _] => destruct x
         end.
  eexists _, _, _, _. split; [reflexivity|]. repeat split.
Qed.

Lemma existsb_PStr category cs :
  existsb (fun v => match v with PStr s => String.eqb category s | _ => false end)
    (map PStr cs) = true ->
  In category cs.
Proof.
  induction cs as [|c cs IH]; simpl; [discriminate|].
  destruct (String.eqb_spec category c) as [->|Hne]; [now left|].
  intros H. right. now apply IH.
Qed.

Lemma mock_search_loop_matches city query category n :
  forall i w, exists l w',
    mock_data.MockDataSource.search_loop city query category n i w = (inr l, w')
    /\ (length l <= n)%nat
    /\ Forall (mock_match query category) l.
Proof.
  induction n as [|n IH]; intros i w; simpl.
  - eexists [], w. split; [reflexivity|]. split; [simpl; lia|constructor].
  - destruct (generate_business_record city i w)
      as (d & w1 & nm & cs & Hg & Hsrc & Hnm & Hcs).
    rewrite Hg.
    unfold bind, lift, ret, mock_data.MockDataSource.name_of,
      mock_data.MockDataSource.has_category, py_item, rbind.
    rewrite Hnm, Hcs.
    destruct (IH (i + 1) w1) as (l & w' & Hl & Hlen & Hall).
    assert (forall (keep : bool),
              (keep = true -> mock_match query category (PDict d)) ->
              (length (if keep then PDict d :: l else l) <= S n)%nat
              /\ Forall (mock_match query category)
                   (if keep then PDict d :: l else l)) as Hkeep.
    { intros [|] Hm; (split; [simpl; lia|]); [constructor; auto|exact Hall]. }
    assert (forall (keep : bool) (w0 : World),
              (keep = true -> mock_match query category (PDict d)) ->
              exists (l0 : list pyval) (w0' : World),
                ((inr (if keep then PDict d :: l else l) : result (list pyval)), w0)
                = (inr l0, w0')
                /\ (length l0 <= S n)%nat
                /\ Forall (mock_match query category) l0) as Hdone
      by (intros keep w0 Hm; eexists _, _; split; [reflexivity|]; now apply Hkeep).
    destruct (nonempty query) eqn:Hq; destruct (nonempty category) eqn:Hc;
      try destruct (contains (lower query) (lower nm)) eqn:Hcontains;
      try destruct (existsb _ (map PStr cs)) eqn:Hcat;
      cbn [negb]; rewrite Hl;
      first
        [ refine (Hdone false w' _); discriminate
        | refine (Hdone true w' _); intros _; exists d, nm, cs;
          do 4 (split; [solve [auto]|]);
          split; intros; try congruence; try (now apply existsb_PStr) ].
Qed.

(** X25. A Mock search never raises and returns a list of at most
    [min(limit, 20)] records, none at all for a limit of zero or less,
    whatever the random draws; each record is tagged with source "mock",
    and each passes the filters: with a query, its name contains the
    query whatever the case of the letters; with a category, its category
    names include it. *)
Theorem mock_search_returns_at_most_twenty_matching_records :
  forall (location query category : string) (radius limit : Z) (w : World),
  exists l w',
    mock_data.MockDataSource.search_businesses location query category radius limit w
    = (inr (PList l), w')
    /\ Z.of_nat (length l) <= Z.max 0 (Z.min limit 20)
    /\ Forall (mock_match query category) l.
Proof.
  intros location query category radius limit w.
  unfold mock_data.MockDataSource.search_businesses.
  destruct (mock_data.MockDataSource._extract_city location w) as [city w1].
  destruct (mock_search_loop_matches city query category
              (Z.to_nat (Z.min limit 20)) 0 w1) as (l & w' & Hl & Hlen & Hall).
  unfold bind, ret. rewrite Hl. exists l, w'.
  split; [reflexivity|]. split; [lia|exact Hall].
Qed.

(** ** Request parameters and records without a name *)

(** X26. The parameters of a Foursquare search: the limit sent is
    [min(limit, 50)] and the radius [min(radius, 100000)]; the location
    goes under [near] when it holds no comma and under [ll] when it holds
    exactly one; a location with two commas or more is not sent at all.
    No parameter is [None]. *)
Theorem search_params_bound_limit_and_place_the_location :
  forall (location query category : string) (radius limit : Z),
    let params := search_params location query category radius limit in
    let commas := count_char "," location in
    dict_get "limit" params = Some (PInt (Z.min limit 50))
    /\ dict_get "radius" params = Some (PInt (Z.min radius 100000))
    /\ dict_get "near" params
       = (if Nat.eqb commas 0 then Some (PStr location) else None)
    /\ dict_get "ll" params
       = (if Nat.eqb commas 1 then Some (PStr location) else None)
    /\ ((2 <= commas)%nat ->
        dict_get "near" params = None /\ dict_get "ll" params = None)
    /\ Forall (fun kv => snd kv <> PNone) params.
Proof.
  intros location query category radius limit. cbv zeta.
  unfold search_params.
  assert ((2 <= count_char "," location)%nat ->
          Nat.eqb (count_char "," location) 0 = false
          /\ Nat.eqb (count_char "," location) 1 = false) as Htwo
    by (intros H; split; apply Nat.eqb_neq; lia).
  destruct (Nat.eqb (count_char "," location) 0) eqn:H0;
    destruct (Nat.eqb (count_char "," location) 1) eqn:H1;
    destruct (nonempty query); destruct (nonempty category);
    cbn [List.filter snd dict_get String.eqb Ascii.eqb Bool.eqb];
    repeat (split; [reflexivity|]);
    (split;
     [intros H; destruct (Htwo H); try discriminate; split; reflexivity
     |repeat constructor; discriminate]).
Qed.

Lemma search_params_bound_limit_and_place_the_location_witness :
  let params := search_params "New York, NY, USA" "" "" 5000 200 in
  dict_get "near" params = None
  /\ dict_get "ll" params = None
  /\ dict_get "limit" params = Some (PInt 50).
Proof.
  cbv zeta.
  destruct (search_params_bound_limit_and_place_the_location
              "New York, NY, USA" "" "" 5000 200) as (Hlimit & _ & _ & _ & Htwo & _).
  destruct Htwo as [Hnear Hll]; [vm_compute; lia|].
  split; [exact Hnear|]. split; [exact Hll|exact Hlimit].
Defined.

(** A record without a name, as [_format_business] leaves a place whose
    name is empty or null. *)
Definition nameless (b : pyval) : Prop :=
  exists d, b = PDict d /\ dict_get "name" d = None.

Lemma filter_competitors_raises target bs :
  Exists nameless bs ->
  exists e, filter_competitors target bs = inl e.
Proof.
  induction bs as [|b bs IH]; intros Hex; [inversion Hex|].
  cbn [filter_competitors]. unfold rbind.
  destruct (is_competitor target b) as [e|keep] eqn:Eb; [eauto|].
  apply Exists_cons in Hex as [(d & -> & Hname)|Hex].
  - unfold is_competitor, py_item in Eb. rewrite Hname in Eb. discriminate.
  - destruct (IH Hex) as [e ->]. eauto.
Qed.

(** X27. Competitor analysis raises as soon as one business of the
    search result has no name, be it a business past the requested limit
    or one the analysis would not keep; no report is built. *)
Theorem competitor_analysis_raises_on_a_nameless_business :
  forall (target : string) (limit : Z) (results : list (string * pyval))
         (bs : list pyval),
    dict_get "businesses" results = Some (PList bs) ->
    Exists nameless bs ->
    exists e, analyse target limit (PDict results) = inl e.
Proof.
  intros target limit results bs Hbs Hex.
  unfold analyse. cbn [py_item]. rewrite Hbs. cbn [rbind py_iter].
  destruct (filter_competitors_raises target bs Hex) as [e ->]. eauto.
Qed.

(** A place whose name is the empty string formats to a record without
    a name. *)
Definition place_with_empty_name : pyval :=
  PDict [("fsq_id", PStr "4b5a"); ("name", PStr "")].

Lemma competitor_analysis_raises_on_a_nameless_business_witness :
  exists e,
    analyse "zen" 1
      (PDict [("businesses",
               PList (competitor "Alfa" 1 1 :: format_places [place_with_empty_name]));
              ("source", PStr "foursquare")])
    = inl e.
Proof.
  apply (competitor_analysis_raises_on_a_nameless_business "zen" 1 _
           (competitor "Alfa" 1 1 :: format_places [place_with_empty_name])).
  - reflexivity.
  - apply Exists_cons_tl. vm_compute. apply Exists_cons_hd.
    eexists. split; reflexivity.
Defined.

(** ** The Yelp adapter: the budget tracker and the rate limiter at work *)

Lemma can_make_request_state today api_name endpoint self :
  snd (can_make_request today api_name endpoint self)
  = set_data (set_daily_usage
                (init_usage today api_name (daily_usage (budget_data self)))
                (budget_data self)) self.
Proof.
  unfold can_make_request.
  destruct (_ <=? _); [reflexivity|]. destruct (fgt _ _); reflexivity.
Qed.

(** The request of a Yelp search. *)
Definition yelp_request (location term categories : string) (radius limit : Z)
  : Event :=
  EvRequest (yelp.YelpSource.BASE_URL +++ "/businesses/search")
    (yelp.YelpSource.search_params location term categories radius limit).

(** The next request is answered: there is a response, its status is no
    HTTP error and its body is JSON. *)
Definition answered (w : World) : bool :=
  match network w with
  | NetResponse r :: _ =>
      (negb (status_code r =? 429)
       && negb (is_http_error (status_code r))
       && match json r with Some _ => true | None => false end)%bool
  | _ => false
  end.

(** X28. When the budget tracker refuses, a Yelp search raises "Daily
    limit reached for Yelp API" right after the check: no request is
    sent, the rate limiter is not consulted, nothing is recorded and the
    budget file is not written. *)
Theorem yelp_search_refused_by_the_budget_sends_nothing :
  forall (today : string) (now : float) (today_r today_a : string)
         (self : yelp.YelpSource.t) (file : Store)
         (location term categories : string) (radius limit : Z) (w : World),
    fst (can_make_request today "yelp" "search" (yelp.YelpSource.budget_tracker self))
    = false ->
    exists self',
      yelp.YelpSource.search_businesses today now today_r today_a self file
        location term categories radius limit w
      = (inl (yelp.YelpSource.Raised (Exception "Daily limit reached for Yelp API")),
         self', file, emit (EvBudgetCheck "yelp" "search") w)
      /\ yelp.YelpSource.rate_limiter self' = yelp.YelpSource.rate_limiter self
      /\ total_cost (budget_data (yelp.YelpSource.budget_tracker self'))
         = total_cost (budget_data (yelp.YelpSource.budget_tracker self))
      /\ forall day name,
           counter day name
             (daily_usage (budget_data (yelp.YelpSource.budget_tracker self')))
           = counter day name
               (daily_usage (budget_data (yelp.YelpSource.budget_tracker self))).
Proof.
  intros today now today_r today_a self file location term categories radius limit w
    Hrefused.
  unfold yelp.YelpSource.search_businesses.
  pose proof (can_make_request_state today "yelp" "search"
                (yelp.YelpSource.budget_tracker self)) as Hstate.
  destruct (can_make_request today "yelp" "search" (yelp.YelpSource.budget_tracker self))
    as [allowed tracker].
  cbn [fst snd] in Hrefused, Hstate. subst allowed tracker. cbn [negb].
  eexists. split; [reflexivity|]. split; [reflexivity|]. split; [reflexivity|].
  intros day name. cbn. apply counter_init_usage.
Qed.

(** A Yelp adapter whose tracker has recorded the 500 searches of the
    day. *)
Definition yelp_at_the_cap : yelp.YelpSource.t :=
  {| yelp.YelpSource.api_key := "key";
     yelp.YelpSource.budget_tracker :=
       fst (record_all (same_day "2026-01-01" "yelp" "search" 500)
              (fst (BudgetTracker.__init__ None)) None);
     yelp.YelpSource.rate_limiter := RateLimiter.__init__ 10 |}.

Lemma yelp_search_refused_by_the_budget_sends_nothing_witness :
  snd (yelp.YelpSource.search_businesses "2026-01-01" (float_of_Z 0)
         "2026-01-01" "2026-01-01" yelp_at_the_cap None "New York" "" "" 1000 20
         world_ok)
  = emit (EvBudgetCheck "yelp" "search") world_ok.
Proof.
  destruct (yelp_search_refused_by_the_budget_sends_nothing "2026-01-01"
              (float_of_Z 0) "2026-01-01" "2026-01-01" yelp_at_the_cap None
              "New York" "" "" 1000 20 world_ok) as (self' & -> & _).
  - apply (daily_cap_helper "2026-01-01" "yelp" "search" "search" 500).
    vm_compute. discriminate.
  - reflexivity.
Defined.

(** X29. In every run of a Yelp search the budget check comes first, a
    request is sent only after the budget has allowed it and the rate
    limiter has been passed, and the request is recorded only after it has
    been answered: the steps of the run are the check alone, or the check,
    the wait and the request, or these three and the recording. *)
Theorem yelp_search_consults_the_governors_before_the_request :
  forall (today : string) (now : float) (today_r today_a : string)
         (self : yelp.YelpSource.t) (file : Store)
         (location term categories : string) (radius limit : Z) (w : World),
    let w' := snd (yelp.YelpSource.search_businesses today now today_r today_a
                     self file location term categories radius limit w) in
    let check := EvBudgetCheck "yelp" "search" in
    let request := yelp_request location term categories radius limit in
    exists steps,
      events w' = (events w ++ steps)%list
      /\ (steps = [check]
          \/ exists slept,
               (steps = [check; EvRateWait slept; request] /\ answered w = false)
               \/ (steps = [check; EvRateWait slept; request;
                            EvBudgetRecord "yelp" "search"]
                   /\ answered w = true)).
Proof.
  intros today now today_r today_a self file location term categories radius limit w.
  cbv zeta. unfold yelp.YelpSource.search_businesses, answered, requests_get.
  destruct (can_make_request today "yelp" "search" (yelp.YelpSource.budget_tracker self))
    as [[|] tracker]; cbn [negb];
    [|exists [EvBudgetCheck "yelp" "search"]; split; [reflexivity|now left]].
  destruct (RateLimiter.wait_if_needed now _) as [e|[slept limiter]];
    [exists [EvBudgetCheck "yelp" "search"]; split; [reflexivity|now left]|].
  cbn [network emit].
  destruct (network w) as [|[|r] rest].
  - eexists. split; [cbn; rewrite <- !app_assoc; reflexivity|].
    right. exists slept. left. split; reflexivity.
  - eexists. split; [cbn; rewrite <- !app_assoc; reflexivity|].
    right. exists slept. left. split; reflexivity.
  - destruct (status_code r =? 429); cbn [negb andb].
    { eexists. split; [cbn; rewrite <- !app_assoc; reflexivity|].
      right. exists slept. left. split; reflexivity. }
    destruct (is_http_error (status_code r)); cbn [negb andb].
    { eexists. split; [cbn; rewrite <- !app_assoc; reflexivity|].
      right. exists slept. left. split; reflexivity. }
    destruct (json r) as [data|].
    2:{ eexists. split; [cbn; rewrite <- !app_assoc; reflexivity|].
        right. exists slept. left. split; reflexivity. }
    destruct (record_request today_r today_a "yelp" "search" _ file)
      as [cost [tracker' file']].
    destruct (rbind _ _) as [e|businesses];
      [|destruct (yelp.YelpSource.format_businesses businesses)];
      (eexists; split; [cbn; rewrite <- !app_assoc; reflexivity|];
       right; exists slept; right; split; reflexivity).
Qed.

(** X30. A Yelp search that the budget allows, under a rate limit of at
    least one, is counted exactly when its request is answered: then the
    day's counter of "yelp" rises by one, the total cost by the cost of a
    Yelp search, and the budget file is rewritten; when the request fails
    the search raises the [NameError] of its logging statement and leaves
    every counter, the total cost and the file as they were. A search
    returns a result only if its request was answered. *)
Theorem yelp_search_counts_answered_requests_only :
  forall (today : string) (now : float) (today_r today_a : string)
         (self : yelp.YelpSource.t) (file : Store)
         (location term categories : string) (radius limit : Z) (w : World),
    fst (can_make_request today "yelp" "search" (yelp.YelpSource.budget_tracker self))
    = true ->
    1 <= RateLimiter.requests_per_minute (yelp.YelpSource.rate_limiter self) ->
    let out := yelp.YelpSource.search_businesses today now today_r today_a self file
                 location term categories radius limit w in
    let result := fst (fst (fst out)) in
    let before := budget_data (yelp.YelpSource.budget_tracker self) in
    let after := budget_data (yelp.YelpSource.budget_tracker (snd (fst (fst out)))) in
    (forall day name,
       counter day name (daily_usage after)
       = counter day name (daily_usage before)
         + (if (answered w && String.eqb day today_r && String.eqb name "yelp")%bool
            then 1 else 0))
    /\ total_cost after
       = (if answered w
          then fadd (total_cost before)
                 (cost_of (yelp.YelpSource.budget_tracker self) "yelp" "search")
          else total_cost before)
    /\ snd (fst out) = (if answered w then Some after else file)
    /\ (answered w = false -> result = inl (yelp.YelpSource.NameError "logger"))
    /\ ((exists v, result = inr v) -> answered w = true).
Proof.
  intros today now today_r today_a self file location term categories radius limit w
    Hallowed Hlimit. cbv zeta.
  unfold yelp.YelpSource.search_businesses.
  pose proof (can_make_request_state today "yelp" "search"
                (yelp.YelpSource.budget_tracker self)) as Hstate.
  destruct (can_make_request today "yelp" "search" (yelp.YelpSource.budget_tracker self))
    as [allowed tracker].
  cbn [fst snd] in Hallowed, Hstate. subst allowed. cbn [negb].
  cbn [yelp.YelpSource.rate_limiter yelp.YelpSource.set_budget_tracker].
  destruct (wait_if_needed_never_rejects now (yelp.YelpSource.rate_limiter self) Hlimit)
    as (slept & limiter & -> & _).
  assert (forall day name,
            counter day name (daily_usage (budget_data tracker))
            = counter day name
                (daily_usage (budget_data (yelp.YelpSource.budget_tracker self))))
    as Hsame by (intros; rewrite Hstate; apply counter_init_usage).
  assert (total_cost (budget_data tracker)
          = total_cost (budget_data (yelp.YelpSource.budget_tracker self))) as Htotal
    by (rewrite Hstate; reflexivity).
  assert (cost_of tracker "yelp" "search"
          = cost_of (yelp.YelpSource.budget_tracker self) "yelp" "search") as Hcost
    by (rewrite Hstate; reflexivity).
  unfold answered, requests_get. cbn [network emit].
  assert (let after := budget_data tracker in
          let before := budget_data (yelp.YelpSource.budget_tracker self) in
          (forall day name,
             counter day name (daily_usage after)
             = counter day name (daily_usage before)
               + (if (false && String.eqb day today_r && String.eqb name "yelp")%bool
                  then 1 else 0))
          /\ total_cost after = total_cost before
          /\ file = file
          /\ (false = false ->
              (inl (yelp.YelpSource.NameError "logger") : yelp.YelpSource.raised + pyval)
              = inl (yelp.YelpSource.NameError "logger"))
          /\ ((exists v : pyval,
                 (inl (yelp.YelpSource.NameError "logger")
                  : yelp.YelpSource.raised + pyval) = inr v) -> false = true))
    as Hfailed.
  { cbv zeta. split; [intros day name; rewrite Hsame; cbn [andb]; lia|].
    split; [exact Htotal|]. split; [reflexivity|]. split; [reflexivity|].
    intros (v & Hv). discriminate Hv. }
  destruct (network w) as [|[|r] rest]; [exact Hfailed|exact Hfailed|].
  destruct (status_code r =? 429); cbn [negb andb]; [exact Hfailed|].
  destruct (is_http_error (status_code r)); cbn [negb andb]; [exact Hfailed|].
  destruct (json r) as [data|]; [|exact Hfailed].
  - cbn [yelp.YelpSource.budget_tracker yelp.YelpSource.set_rate_limiter
         yelp.YelpSource.set_budget_tracker].
    pose proof (record_request_step today_r today_a "yelp" "search" tracker file)
      as (_ & Ht & _ & _ & Hf).
    pose proof (fun day name =>
                  counter_after_record today_r today_a "yelp" "search" tracker file
                    day name) as Hc.
    destruct (record_request today_r today_a "yelp" "search" tracker file)
      as [cost [tracker' file']].
    cbn [fst snd] in Ht, Hf, Hc.
    assert (forall day name,
              counter day name (daily_usage (budget_data tracker'))
              = counter day name
                  (daily_usage (budget_data (yelp.YelpSource.budget_tracker self)))
                + (if (true && String.eqb day today_r && String.eqb name "yelp")%bool
                   then 1 else 0)) as Hcounted.
    { intros day name. rewrite Hc, <- !Hsame. cbn [andb].
      destruct (String.eqb_spec day today_r) as [->|Hd]; cbn [andb]; [|lia].
      destruct (String.eqb_spec name "yelp") as [->|Hn]; lia. }
    destruct (rbind _ _) as [e|businesses];
      [|destruct (yelp.YelpSource.format_businesses businesses)];
      cbn [fst snd yelp.YelpSource.budget_tracker yelp.YelpSource.set_budget_tracker];
      (split; [exact Hcounted|]);
      (split; [rewrite Ht, Htotal, Hcost; reflexivity|]);
      (split; [exact Hf|]);
      (split; [discriminate|reflexivity]).
Qed.

(** A Yelp adapter with a new tracker and a new limiter. *)
Definition yelp_new : yelp.YelpSource.t :=
  {| yelp.YelpSource.api_key := "key";
     yelp.YelpSource.budget_tracker := fst (BudgetTracker.__init__ None);
     yelp.YelpSource.rate_limiter := RateLimiter.__init__ 10 |}.

(** A world in which the next request is answered with one Yelp
    business. *)
Definition world_yelp : World :=
  {| cache := ∅;
     network :=
       [NetResponse
          {| status_code := 200;
             json := Some (PDict [("businesses",
                                   PList [PDict [("id", PStr "joes");
                                                 ("name", PStr "Joe's Pizza")]])]) |}];
     random := []; generated_businesses := []; events := [] |}.

Lemma yelp_search_counts_answered_requests_only_witness :
  let out := yelp.YelpSource.search_businesses "2026-01-01" (float_of_Z 0)
               "2026-01-01" "2026-01-01" yelp_new None "New York" "" "" 1000 20
               world_yelp in
  counter "2026-01-01" "yelp"
    (daily_usage (budget_data (yelp.YelpSource.budget_tracker (snd (fst (fst out))))))
  = 1.
Proof.
  cbv zeta.
  destruct (yelp_search_counts_answered_requests_only "2026-01-01" (float_of_Z 0)
              "2026-01-01" "2026-01-01" yelp_new None "New York" "" "" 1000 20
              world_yelp) as (Hcount & _).
  - vm_compute. reflexivity.
  - vm_compute. discriminate.
  - rewrite Hcount. reflexivity.
Defined.
